(** * openbazaar-go (Phore fork): wallet, service, exchange-rate decoder and
      repository migration, embedded shallowly and checked against the
      design document.

    Sources embedded here:
    - package [migrations] (unnamed/part_000): [swarmKeyData],
      [migration005.Up], [migration005.Down];
    - [bitcoin/exchange/bitcoinprices.go]: [CMCDecoder.decode],
      [NewBitcoinPriceFetcher], [GetExchangeRate], [GetLatestRate],
      [GetAllRates], [UnitsPerCoin], [fetchCurrentRates], [fetch];
    - package [service] (unnamed/part_001): [handleNewMessage],
      [SendRequest];
    - [.history/bitcoin/phored/wallet_20171222232909.go]: [GetFeePerByte],
      [EstimateSpendFee], [BumpFee], [Multisign], [SweepAddress],
      [GenerateMultisigScript], [CurrentAddress], [NewBitcoindWallet],
      [BuildArguments], [defaultSocksPort], [ScriptToAddress],
      [AddWatchedScript], [addScripts], [gatherCoins], [HasKey],
      [EstimateFee], [CreateMultisigSignature];
    - [storage/dropbox/dropbox.go]: [Store], and of package
      [notifications] [wrap], [Serialize], [Describe].

    Go values are modelled as follows: [[]byte] as [list byte] (a nil slice
    and an empty slice are both [[]]; the code embedded here never tells
    them apart), [string] as [string], fixed-width integers as [Z] with the
    wrap-around written out, [float64] as the kernel's binary64 [float],
    [map[string]T] as [gmap string T], a nil-able [error] as
    [option error], a call into a library or to the daemon as a [result],
    and a function of the repository, which may return a value, return an
    error or panic, as an [outcome]. *)

From Stdlib Require Import ZArith Ascii String List Lia.
From Stdlib.Strings Require Import Byte.
From Stdlib Require PrimFloat SpecFloat FloatOps Uint63.
From stdpp Require Import gmap strings list fin_maps pretty.

Local Open Scope Z_scope.

(** ** Results of Go calls *)

(** A Go [error] value: the message it carries. *)
Definition error := string.

(** What a call of a Go function with an [error] result can do: return a
    value, return a non-nil error, or panic at run time. *)
Inductive outcome (A : Type) : Type :=
| Ret (a : A)
| Fail (e : error)
| Panic (msg : string).
Arguments Ret {A} a.
Arguments Fail {A} e.
Arguments Panic {A} msg.

#[global] Instance outcome_ret : MRet outcome := fun A a => Ret a.

#[global] Instance outcome_bind : MBind outcome := fun A B k x =>
  match x with
  | Ret a => k a
  | Fail e => Fail e
  | Panic m => Panic m
  end.

(** What a call into a library or to the daemon gives back: a value or an
    error. Such calls are taken to return. *)
Inductive result (A : Type) : Type :=
| Ok (a : A)
| Err (e : error).
Arguments Ok {A} a.
Arguments Err {A} e.

Definition call {A} (r : result A) : outcome A :=
  match r with
  | Ok a => Ret a
  | Err e => Fail e
  end.

(** The run-time panic of an index expression [s[i]] with [i >= len(s)]. *)
Definition index_out_of_range : string := "runtime error: index out of range".

(** The run-time panic of a failed single-value type assertion [x.(T)]. *)
Definition interface_conversion : string := "interface conversion".

(** ** Strings and bytes *)

Definition nl : string := String (ascii_of_nat 10) EmptyString.

Definition bytes := list byte.

(* ================================================================== *)
(** ** The file system seen by the migrations *)
(* ================================================================== *)

Module Migrations.

(** How the operating system treats a path: opening it for writing may
    fail (a directory in the way, no permission), or the open may succeed
    and the write that follows fail (no space left). *)
Inductive Fault := Healthy | OpenFails | WriteFails.

Record FS := mkFS {
  files : gmap string string;
  fault : string -> Fault
}.

(** An open file: the path it was opened at and the offset of the next
    write. *)
Record File := mkFile { fpath : string; fpos : nat }.

Definition set_files (fs : FS) (m : gmap string string) : FS :=
  mkFS m (fault fs).

(** *** [path.Join] and [path.Clean] (lexical) *)

Fixpoint split_slash_aux (s acc : string) : list string :=
  match s with
  | EmptyString => [String.rev acc]
  | String c rest =>
      if Ascii.eqb c "/" then String.rev acc :: split_slash_aux rest EmptyString
      else split_slash_aux rest (String c acc)
  end.

Definition split_slash (s : string) : list string := split_slash_aux s EmptyString.

Definition rooted (s : string) : bool :=
  match s with
  | String c _ => Ascii.eqb c "/"
  | EmptyString => false
  end.

(** One path element against the stack of elements kept so far (last
    element first). *)
Definition clean_step (isRooted : bool) (stack : list string) (c : string) : list string :=
  if String.eqb c "" then stack
  else if String.eqb c "." then stack
  else if String.eqb c ".." then
    match stack with
    | top :: below => if String.eqb top ".." then c :: stack else below
    | [] => if isRooted then [] else [c]
    end
  else c :: stack.

Definition path_Clean (p : string) : string :=
  let kept := rev (fold_left (clean_step (rooted p)) (split_slash p) []) in
  let body := String.concat "/" kept in
  let out := if rooted p then String.append "/" body else body in
  if String.eqb out "" then "." else out.

(** [path.Join(a, b)]: the non-empty elements joined by a slash, cleaned;
    the empty string when both are empty. *)
Definition path_Join (a b : string) : string :=
  if String.eqb a "" then (if String.eqb b "" then "" else path_Clean b)
  else if String.eqb b "" then path_Clean a
  else path_Clean (String.append a (String.append "/" b)).

(** *** The [os] and [ioutil] calls the migration makes *)

(** [os.Create(p)]: create or truncate [p] and open it at offset 0. *)
Definition os_Create (p : string) (fs : FS) : FS * (File + error) :=
  match fault fs p with
  | OpenFails => (fs, inr (String.append "open " p))
  | _ => (set_files fs (<[p := ""%string]> (files fs)), inl (mkFile p 0))
  end.

(** The bytes of a file after [data] is written at offset [pos] (a hole
    before [pos] reads as zero bytes). *)
Definition write_at (pos : nat) (data old : string) : string :=
  let n := String.length old in
  let head := String.substring 0 pos old in
  let pad := string_of_list_ascii (repeat Ascii.zero (pos - n)%nat) in
  let tail := String.substring (pos + String.length data)%nat n old in
  String.append head (String.append pad (String.append data tail)).

(** [f.Write(data)]. A file that was unlinked since it was opened takes the
    write without any path showing it. *)
Definition File_Write (f : File) (data : string) (fs : FS) : FS * option error :=
  match fault fs (fpath f) with
  | WriteFails => (fs, Some (String.append "write " (fpath f)))
  | _ =>
      match files fs !! fpath f with
      | Some old => (set_files fs (<[fpath f := write_at (fpos f) data old]> (files fs)), None)
      | None => (fs, None)
      end
  end.

(** [f.Close()]: nothing a later read of the directory can see. *)
Definition File_Close (f : File) (fs : FS) : FS := fs.

(** [ioutil.WriteFile(p, data, perm)]: open with create and truncate, write,
    close. *)
Definition ioutil_WriteFile (p data : string) (fs : FS) : FS * option error :=
  match os_Create p fs with
  | (fs1, inr e) => (fs1, Some e)
  | (fs1, inl f) =>
      match File_Write f data fs1 with
      | (fs2, Some e) => (File_Close f fs2, Some e)
      | (fs2, None) => (File_Close f fs2, None)
      end
  end.

(** [os.Remove(p)]. *)
Definition os_Remove (p : string) (fs : FS) : FS * option error :=
  match files fs !! p with
  | Some _ => (set_files fs (delete p (files fs)), None)
  | None => (fs, Some (String.append "remove " p))
  end.

(** [ioutil.ReadFile(p)] and [os.Stat(p)] as the test uses them. *)
Definition ioutil_ReadFile (p : string) (fs : FS) : option string := files fs !! p.

(** *** Migration005 *)

(** The preshared key of the private swarm (line 39). *)
Definition swarmKeyData : string :=
  String.append "/key/swarm/psk/1.0.0/"
    (String.append nl
       (String.append "/base16/"
          (String.append nl
             "59468cfd4d4dc2a61395080513e853434d0313495f34be65c18d643d09eafe6f"))).

(** [migration005.Up] (lines 41-57): the file system it leaves and the
    error it returns, nil as [None]. *)
Definition Up (repoPath dbPassword : string) (testnet : bool) (fs : FS) : FS * option error :=
  match os_Create (path_Join repoPath "repover") fs with
  | (fs1, inr err) => (fs1, Some err)
  | (fs1, inl f1) =>
      match ioutil_WriteFile (path_Join repoPath "swarm.key") swarmKeyData fs1 with
      | (fs2, Some err) => (fs2, Some err)
      | (fs2, None) =>
          match File_Write f1 "6" fs2 with
          | (fs3, Some err) => (fs3, Some err)
          | (fs3, None) => (File_Close f1 fs3, None)
          end
      end
  end.

(** [migration005.Down] (lines 59-75). *)
Definition Down (repoPath dbPassword : string) (testnet : bool) (fs : FS) : FS * option error :=
  match os_Create (path_Join repoPath "repover") fs with
  | (fs1, inr err) => (fs1, Some err)
  | (fs1, inl f1) =>
      match os_Remove (path_Join repoPath "swarm.key") fs1 with
      | (fs2, Some err) => (fs2, Some err)
      | (fs2, None) =>
          match File_Write f1 "5" fs2 with
          | (fs3, Some err) => (fs3, Some err)
          | (fs3, None) => (File_Close f1 fs3, None)
          end
      end
  end.

(** An empty directory on a disk without faults. *)
Definition emptyFS : FS := mkFS ∅ (fun _ => Healthy).

End Migrations.

(* ================================================================== *)
(** ** The exchange-rate decoder *)
(* ================================================================== *)

Module Exchange.

#[local] Set Warnings "-register-all".

(** A value as [encoding/json] decodes it into an [interface{}]: [nil],
    [bool], [float64], [string], [[]interface{}] or
    [map[string]interface{}]. *)
Inductive JSON :=
| JNull
| JBool (b : bool)
| JNumber (f : PrimFloat.float)
| JString (s : string)
| JArray (l : list JSON)
| JObject (m : gmap string JSON).

Section Decoder.

(** [strconv.ParseFloat(s, 64)]: the parsed number, or [None] for its
    error. *)
Variable ParseFloat : string -> option PrimFloat.float.

(** [CMCDecoder.decode(dat, cache)] (lines 130-160): what the call does (returns nil,
    returns an error, or panics) and the cache it leaves. *)
Definition decode (dat : JSON) (cache : gmap string PrimFloat.float)
  : outcome unit * gmap string PrimFloat.float :=
  match dat with
  | JArray data =>
      match data with
      | [] => (Fail "could not get currency", cache)
      | first :: _ =>
          match first with
          | JObject priceInfo =>
              match priceInfo !! "price_usd"%string with
              | None => (Fail "could not get USD price", cache)
              | Some (JString priceUSDString) =>
                  match ParseFloat priceUSDString with
                  | None => (Fail "usd price is not a number", cache)
                  | Some priceUSD => (Ret tt, <["PHR"%string := priceUSD]> cache)
                  end
              | Some _ => (Fail "could not decode current USD price", cache)
              end
          | _ => (Panic interface_conversion, cache)
          end
      end
  | _ => (Panic interface_conversion, cache)
  end.

End Decoder.

(** The payload of [TestDecodeCMCDecoder], decoded. *)
Definition samplePayload : JSON :=
  JArray [JObject (list_to_map [
    ("id", JString "phore");
    ("name", JString "Phore");
    ("symbol", JString "PHR");
    ("rank", JString "377");
    ("price_usd", JString "0.542017");
    ("price_btc", JString "0.00004258");
    ("24h_volume_usd", JString "52747.3");
    ("market_cap_usd", JString "5275455.0");
    ("available_supply", JString "9733007.0");
    ("total_supply", JString "11349574.0");
    ("max_supply", JNull);
    ("percent_change_1h", JString "4.49");
    ("percent_change_24h", JString "21.59");
    ("percent_change_7d", JString "11.32");
    ("last_updated", JString "1512583195")
  ]%string)].

(** A stand-in for [strconv.ParseFloat] on plain decimals
    [[+-]digits[.digits]] whose digits make a number below 2^53 with at
    most 22 of them after the point: there the quotient of the two exactly
    represented integers is the correctly rounded binary64 value. Any other
    string is refused. *)
Fixpoint digits_value (s : string) (acc : Z) : option Z :=
  match s with
  | EmptyString => Some acc
  | String c rest =>
      let n := Z.of_nat (nat_of_ascii c) in
      if ((48 <=? n) && (n <=? 57))%Z then digits_value rest (acc * 10 + (n - 48))%Z
      else None
  end.

Fixpoint split_point (s acc : string) : string * option string :=
  match s with
  | EmptyString => (String.rev acc, None)
  | String c rest =>
      if Ascii.eqb c "." then (String.rev acc, Some rest)
      else split_point rest (String c acc)
  end.

Definition float_of_nonneg (z : Z) : PrimFloat.float :=
  PrimFloat.of_uint63 (Uint63.of_Z z).

Definition parse_plain_decimal (s : string) : option PrimFloat.float :=
  let '(neg, body) :=
    match s with
    | String "-" rest => (true, rest)
    | String "+" rest => (false, rest)
    | _ => (false, s)
    end in
  let '(ip, fp) := split_point body EmptyString in
  let frac := default EmptyString fp in
  if (String.length ip + String.length frac =? 0)%nat then None
  else if (22 <? String.length frac)%nat then None
  else
    match digits_value (String.append ip frac) 0 with
    | None => None
    | Some m =>
        if (m <? 2 ^ 53)%Z then
          let q := PrimFloat.div (float_of_nonneg m)
                     (float_of_nonneg (10 ^ Z.of_nat (String.length frac))) in
          Some (if neg then PrimFloat.opp q else q)
        else None
    end.

End Exchange.

(* ================================================================== *)
(** ** The protocol service: inbound streams *)
(* ================================================================== *)

Module Service.

Definition PeerID := string.

Record Message := mkMessage { MessageType : Z; Payload : bytes }.

(** An inbound stream: the remote peer, what every [ReadMsg] yields in turn
    (after the last entry the stream is at its end and a read fails), and
    whether writing a given response fails. *)
Record Stream := mkStream {
  RemotePeer : PeerID;
  incoming : list (result Message);
  writeFails : Message -> bool
}.

(** A handler's result: the response (possibly nil) or an error. *)
Definition Handler := PeerID -> Message -> result (option Message).

Record OpenBazaarService := mkService {
  IsBanned : PeerID -> bool;
  HandlerForMsgType : Z -> option Handler
}.

(** What [handleNewMessage] does to the stream and the service, in order. *)
Inductive Event :=
| EvBindSender (p : PeerID)
| EvReadMsg (r : result Message)
| EvHandle (m : Message)
| EvWriteMsg (m : Message)
| EvClose.

(** The [for] loop of [handleNewMessage]: one round per message read. *)
Fixpoint serve (service : OpenBazaarService) (mPeer : PeerID)
  (wfail : Message -> bool) (reads : list (result Message)) : list Event :=
  match reads with
  | [] => [EvReadMsg (Err "EOF"%string)]
  | Err err :: _ => [EvReadMsg (Err err)]
  | Ok pmes :: rest =>
      EvReadMsg (Ok pmes) ::
      match HandlerForMsgType service (MessageType pmes) with
      | None => []
      | Some handler =>
          EvHandle pmes ::
          match handler mPeer pmes with
          | Err err => []
          | Ok None => serve service mPeer wfail rest
          | Ok (Some rpmes) =>
              EvWriteMsg rpmes ::
              (if wfail rpmes then [] else serve service mPeer wfail rest)
          end
      end
  end.

(** [handleNewMessage(s)] (lines 60-110). The deferred [s.Close()] is
    registered after the ban check and the sender binding (line 73), and
    runs when the loop returns. *)
Definition handleNewMessage (service : OpenBazaarService) (s : Stream) : list Event :=
  let mPeer := RemotePeer s in
  if IsBanned service mPeer then []
  else
    EvBindSender mPeer ::
    (serve service mPeer (writeFails s) (incoming s) ++ [EvClose]).

(** The stream is closed by a run iff the run calls [s.Close()]. *)
Definition closes (trace : list Event) : bool :=
  existsb (fun e => match e with EvClose => true | _ => false end) trace.

Definition reads_or_dispatches (trace : list Event) : bool :=
  existsb (fun e => match e with EvReadMsg _ | EvHandle _ | EvWriteMsg _ => true | _ => false end) trace.

End Service.

(* ================================================================== *)
(** ** The wallet *)
(* ================================================================== *)

Module Wallet.

(** *** Machine integers and floats *)

Definition int64 (z : Z) : Z := (z + 2 ^ 63) mod 2 ^ 64 - 2 ^ 63.
Definition uint64 (z : Z) : Z := z mod 2 ^ 64.
Definition uint32 (z : Z) : Z := z mod 2 ^ 32.
(** [int] on the 64-bit platforms the node is built for. *)
Definition int (z : Z) : Z := int64 z.

(** [float64(z)] for an [int64] [z]. *)
Definition float64_of_int (z : Z) : PrimFloat.float :=
  if z <? 0 then PrimFloat.opp (PrimFloat.of_uint63 (Uint63.of_Z (- z)))
  else PrimFloat.of_uint63 (Uint63.of_Z z).

(** [int64(f)] for a [float64] [f]: the fraction is dropped; a value that
    does not fit, or no number at all, gives the smallest [int64] (what
    amd64 yields; Go leaves it to the implementation). *)
Definition int64_of_float (f : PrimFloat.float) : Z :=
  match FloatOps.Prim2SF f with
  | SpecFloat.S754_zero _ => 0
  | SpecFloat.S754_finite s m e =>
      let mag := Z.shiftl (Z.pos m) e in
      let v := if s then - mag else mag in
      if (- 2 ^ 63 <=? v) && (v <? 2 ^ 63) then v else - 2 ^ 63
  | _ => - 2 ^ 63
  end.

(** [uint32(f)] for a [float64] [f] (through the 64-bit conversion). *)
Definition uint32_of_float (f : PrimFloat.float) : Z := uint32 (int64_of_float f).

(** *** Bytes, hex and hashes *)

Definition OP_IF : byte := x63.
Definition OP_ELSE : byte := x67.
Definition OP_ENDIF : byte := x68.
Definition OP_DROP : byte := x75.
Definition OP_CHECKSIG : byte := xac.
Definition OP_CHECKMULTISIG : byte := xae.
Definition OP_CHECKSEQUENCEVERIFY : byte := xb2.

Definition hex_digit (n : N) : ascii :=
  ascii_of_N (if (n <? 10)%N then 48 + n else 87 + n)%N.

(** [hex.EncodeToString]. *)
Fixpoint hex_EncodeToString (b : bytes) : string :=
  match b with
  | [] => EmptyString
  | x :: rest =>
      let n := Byte.to_N x in
      String (hex_digit (n / 16)%N) (String (hex_digit (n mod 16)%N) (hex_EncodeToString rest))
  end.

Definition from_hex_char (c : ascii) : option N :=
  let n := N_of_ascii c in
  if ((48 <=? n) && (n <=? 57))%N then Some (n - 48)%N
  else if ((97 <=? n) && (n <=? 102))%N then Some (n - 87)%N
  else if ((65 <=? n) && (n <=? 70))%N then Some (n - 55)%N
  else None.

(** [hex.DecodeString]: an odd length or a character that is no hex digit
    is an error. *)
Fixpoint hex_DecodeString (s : string) : result bytes :=
  match s with
  | EmptyString => Ok []
  | String _ EmptyString => Err "encoding/hex: odd length hex string"
  | String a (String b rest) =>
      match from_hex_char a, from_hex_char b with
      | Some h, Some l =>
          match Byte.of_N (16 * h + l), hex_DecodeString rest with
          | Some x, Ok tl => Ok (x :: tl)
          | _, Err e => Err e
          | None, _ => Err "encoding/hex: invalid byte"
          end
      | _, _ => Err "encoding/hex: invalid byte"
      end
  end.

(** A [chainhash.Hash]: 32 bytes, in the order the wire carries them. *)
Definition Hash := bytes.
Definition HashSize : nat := 32.
Definition MaxHashStringSize : nat := 64.

(** [chainhash.NewHashFromStr]: the string is the byte-reversed hash in
    hex; a short string is padded with leading zeroes, a string of more
    than 64 characters is refused. *)
Definition ErrHashStrSize : error := "max hash string length is 64 bytes".

Definition NewHashFromStr (s : string) : result Hash :=
  if (MaxHashStringSize <? String.length s)%nat then Err ErrHashStrSize
  else
    let src := if Nat.even (String.length s) then s else String "0" s in
    match hex_DecodeString src with
    | Ok b => Ok (rev (repeat x00 (HashSize - length b) ++ b))
    | Err e => Err e
    end.

(** [Hash.String]: the hex of the reversed bytes. *)
Definition Hash_String (h : Hash) : string := hex_EncodeToString (rev h).

(** [bytes.Compare]. *)
Fixpoint bytes_Compare (a b : bytes) : comparison :=
  match a, b with
  | [], [] => Eq
  | [], _ :: _ => Lt
  | _ :: _, [] => Gt
  | x :: a', y :: b' =>
      match (Byte.to_N x ?= Byte.to_N y)%N with
      | Eq => bytes_Compare a' b'
      | c => c
      end
  end.

Definition bytes_eqb (a b : bytes) : bool :=
  match bytes_Compare a b with Eq => true | _ => false end.

(** *** Transactions *)

Record OutPoint := mkOutPoint { OpHash : Hash; OpIndex : Z }.

Record TxIn := mkTxIn {
  PreviousOutPoint : OutPoint;
  SignatureScript : bytes;
  Witness : list bytes;
  Sequence : Z
}.

Record TxOut := mkTxOut { TxOutValue : Z; PkScript : bytes }.

Record MsgTx := mkMsgTx {
  Version : Z;
  TxIns : list TxIn;
  TxOuts : list TxOut;
  LockTime : Z
}.

Definition MaxTxInSequenceNum : Z := 4294967295.
Definition TxVersion : Z := 1.

Definition NewOutPoint (h : Hash) (index : Z) : OutPoint := mkOutPoint h index.

Definition NewTxIn (prevOut : OutPoint) (signatureScript : bytes) (witness : list bytes) : TxIn :=
  mkTxIn prevOut signatureScript witness MaxTxInSequenceNum.

Definition NewTxOut (value : Z) (pkScript : bytes) : TxOut := mkTxOut value pkScript.


Definition OutPoint_eqb (a b : OutPoint) : bool :=
  bytes_eqb (OpHash a) (OpHash b) && (OpIndex a =? OpIndex b).

(** *** [txsort.InPlaceSort] (BIP 69) *)

(** Inputs: by previous transaction hash read as a big-endian number,
    then by output index. *)
Definition input_less (a b : TxIn) : bool :=
  let ihash := OpHash (PreviousOutPoint a) in
  let jhash := OpHash (PreviousOutPoint b) in
  if bytes_eqb ihash jhash then OpIndex (PreviousOutPoint a) <? OpIndex (PreviousOutPoint b)
  else match bytes_Compare (rev ihash) (rev jhash) with Lt => true | _ => false end.

(** Outputs: by amount, then by script. *)
Definition output_less (a b : TxOut) : bool :=
  if TxOutValue a =? TxOutValue b then
    match bytes_Compare (PkScript a) (PkScript b) with Lt => true | _ => false end
  else TxOutValue a <? TxOutValue b.

Fixpoint insert_sorted {A} (less : A -> A -> bool) (x : A) (l : list A) : list A :=
  match l with
  | [] => [x]
  | y :: rest => if less x y then x :: l else y :: insert_sorted less x rest
  end.

(** [sort.Sort] leaves elements that compare equal in an order of its own
    choosing; where it is used below such elements are equal in every
    field, so the sorted slice is the same whatever that order is. *)
Definition sort_by {A} (less : A -> A -> bool) (l : list A) : list A :=
  fold_right (insert_sorted less) [] l.

Definition InPlaceSort (tx : MsgTx) : MsgTx :=
  mkMsgTx (Version tx) (sort_by input_less (TxIns tx)) (sort_by output_less (TxOuts tx)) (LockTime tx).

(** *** The wallet interface's records *)

Record TransactionInput := mkTransactionInput {
  OutpointHash : bytes;
  OutpointIndex : Z;
  InValue : Z
}.

Record TransactionOutput := mkTransactionOutput {
  ScriptPubKey : bytes;
  OutValue : Z
}.

Record Signature := mkSignature { InputIndex : Z; SigBytes : bytes }.

Record Utxo := mkUtxo {
  Op : OutPoint;
  UtxoValue : Z;
  ScriptPubkey : bytes
}.

Inductive FeeLevel := PRIOIRTY | NORMAL | ECONOMIC | FEE_BUMP.

Inductive TxType :=
| P2PKH
| P2SH_1of2_Multisig
| P2SH_2of3_Multisig
| P2SH_Multisig_Timelock_1Sig
| P2SH_Multisig_Timelock_2Sigs.

(** A [btc.Address] (an interface value, possibly nil): its encoded form. *)
Inductive Address := NilAddress | Addr (encoded : string).

(** An [hd.ExtendedKey] as [hd.NewExtendedKey] builds it. *)
Record ExtendedKey := mkExtendedKey {
  ekVersion : bytes;
  ekKey : bytes;
  ekChainCode : bytes;
  ekParentFP : bytes;
  ekDepth : Z;
  ekChildNum : Z;
  ekIsPrivate : bool
}.

Definition PrivateKey := bytes.
Definition PublicKey := bytes.

(** The fields of [chaincfg.Params] the wallet reads. *)
Record Params := mkParams { Name : string; HDPrivateKeyID : bytes }.

(** *** The daemon, over JSON-RPC *)

Record ListUnspentResult := mkListUnspentResult {
  luTxID : string;
  luVout : Z;
  luAddress : string;
  luScriptPubKey : string;
  luAmount : PrimFloat.float;
  luConfirmations : Z;
  luSpendable : bool
}.

Record GetTransactionResult := mkGetTransactionResult { gtConfirmations : Z }.

(** The answers of the daemon at one moment. *)
Record RPCClient := mkRPCClient {
  RawRequest : string -> list string -> result string;
  ListUnspent : result (list ListUnspentResult);
  GetTransaction : Hash -> bool -> result GetTransactionResult;
  DumpPrivKey : Address -> result PrivateKey;
  SendRawTransaction : MsgTx -> bool -> result Hash;
  GetAccountAddress : string -> result Address
}.

(** *** Script building *)

(** What a [txscript.ScriptBuilder] was asked to add, in order. *)
Inductive ScriptItem :=
| ItInt64 (v : Z)
| ItData (d : bytes)
| ItOp (op : byte).

(** *** The packages the wallet calls into *)

(** Functions of btcd, btcutil and spvwallet whose code is not part of the
    repository: each is taken as given. *)
Record Lib := mkLib {
  MainNetParams : Params;
  LockTimeFromRedeemScript : bytes -> result Z;
  EstimateSerializeSize : Z -> list TxOut -> bool -> TxType -> Z;
  PayToAddrScript : Address -> result bytes;
  DecodeAddress : string -> Params -> result Address;
  ECPrivKey : ExtendedKey -> result PrivateKey;
  ECPubKey : ExtendedKey -> result PublicKey;
  SerializeCompressed : PublicKey -> bytes;
  SignTxOutput : MsgTx -> nat -> bytes -> PrivateKey -> option bytes -> bytes -> result bytes;
  RawTxInWitnessSignature : MsgTx -> nat -> Z -> bytes -> PrivateKey -> result bytes;
  BtcEncode : MsgTx -> bytes;
  TxHash : MsgTx -> Hash;
  BuilderScript : list ScriptItem -> result bytes;
  Sum256 : bytes -> bytes;
  NewAddressWitnessScriptHash : bytes -> Params -> result Address;
  LockTimeToSequence : bool -> Z -> Z;
  (** [buildTx] of the wallet itself: it selects coins, authors and signs
      through [coinset], [spvwallet.NewUnsignedTransaction] and
      [txscript.SignTxOutput]; the transaction it returns is taken as
      given. *)
  buildTx : Z -> Address -> FeeLevel -> result MsgTx
}.

Record BitcoindWallet := mkWallet {
  params : Params;
  rpcClient : RPCClient
}.

(** *** Durations *)

Definition Hour : Z := 3600 * 10 ^ 9.

(** [Duration.Hours]: whole hours plus the fraction left, as a
    [float64]. *)
Definition Hours (d : Z) : PrimFloat.float :=
  PrimFloat.add (float64_of_int (Z.quot d Hour))
    (PrimFloat.div (float64_of_int (Z.rem d Hour)) (float64_of_int (60 * 60 * 10 ^ 9))).

(** The units of one coin as the [float64] constant [100000000]. *)
Definition f100000000 : PrimFloat.float := float64_of_int 100000000.

Section Operations.

Context (lib : Lib) (w : BitcoindWallet).

(** **** [CurrentAddress] (lines 175-178) *)

Definition Account : string := "OpenBazaar".

(** The error of the request is dropped: the address is then nil. *)
Definition CurrentAddress : Address :=
  match GetAccountAddress (rpcClient w) Account with
  | Ok addr => addr
  | Err _ => NilAddress
  end.

(** **** [GetFeePerByte] (lines 516-542) *)

(** [strconv.Atoi]: an optional sign and decimal digits, within [int]. *)
Fixpoint atoi_digits (s : string) (acc : Z) : option Z :=
  match s with
  | EmptyString => Some acc
  | String c rest =>
      let n := Z.of_N (N_of_ascii c) in
      if (48 <=? n) && (n <=? 57) then atoi_digits rest (acc * 10 + (n - 48)) else None
  end.

Definition strconv_Atoi (s : string) : option Z :=
  let '(neg, body) :=
    match s with
    | String "-" rest => (true, rest)
    | String "+" rest => (false, rest)
    | _ => (false, s)
    end in
  match body with
  | EmptyString => None
  | _ =>
      match atoi_digits body 0 with
      | Some n =>
          let v := if neg then - n else n in
          if (- 2 ^ 63 <=? v) && (v <? 2 ^ 63) then Some v else None
      | None => None
      end
  end.

Definition GetFeePerByte (feeLevel : FeeLevel) : Z :=
  let defautlFee := uint64 50 in
  match
    match feeLevel with
    | PRIOIRTY => Some "1"%string
    | NORMAL => Some "3"%string
    | ECONOMIC => Some "6"%string
    | _ => None
    end
  with
  | None => defautlFee
  | Some nBlocks =>
      match RawRequest (rpcClient w) "estimatefee" [nBlocks] with
      | Err _ => defautlFee
      | Ok resp =>
          match strconv_Atoi resp with
          | None => defautlFee
          | Some feePerKb =>
              if feePerKb <=? 0 then defautlFee
              else
                let fee := Z.quot feePerKb 1000 in
                uint64 fee
          end
      end
  end.

(** **** [Multisign] (lines 644-718) *)

(** One input of the unsigned transaction, or the error of the hash. *)
Definition newInput (in_ : TransactionInput) : outcome TxIn :=
  ch ← call (NewHashFromStr (hex_EncodeToString (OutpointHash in_)));
  mret (NewTxIn (NewOutPoint ch (OutpointIndex in_)) [] []).

Fixpoint addInputs (ins : list TransactionInput) (txIn : list TxIn) : outcome (list TxIn) :=
  match ins with
  | [] => Ret txIn
  | in_ :: rest => input ← newInput in_; addInputs rest (txIn ++ [input])
  end.

Definition addOutputs (outs : list TransactionOutput) : list TxOut :=
  map (fun out => NewTxOut (OutValue out) (ScriptPubKey out)) outs.

(** "Subtract fee": the estimated fee, split evenly over the outputs. *)
Definition subtractFee (nIns : nat) (txType : TxType) (feePerByte : Z) (txOut : list TxOut)
  : list TxOut :=
  let estimatedSize := EstimateSerializeSize lib (Z.of_nat nIns) txOut false txType in
  let fee := int (estimatedSize * int feePerByte) in
  if (0 <? length txOut)%nat then
    let feePerOutput := Z.quot fee (Z.of_nat (length txOut)) in
    map (fun output => mkTxOut (int64 (TxOutValue output - int64 feePerOutput)) (PkScript output)) txOut
  else txOut.

(** The inner loops of [Multisign]: the first signature of the set whose
    [InputIndex] is [i]; nil when there is none. *)
Fixpoint sigFor (sigs : list Signature) (i : Z) : bytes :=
  match sigs with
  | [] => []
  | sig :: rest => if InputIndex sig =? i then SigBytes sig else sigFor rest i
  end.

(** [redeemScript[0] == txscript.OP_IF], which panics on an empty
    script. *)
Definition isTimeLocked (redeemScript : bytes) : outcome bool :=
  match redeemScript with
  | [] => Panic index_out_of_range
  | b :: _ => Ret (Byte.eqb b OP_IF)
  end.

Definition multisigWitness (timeLocked : bool) (sig1 sig2 redeemScript : bytes) : list bytes :=
  let witness := [[]; sig1; sig2] in
  let witness := if timeLocked then witness ++ [[x01]] else witness in
  witness ++ [redeemScript].

(** [Multisign] up to the point where it has attached every witness: the
    transaction it goes on to broadcast and serialize. *)
Definition Multisign_tx (ins : list TransactionInput) (outs : list TransactionOutput)
  (sigs1 sigs2 : list Signature) (redeemScript : bytes) (feePerByte : Z) : outcome MsgTx :=
  txIn ← addInputs ins [];
  let txOut := addOutputs outs in
  let txType :=
    match LockTimeFromRedeemScript lib redeemScript with
    | Ok _ => P2SH_Multisig_Timelock_2Sigs
    | Err _ => P2SH_2of3_Multisig
    end in
  let txOut := subtractFee (length ins) txType feePerByte txOut in
  let tx := InPlaceSort (mkMsgTx 1 txIn txOut 0) in
  timeLocked ← isTimeLocked redeemScript;
  let txIn :=
    imap (fun i input =>
            let sig1 := sigFor sigs1 (Z.of_nat i) in
            let sig2 := sigFor sigs2 (Z.of_nat i) in
            mkTxIn (PreviousOutPoint input) (SignatureScript input)
              (multisigWitness timeLocked sig1 sig2 redeemScript) (Sequence input))
         (TxIns tx) in
  mret (mkMsgTx (Version tx) txIn (TxOuts tx) (LockTime tx)).

Definition Multisign (ins : list TransactionInput) (outs : list TransactionOutput)
  (sigs1 sigs2 : list Signature) (redeemScript : bytes) (feePerByte : Z) (broadcast : bool)
  : outcome bytes :=
  tx ← Multisign_tx ins outs sigs1 sigs2 redeemScript feePerByte;
  _ ← (if broadcast then call (SendRawTransaction (rpcClient w) tx false) else Ret []);
  mret (BtcEncode lib tx).

(** **** [SweepAddress] (lines 721-850) *)

(** [additionalPrevScripts[op]]: the script of the last unspent output
    stored under [op]; nil when there is none. *)
Fixpoint prevScriptFor (utxos : list Utxo) (op : OutPoint) (found : bytes) : bytes :=
  match utxos with
  | [] => found
  | u :: rest =>
      prevScriptFor rest op (if OutPoint_eqb (Op u) op then ScriptPubkey u else found)
  end.

Definition set_Sequence (txIn : TxIn) (sequence : Z) : TxIn :=
  mkTxIn (PreviousOutPoint txIn) (SignatureScript txIn) (Witness txIn) sequence.

Definition set_SignatureScript (txIn : TxIn) (script : bytes) : TxIn :=
  mkTxIn (PreviousOutPoint txIn) script (Witness txIn) (Sequence txIn).

Definition set_Witness (txIn : TxIn) (witness : list bytes) : TxIn :=
  mkTxIn (PreviousOutPoint txIn) (SignatureScript txIn) witness (Sequence txIn).

Definition set_TxIns (tx : MsgTx) (txIn : list TxIn) : MsgTx :=
  mkMsgTx (Version tx) txIn (TxOuts tx) (LockTime tx).

Definition set_Version (tx : MsgTx) (version : Z) : MsgTx :=
  mkMsgTx version (TxIns tx) (TxOuts tx) (LockTime tx).

(** "Check if time locked": the version, then the sequence of every
    input. *)
Fixpoint setSequences (redeemScript : bytes) (txIn : list TxIn) : outcome (list TxIn) :=
  match txIn with
  | [] => Ret []
  | x :: rest =>
      locktime ← call (LockTimeFromRedeemScript lib redeemScript);
      rest' ← setSequences redeemScript rest;
      mret (set_Sequence x locktime :: rest')
  end.

Definition checkTimeLocked (redeemScript : option bytes) (tx : MsgTx) : outcome (bool * MsgTx) :=
  match redeemScript with
  | None => Ret (false, tx)
  | Some rs =>
      timeLocked ← isTimeLocked rs;
      let tx := if (timeLocked : bool) then set_Version tx 2 else tx in
      txIn ← setSequences rs (TxIns tx);
      mret (timeLocked, set_TxIns tx txIn)
  end.

(** One round of the signing loop, on input [i] of the transaction as the
    rounds before left it. *)
Definition signInput (utxos : list Utxo) (redeemScript : option bytes) (timeLocked : bool)
  (privKey : PrivateKey) (tx : MsgTx) (i : nat) : outcome MsgTx :=
  match TxIns tx !! i with
  | None => Panic index_out_of_range
  | Some txIn =>
      match redeemScript with
      | None =>
          let prevOutScript := prevScriptFor utxos (PreviousOutPoint txIn) [] in
          match SignTxOutput lib tx i prevOutScript privKey redeemScript (SignatureScript txIn) with
          | Ok script => Ret (set_TxIns tx (<[i := set_SignatureScript txIn script]> (TxIns tx)))
          | Err _ => Fail "Failed to sign transaction"
          end
      | Some rs =>
          match utxos !! i with
          | None => Panic index_out_of_range
          | Some u =>
              sig ← call (RawTxInWitnessSignature lib tx i (UtxoValue u) rs privKey);
              let witness := if timeLocked then [sig; []] else [[]; sig] in
              let witness := witness ++ [rs] in
              mret (set_TxIns tx (<[i := set_Witness txIn witness]> (TxIns tx)))
          end
      end
  end.

Fixpoint signInputs (utxos : list Utxo) (redeemScript : option bytes) (timeLocked : bool)
  (privKey : PrivateKey) (tx : MsgTx) (indices : list nat) : outcome MsgTx :=
  match indices with
  | [] => Ret tx
  | i :: rest =>
      tx' ← signInput utxos redeemScript timeLocked privKey tx i;
      signInputs utxos redeemScript timeLocked privKey tx' rest
  end.

Definition SweepAddress (utxos : list Utxo) (address : option Address) (key : ExtendedKey)
  (redeemScript : option bytes) (feeLevel : FeeLevel) : outcome Hash :=
  let internalAddr :=
    match address with
    | Some a => a
    | None => CurrentAddress
    end in
  script ← call (PayToAddrScript lib internalAddr);
  let val := fold_left (fun v u => int64 (v + UtxoValue u)) utxos 0 in
  let inputs := map (fun u => NewTxIn (Op u) [] []) utxos in
  let out := NewTxOut val script in
  let txType :=
    match redeemScript with
    | None => P2PKH
    | Some rs =>
        match LockTimeFromRedeemScript lib rs with
        | Ok _ => P2SH_Multisig_Timelock_1Sig
        | Err _ => P2SH_1of2_Multisig
        end
    end in
  let estimatedSize := EstimateSerializeSize lib (Z.of_nat (length utxos)) [out] false txType in
  let feePerByte := int (GetFeePerByte feeLevel) in
  let fee := int (estimatedSize * feePerByte) in
  let outVal := int64 (val - int64 fee) in
  let outVal := if outVal <? 0 then 0 else outVal in
  let out := mkTxOut outVal (PkScript out) in
  let tx := InPlaceSort (mkMsgTx TxVersion inputs [out] 0) in
  privKey ← call (ECPrivKey lib key);
  '(timeLocked, tx) ← checkTimeLocked redeemScript tx;
  tx ← signInputs utxos redeemScript timeLocked privKey tx (seq 0 (length (TxIns tx)));
  _ ← call (SendRawTransaction (rpcClient w) tx false);
  mret (TxHash lib tx).

(** **** [BumpFee] (lines 463-513) *)

(** The two errors of [spvwallet] that [BumpFee] returns. *)
Definition BumpFeeAlreadyConfirmedError : error := "Transaction is confirmed, cannot bump fee".
Definition BumpFeeNotFoundError : error := "Transaction either doesn't exist or has already been spent".

(** The [wallet.Utxo] that [BumpFee] builds from an unspent output of the
    daemon, for the hash and script it decoded. *)
Definition bumpUtxo (u : ListUnspentResult) (h : Hash) (script : bytes) : Utxo :=
  mkUtxo (NewOutPoint h (luVout u))
         (int64_of_float (PrimFloat.div (luAmount u) f100000000))
         script.

Fixpoint bumpLoop (txid : Hash) (unspent : list ListUnspentResult) : outcome Hash :=
  match unspent with
  | [] => Fail BumpFeeNotFoundError
  | u :: rest =>
      if String.eqb (luTxID u) (Hash_String txid) then
        if 0 <? luConfirmations u then Fail BumpFeeAlreadyConfirmedError
        else
          match NewHashFromStr (luTxID u) with
          | Ok h =>
              match hex_DecodeString (luScriptPubKey u) with
              | Ok script =>
                  let utxo := bumpUtxo u h script in
                  match DecodeAddress lib (luAddress u) (params w) with
                  | Ok addr =>
                      match DumpPrivKey (rpcClient w) addr with
                      | Ok key =>
                          let hdKey := mkExtendedKey (HDPrivateKeyID (params w)) key
                                         (repeat x00 32) (repeat x00 4) 0 0 true in
                          SweepAddress [utxo] None hdKey None FEE_BUMP
                      | Err _ => bumpLoop txid rest
                      end
                  | Err _ => bumpLoop txid rest
                  end
              | Err _ => bumpLoop txid rest
              end
          | Err _ => bumpLoop txid rest
          end
      else bumpLoop txid rest
  end.

Definition BumpFee (txid : Hash) : outcome Hash :=
  tx ← call (GetTransaction (rpcClient w) txid false);
  if 0 <? gtConfirmations tx then Fail BumpFeeAlreadyConfirmedError
  else
    unspent ← call (ListUnspent (rpcClient w));
    bumpLoop txid unspent.

(** **** [EstimateSpendFee] (lines 557-588) *)

(** The test of the inner loop: the unspent output is the one the input
    spends. *)
Definition spends (input : TxIn) (utxo : ListUnspentResult) : bool :=
  String.eqb (luTxID utxo) (Hash_String (OpHash (PreviousOutPoint input)))
  && (luVout utxo =? OpIndex (PreviousOutPoint input)).

(** The value [EstimateSpendFee] adds for one input: that of the first
    unspent output the input spends; nothing when there is none. *)
Fixpoint inputValue (input : TxIn) (utxos : list ListUnspentResult) : Z :=
  match utxos with
  | [] => 0
  | utxo :: rest =>
      if spends input utxo
      then int64_of_float (PrimFloat.mul (luAmount utxo) f100000000)
      else inputValue input rest
  end.

Definition dummyAddress : string :=
  "bc1qxtq7ha2l5qg70atpwp3fus84fx3w0v2w4r2my7gt89ll3w0vnlgspu349h".

Definition EstimateSpendFee (amount : Z) (feeLevel : FeeLevel) : outcome Z :=
  addr ← call (DecodeAddress lib dummyAddress (MainNetParams lib));
  tx ← call (buildTx lib amount addr feeLevel);
  let outval := fold_left (fun acc output => int64 (acc + TxOutValue output)) (TxOuts tx) 0 in
  utxos ← call (ListUnspent (rpcClient w));
  let inval := fold_left (fun acc input => int64 (acc + inputValue input utxos)) (TxIns tx) 0 in
  if inval <? outval then Fail "Error building transaction: inputs less than outputs"
  else mret (uint64 (inval - outval)).

(** **** [GenerateMultisigScript] (lines 863-926) *)

Fixpoint ecPubKeys (keys : list ExtendedKey) : outcome (list PublicKey) :=
  match keys with
  | [] => Ret []
  | key :: rest =>
      ecKey ← call (ECPubKey lib key);
      ecKeys ← ecPubKeys rest;
      mret (ecKey :: ecKeys)
  end.

(** [uint32(timeout.Hours())]. *)
Definition timeoutHours (timeout : Z) : Z := uint32_of_float (Hours timeout).

Definition GenerateMultisigScript (keys : list ExtendedKey) (threshold : Z) (timeout : Z)
  (timeoutKey : option ExtendedKey) : outcome (Address * bytes) :=
  if (0 <? timeoutHours timeout) && (match timeoutKey with None => true | Some _ => false end)
  then Fail "Timeout key must be non nil when using an escrow timeout"
  else if Z.of_nat (length keys) <? threshold then
    Fail (String.append "unable to generate multisig script with "
          (String.append (pretty threshold)
             (String.append " required signatures when there are only "
                (String.append (pretty (length keys)) " public keys available"))))
  else
    ecKeys ← ecPubKeys keys;
    let multisig :=
      [ItInt64 threshold]
      ++ map (fun key => ItData (SerializeCompressed lib key)) ecKeys
      ++ [ItInt64 (Z.of_nat (length ecKeys)); ItOp OP_CHECKMULTISIG] in
    builder ←
      (if timeoutHours timeout =? 0 then Ret multisig
       else
         match timeoutKey with
         | None => Panic "invalid memory address or nil pointer dereference"
         | Some tk =>
             ecKey ← call (ECPubKey lib tk);
             let sequenceLock :=
               LockTimeToSequence lib false
                 (uint32_of_float (PrimFloat.mul (Hours timeout) (float64_of_int 6))) in
             mret ([ItOp OP_IF] ++ multisig
                   ++ [ItOp OP_ELSE; ItInt64 sequenceLock; ItOp OP_CHECKSEQUENCEVERIFY;
                       ItOp OP_DROP; ItData (SerializeCompressed lib ecKey);
                       ItOp OP_CHECKSIG; ItOp OP_ENDIF])
         end);
    redeemScript ← call (BuilderScript lib builder);
    let witnessProgram := Sum256 lib redeemScript in
    addr ← call (NewAddressWitnessScriptHash lib witnessProgram (params w));
    mret (addr, redeemScript).

End Operations.

End Wallet.

(* ================================================================== *)
(** ** The exchange-rate fetcher *)
(* ================================================================== *)

Module Fetcher.
Import Exchange.

Definition SatoshiPerBTC : Z := 100000000.

(** The implementations of the [ExchangeRateDecoder] interface. *)
Inductive ExchangeRateDecoder := CMCDecoder.

(** Go maps are references: a provider and the fetcher that owns it hold
    the same map when they hold the same reference into the store of
    maps. *)
Record ExchangeRateProvider := mkProvider {
  fetchUrl : string;
  pcache : nat;
  decoder : ExchangeRateDecoder
}.

Record BitcoinPriceFetcher := mkFetcher {
  cache : nat;
  providers : list ExchangeRateProvider
}.

(** The map behind a reference; a reference to nothing reads as the nil
    map, which has no entries. *)
Definition mapAt (store : gmap nat (gmap string PrimFloat.float)) (ref : nat)
  : gmap string PrimFloat.float :=
  default ∅ (store !! ref).

Section Network.

(** [strconv.ParseFloat(s, 64)]; [client.Get(url)] with the body of the
    response; [json.NewDecoder(body).Decode]. *)
Variable ParseFloat : string -> option PrimFloat.float.
Variable httpGet : string -> result string.
Variable jsonDecode : string -> result JSON.

(** [provider.decoder.decode(dataMap, provider.cache)] on the store. A
    write to the nil map panics. *)
Definition decodeInto (d : ExchangeRateDecoder) (dat : JSON) (ref : nat)
  (store : gmap nat (gmap string PrimFloat.float))
  : outcome unit * gmap nat (gmap string PrimFloat.float) :=
  match d with
  | CMCDecoder =>
      match store !! ref with
      | Some m =>
          let '(r, m') := decode ParseFloat dat m in
          (r, <[ref := m']> store)
      | None =>
          match fst (decode ParseFloat dat ∅) with
          | Ret _ => (Panic "assignment to entry in nil map", store)
          | r => (r, store)
          end
      end
  end.

(** [provider.fetch()] (lines 101-119): the outcome, the store it leaves
    and the URLs it requested. *)
Definition fetch (provider : ExchangeRateProvider)
  (store : gmap nat (gmap string PrimFloat.float))
  : outcome unit * gmap nat (gmap string PrimFloat.float) * list string :=
  if (String.length (fetchUrl provider) =? 0)%nat then
    (Fail "Provider has no fetchUrl", store, [])
  else
    match httpGet (fetchUrl provider) with
    | Err err => (Fail err, store, [fetchUrl provider])
    | Ok body =>
        match jsonDecode body with
        | Err err => (Fail err, store, [fetchUrl provider])
        | Ok dataMap =>
            let '(r, store') := decodeInto (decoder provider) dataMap (pcache provider) store in
            (r, store', [fetchUrl provider])
        end
    end.

(** The loop of [fetchCurrentRates]. *)
Fixpoint fetchLoop (ps : list ExchangeRateProvider)
  (store : gmap nat (gmap string PrimFloat.float))
  : outcome unit * gmap nat (gmap string PrimFloat.float) * list string :=
  match ps with
  | [] => (Fail "All exchange rate API queries failed", store, [])
  | provider :: rest =>
      match fetch provider store with
      | (Ret _, store', log) => (Ret tt, store', log)
      | (Fail _, store', log) =>
          let '(r, store'', log') := fetchLoop rest store' in
          (r, store'', log ++ log')
      | (Panic m, store', log) => (Panic m, store', log)
      end
  end.

(** [fetchCurrentRates] (lines 88-99). *)
Definition fetchCurrentRates (b : BitcoinPriceFetcher)
  (store : gmap nat (gmap string PrimFloat.float))
  : outcome unit * gmap nat (gmap string PrimFloat.float) * list string :=
  fetchLoop (providers b) store.

(** [GetExchangeRate] (lines 57-65). *)
Definition GetExchangeRate (b : BitcoinPriceFetcher) (currencyCode : string)
  (store : gmap nat (gmap string PrimFloat.float)) : outcome PrimFloat.float :=
  match mapAt store (cache b) !! currencyCode with
  | Some price => Ret price
  | None => Fail "Currency not tracked"
  end.

(** [GetLatestRate] (lines 67-76): what [fetchCurrentRates] returns is
    dropped. *)
Definition GetLatestRate (b : BitcoinPriceFetcher) (currencyCode : string)
  (store : gmap nat (gmap string PrimFloat.float))
  : outcome PrimFloat.float * gmap nat (gmap string PrimFloat.float) * list string :=
  let '(r, store', log) := fetchCurrentRates b store in
  match r with
  | Panic m => (Panic m, store', log)
  | _ => (GetExchangeRate b currencyCode store', store', log)
  end.

(** [GetAllRates] (lines 78-82). *)
Definition GetAllRates (b : BitcoinPriceFetcher)
  (store : gmap nat (gmap string PrimFloat.float)) : gmap string PrimFloat.float :=
  mapAt store (cache b).

End Network.

(** [UnitsPerCoin] (lines 84-86). *)
Definition UnitsPerCoin (b : BitcoinPriceFetcher) : Z := SatoshiPerBTC.

(** [NewBitcoinPriceFetcher] (lines 39-55), without the refresh it starts
    in the background: a fresh empty map, shared by the fetcher and its one
    provider. *)
Definition NewBitcoinPriceFetcher (store : gmap nat (gmap string PrimFloat.float))
  : BitcoinPriceFetcher * gmap nat (gmap string PrimFloat.float) :=
  let ref := fresh (dom store) in
  (mkFetcher ref [mkProvider "https://api.coinmarketcap.com/v1/ticker/phore" ref CMCDecoder],
   <[ref := ∅]> store).

End Fetcher.

(* ================================================================== *)
(** ** The protocol service: requests *)
(* ================================================================== *)

Module Requests.
Import Service.

Section Sender.

(** [messageSenderForPeer(p, nil).SendRequest(ctx, pmes)]: the reply
    (possibly nil) or an error. *)
Variable senderRequest : PeerID -> Message -> result (option Message).

(** [SendRequest] (lines 112-130): the response and the error, as Go
    returns them. *)
Definition SendRequest (p : PeerID) (pmes : Message) : option Message * option error :=
  match senderRequest p pmes with
  | Err err => (None, Some err)
  | Ok None => (None, Some "no response from peer"%string)
  | Ok (Some rpmes) => (Some rpmes, None)
  end.

End Sender.

(** The messages a run dispatched to handlers, the responses it wrote and
    the reads it made, in order. *)
Definition handled (trace : list Event) : list Message :=
  omap (fun e => match e with EvHandle m => Some m | _ => None end) trace.

Definition written (trace : list Event) : list Message :=
  omap (fun e => match e with EvWriteMsg m => Some m | _ => None end) trace.

Definition readResults (trace : list Event) : list (result Message) :=
  omap (fun e => match e with EvReadMsg r => Some r | _ => None end) trace.

End Requests.

(* ================================================================== *)
(** ** The wallet: the daemon's command line, watched scripts, coins and
       partial signatures *)
(* ================================================================== *)

Module WalletMore.
Import Wallet.

(** *** The command line of the daemon *)

(** [defaultSocksPort] (lines 963-970). *)
Definition defaultSocksPort (controlPort : Z) : Z :=
  let socksPort := 9050 in
  if (controlPort =? 9151) || (controlPort =? 9051) then
    let controlPort := int (controlPort - 1) in
    controlPort
  else socksPort.

(** The fields of [BitcoindWallet] that [BuildArguments] reads. *)
Record Launch := mkLaunch {
  trustedPeer : string;
  controlPort : Z;
  useTor : bool
}.

(** [strings.Split(s, ":")[0]]: what precedes the first colon. *)
Fixpoint beforeColon (s : string) : string :=
  match s with
  | EmptyString => EmptyString
  | String c rest => if Ascii.eqb c ":" then EmptyString else String c (beforeColon rest)
  end.

(** The launch fields as [NewBitcoindWallet] sets them (lines 72-85). *)
Definition NewLaunch (trustedPeer : string) (useTor : bool) (torControlPort : Z) : Launch :=
  let trustedPeer :=
    if String.eqb trustedPeer "" then trustedPeer else beforeColon trustedPeer in
  mkLaunch trustedPeer torControlPort useTor.

(** [strconv.Itoa]. *)
Definition strconv_Itoa (n : Z) : string := pretty n.

(** [BuildArguments] (lines 90-106). *)
Definition BuildArguments (w : Launch) (rescan : bool) : list string :=
  let notify := "curl -d %s http://localhost:8330/"%string in
  let args := [String.append "-walletnotify=" notify; "-server"%string] in
  let args := if rescan then args ++ ["-rescan"%string] else args in
  let args := args ++ [String.append "-torcontrol=127.0.0.1:" (strconv_Itoa (controlPort w))] in
  let args :=
    if negb (String.eqb (trustedPeer w) "") then
      args ++ [String.append "-connect=" (trustedPeer w)]
    else args in
  let args :=
    if useTor w then
      let socksPort := defaultSocksPort (controlPort w) in
      args ++ ["-listen"%string;
               String.append "-proxy:127.0.0.1:" (strconv_Itoa socksPort);
               "-onlynet=onion"%string]
    else args in
  args.

(** *** Watched scripts *)

(** The fields of [BitcoindWallet] behind [AddWatchedScript]. *)
Record Watch := mkWatch {
  started : bool;
  scriptsToAdd : list bytes
}.

Section Scripts.

(** [txscript.ExtractPkScriptAddrs(script, params)]: the addresses of the
    script; [rpcClient.ImportAddressRescan(address, false)]. *)
Variable ExtractPkScriptAddrs : bytes -> result (list string).
Variable ImportAddressRescan : string -> bool -> option error.

(** [ScriptToAddress] (lines 192-201). *)
Definition ScriptToAddress (script : bytes) : outcome string :=
  match ExtractPkScriptAddrs script with
  | Err err => Fail err
  | Ok addrs =>
      match addrs with
      | [] => Fail "unknown script"
      | a :: _ => Ret a
      end
  end.

(** [AddWatchedScript] (lines 929-939): the wallet it leaves, what it
    returns (nil as [Ret None]) and the addresses it asked the daemon to
    import. *)
Definition AddWatchedScript (w : Watch) (script : bytes)
  : Watch * outcome (option error) * list string :=
  if negb (started w) then
    (mkWatch (started w) (scriptsToAdd w ++ [script]), Ret None, [])
  else
    match ExtractPkScriptAddrs script with
    | Err err => (w, Ret (Some err), [])
    | Ok addrs =>
        match addrs with
        | [] => (w, Panic index_out_of_range, [])
        | a :: _ => (w, Ret (ImportAddressRescan a false), [a])
        end
    end.

(** The loop of [addScripts] over the scripts queued when it starts; what
    [AddWatchedScript] returns is dropped, a panic is not. *)
Fixpoint addScriptsLoop (w : Watch) (scripts : list bytes)
  : Watch * outcome unit * list string :=
  match scripts with
  | [] => (w, Ret tt, [])
  | script :: rest =>
      match AddWatchedScript w script with
      | (w', Panic m, log) => (w', Panic m, log)
      | (w', _, log) =>
          let '(w'', r, log') := addScriptsLoop w' rest in
          (w'', r, log ++ log')
      end
  end.

(** [addScripts] (lines 137-141). *)
Definition addScripts (w : Watch) : Watch * outcome unit * list string :=
  addScriptsLoop w (scriptsToAdd w).

End Scripts.

Section Coins.

Context (lib : Lib) (w : BitcoindWallet).

(** *** [gatherCoins] (lines 316-355) *)

(** A coin as [spvwallet.NewCoin] makes it. *)
Record Coin := mkCoin {
  coinHash : bytes;
  coinIndex : Z;
  coinValue : Z;
  coinNumConfs : Z;
  coinPkScript : bytes
}.

(** The map from coins to keys is keyed by the coins' identity, so every
    coin gathered is an entry of its own: the entries, in the order they
    were made (the order in which Go ranges over them is not fixed). On an
    error the map is returned as far as it was filled. *)
Fixpoint gatherLoop (utxos : list ListUnspentResult) (m : list (Coin * ExtendedKey))
  : list (Coin * ExtendedKey) * option error :=
  match utxos with
  | [] => (m, None)
  | u :: rest =>
      if negb (luSpendable u) then gatherLoop rest m
      else
        match NewHashFromStr (luTxID u) with
        | Err err => (m, Some err)
        | Ok txhash =>
            match DecodeAddress lib (luAddress u) (params w) with
            | Err err => (m, Some err)
            | Ok addr =>
                match PayToAddrScript lib addr with
                | Err err => (m, Some err)
                | Ok scriptPubkey =>
                    let c := mkCoin txhash (luVout u)
                               (int64_of_float (PrimFloat.mul (luAmount u) f100000000))
                               (luConfirmations u) scriptPubkey in
                    match DumpPrivKey (rpcClient w) addr with
                    | Err err => (m, Some err)
                    | Ok wif =>
                        let key := mkExtendedKey (HDPrivateKeyID (params w)) wif
                                     (repeat x00 32) [x00; x00; x00; x00] 0 0 true in
                        gatherLoop rest (m ++ [(c, key)])
                    end
                end
            end
        end
  end.

Definition gatherCoins : list (Coin * ExtendedKey) * option error :=
  match ListUnspent (rpcClient w) with
  | Err err => ([], Some err)
  | Ok utxos => gatherLoop utxos []
  end.

(** [HasKey] (lines 209-215). *)
Definition HasKey (addr : Address) : bool :=
  match DumpPrivKey (rpcClient w) addr with
  | Err _ => false
  | Ok _ => true
  end.

(** [EstimateFee] (lines 545-554). *)
Definition EstimateFee (ins : list TransactionInput) (outs : list TransactionOutput)
  (feePerByte : Z) : Z :=
  let txOut := addOutputs outs in
  let estimatedSize := EstimateSerializeSize lib (Z.of_nat (length ins)) txOut false P2PKH in
  let fee := int (estimatedSize * int feePerByte) in
  uint64 fee.

(** *** [CreateMultisigSignature] (lines 591-641) *)

(** The unsigned transaction: inputs, outputs less the fee, BIP 69. *)
Definition unsignedTx (ins : list TransactionInput) (outs : list TransactionOutput)
  (redeemScript : bytes) (feePerByte : Z) : outcome MsgTx :=
  txIn ← addInputs ins [];
  let txOut := addOutputs outs in
  let txType :=
    match LockTimeFromRedeemScript lib redeemScript with
    | Ok _ => P2SH_Multisig_Timelock_2Sigs
    | Err _ => P2SH_2of3_Multisig
    end in
  let txOut := subtractFee lib (length ins) txType feePerByte txOut in
  mret (InPlaceSort (mkMsgTx 1 txIn txOut 0)).

(** The signing loop: an input whose signature fails is passed over. *)
Fixpoint signLoop (tx : MsgTx) (ins : list TransactionInput) (signingKey : PrivateKey)
  (redeemScript : bytes) (indices : list nat) (sigs : list Signature)
  : outcome (list Signature) :=
  match indices with
  | [] => Ret sigs
  | i :: rest =>
      match ins !! i with
      | None => Panic index_out_of_range
      | Some in_ =>
          match RawTxInWitnessSignature lib tx i (InValue in_) redeemScript signingKey with
          | Err _ => signLoop tx ins signingKey redeemScript rest sigs
          | Ok sig =>
              let bs := mkSignature (uint32 (Z.of_nat i)) sig in
              signLoop tx ins signingKey redeemScript rest (sigs ++ [bs])
          end
      end
  end.

Definition CreateMultisigSignature (ins : list TransactionInput)
  (outs : list TransactionOutput) (key : ExtendedKey) (redeemScript : bytes)
  (feePerByte : Z) : outcome (list Signature) :=
  tx ← unsignedTx ins outs redeemScript feePerByte;
  signingKey ← call (ECPrivKey lib key);
  signLoop tx ins signingKey redeemScript (seq 0 (length (TxIns tx))) [].

(** *** The transaction of [SweepAddress] *)

(** [SweepAddress] (lines 721-841) up to the broadcast: the signed
    transaction. *)
Definition SweepAddress_tx (utxos : list Utxo) (address : option Address) (key : ExtendedKey)
  (redeemScript : option bytes) (feeLevel : FeeLevel) : outcome MsgTx :=
  let internalAddr :=
    match address with
    | Some a => a
    | None => CurrentAddress w
    end in
  script ← call (PayToAddrScript lib internalAddr);
  let val := fold_left (fun v u => int64 (v + UtxoValue u)) utxos 0 in
  let inputs := map (fun u => NewTxIn (Op u) [] []) utxos in
  let out := NewTxOut val script in
  let txType :=
    match redeemScript with
    | None => P2PKH
    | Some rs =>
        match LockTimeFromRedeemScript lib rs with
        | Ok _ => P2SH_Multisig_Timelock_1Sig
        | Err _ => P2SH_1of2_Multisig
        end
    end in
  let estimatedSize := EstimateSerializeSize lib (Z.of_nat (length utxos)) [out] false txType in
  let feePerByte := int (GetFeePerByte w feeLevel) in
  let fee := int (estimatedSize * feePerByte) in
  let outVal := int64 (val - int64 fee) in
  let outVal := if outVal <? 0 then 0 else outVal in
  let out := mkTxOut outVal (PkScript out) in
  let tx := InPlaceSort (mkMsgTx TxVersion inputs [out] 0) in
  privKey ← call (ECPrivKey lib key);
  '(timeLocked, tx) ← checkTimeLocked lib redeemScript tx;
  signInputs lib utxos redeemScript timeLocked privKey tx (seq 0 (length (TxIns tx))).

End Coins.

End WalletMore.
(* ================================================================== *)
(** ** Dropbox storage *)
(* ================================================================== *)

Module Dropbox.

(** The run-time panic of a slice expression [s[:j]] with [j < 0] or
    [j > len(s)]. *)
Definition slice_bounds_out_of_range : string := "runtime error: slice bounds out of range".

(** The code of SHA1 in [go-multihash]. *)
Definition SHA1 : Z := 17.

(** The calls [Store] makes into crypto/sha256, the Dropbox SDK,
    go-multihash and go-multiaddr: each is taken as given. *)
Record Api := mkApi {
  Sum256 : bytes -> bytes;
  Upload : string -> bytes -> result unit;
  CreateSharedLink : string -> result string;
  mh_Encode : bytes -> Z -> result bytes;
  mh_Cast : bytes -> result bytes;
  B58String : bytes -> string;
  NewMultiaddr : string -> result string
}.

(** What [Store] asks of Dropbox, in order. *)
Inductive Request :=
| ReqUpload (path : string) (content : bytes)
| ReqCreateSharedLink (path : string).

(** [res.Url[:len(res.Url)-1] + "1"]. *)
Definition directUrl (Url : string) : outcome string :=
  match String.length Url with
  | O => Panic slice_bounds_out_of_range
  | S n => Ret (String.append (String.substring 0 n Url) "1")
  end.

(** [[]byte(s)]. *)
Definition bytes_of_string (s : string) : bytes :=
  map byte_of_ascii (list_ascii_of_string s).

(** [Store] (lines 35-73): the multiaddr or the error, and the requests
    made. *)
Definition Store (api : Api) (peerID : string) (ciphertext : bytes)
  : outcome string * list Request :=
  let hash := Sum256 api ciphertext in
  let hex := Wallet.hex_EncodeToString hash in
  match Upload api (String.append "/" hex) ciphertext with
  | Err err => (Fail err, [ReqUpload (String.append "/" hex) ciphertext])
  | Ok _ =>
      let requests :=
        [ReqUpload (String.append "/" hex) ciphertext;
         ReqCreateSharedLink (String.append "/" hex)] in
      match CreateSharedLink api (String.append "/" hex) with
      | Err err => (Fail err, requests)
      | Ok Url =>
          (url ← directUrl Url;
           b ← call (mh_Encode api (bytes_of_string url) SHA1);
           m ← call (mh_Cast api b);
           addr ← call (NewMultiaddr api
                          (String.append "/ipfs/" (String.append (B58String api m) "/https/")));
           mret addr,
           requests)
      end
  end.

End Dropbox.

(* ================================================================== *)
(** ** Notifications *)
(* ================================================================== *)

Module Notifications.

Record Thumbnail := mkThumbnail { Tiny : string; Small : string }.

Record OrderNotification := mkOrderNotification {
  order_ID : string;
  order_Type : string;
  order_Title : string;
  order_BuyerID : string;
  order_BuyerHandle : string;
  order_Thumbnail : Thumbnail;
  order_OrderID : string;
  order_Slug : string
}.

Record PaymentNotification := mkPaymentNotification {
  payment_ID : string;
  payment_Type : string;
  payment_OrderID : string;
  payment_FundingTotal : Z
}.

(** The fields of [OrderConfirmationNotification],
    [OrderDeclinedNotification], [RefundNotification] and
    [FulfillmentNotification], which are declared alike. *)
Record VendorOrderFields := mkVendorOrderFields {
  vendor_ID : string;
  vendor_Type : string;
  vendor_OrderID : string;
  vendor_Thumbnail : Thumbnail;
  vendor_VendorHandle : string;
  vendor_VendorID : string
}.

(** The fields of [OrderCancelNotification] and
    [CompletionNotification]. *)
Record BuyerOrderFields := mkBuyerOrderFields {
  buyer_ID : string;
  buyer_Type : string;
  buyer_OrderID : string;
  buyer_Thumbnail : Thumbnail;
  buyer_BuyerHandle : string;
  buyer_BuyerID : string
}.

(** The fields of [DisputeOpenNotification] and
    [DisputeUpdateNotification]. *)
Record DisputeFields := mkDisputeFields {
  dispute_ID : string;
  dispute_Type : string;
  dispute_OrderID : string;
  dispute_Thumbnail : Thumbnail;
  dispute_DisputerID : string;
  dispute_DisputerHandle : string;
  dispute_DisputeeID : string;
  dispute_DisputeeHandle : string;
  dispute_Buyer : string
}.

(** The fields of [DisputeCloseNotification] and
    [DisputeAcceptedNotification]. *)
Record DisputeEndFields := mkDisputeEndFields {
  end_ID : string;
  end_Type : string;
  end_OrderID : string;
  end_Thumbnail : Thumbnail;
  end_OtherPartyID : string;
  end_OtherPartyHandle : string;
  end_Buyer : string
}.

(** The fields of [FollowNotification], [UnfollowNotification],
    [ModeratorAddNotification] and [ModeratorRemoveNotification]. *)
Record PeerFields := mkPeerFields {
  peer_ID : string;
  peer_Type : string;
  peer_PeerID : string
}.

Record StatusNotification := mkStatusNotification { Status : string }.

Record ChatMessage := mkChatMessage {
  chat_MessageID : string;
  chat_PeerID : string;
  chat_Subject : string;
  chat_Message : string;
  chat_Timestamp : Z
}.

Record ChatRead := mkChatRead {
  read_MessageID : string;
  read_PeerID : string;
  read_Subject : string
}.

Record ChatTyping := mkChatTyping {
  typing_PeerID : string;
  typing_Subject : string
}.

Record IncomingTransaction := mkIncomingTransaction {
  tx_Txid : string;
  tx_Value : Z;
  tx_Address : string;
  tx_Status : string;
  tx_Memo : string;
  tx_Timestamp : Z;
  tx_Confirmations : Z;
  tx_OrderID : string;
  tx_Thumbnail : string;
  tx_Height : Z;
  tx_CanBumpFee : bool
}.

(** The values handed to [wrap], [Serialize] and [Describe] as
    [interface{}]: a value of one of the notification types of the
    package or a byte slice. *)
Inductive Data :=
| AnOrderNotification (n : OrderNotification)
| APaymentNotification (n : PaymentNotification)
| AnOrderConfirmationNotification (n : VendorOrderFields)
| AnOrderDeclinedNotification (n : VendorOrderFields)
| AnOrderCancelNotification (n : BuyerOrderFields)
| ARefundNotification (n : VendorOrderFields)
| AFulfillmentNotification (n : VendorOrderFields)
| ACompletionNotification (n : BuyerOrderFields)
| ADisputeOpenNotification (n : DisputeFields)
| ADisputeUpdateNotification (n : DisputeFields)
| ADisputeCloseNotification (n : DisputeEndFields)
| ADisputeAcceptedNotification (n : DisputeEndFields)
| AFollowNotification (n : PeerFields)
| AnUnfollowNotification (n : PeerFields)
| AModeratorAddNotification (n : PeerFields)
| AModeratorRemoveNotification (n : PeerFields)
| AStatusNotification (n : StatusNotification)
| AChatMessage (n : ChatMessage)
| AChatRead (n : ChatRead)
| AChatTyping (n : ChatTyping)
| AnIncomingTransaction (n : IncomingTransaction)
| ATestNotification
| SomeBytes (b : bytes).

(** What [wrap] returns: one of the five wrappers around the value, or
    the value as it came. *)
Inductive Wrapped :=
| notificationWrapper (Notification : Data)
| messageWrapper (Message : Data)
| walletWrapper (Message : Data)
| messageReadWrapper (MessageRead : Data)
| messageTypingWrapper (MessageRead : Data)
| unwrapped (i : Data).

Definition vendor_setType (n : VendorOrderFields) (t : string) : VendorOrderFields :=
  mkVendorOrderFields (vendor_ID n) t (vendor_OrderID n) (vendor_Thumbnail n)
    (vendor_VendorHandle n) (vendor_VendorID n).

Definition buyer_setType (n : BuyerOrderFields) (t : string) : BuyerOrderFields :=
  mkBuyerOrderFields (buyer_ID n) t (buyer_OrderID n) (buyer_Thumbnail n)
    (buyer_BuyerHandle n) (buyer_BuyerID n).

Definition dispute_setType (n : DisputeFields) (t : string) : DisputeFields :=
  mkDisputeFields (dispute_ID n) t (dispute_OrderID n) (dispute_Thumbnail n)
    (dispute_DisputerID n) (dispute_DisputerHandle n) (dispute_DisputeeID n)
    (dispute_DisputeeHandle n) (dispute_Buyer n).

Definition end_setType (n : DisputeEndFields) (t : string) : DisputeEndFields :=
  mkDisputeEndFields (end_ID n) t (end_OrderID n) (end_Thumbnail n)
    (end_OtherPartyID n) (end_OtherPartyHandle n) (end_Buyer n).

Definition peer_setType (n : PeerFields) (t : string) : PeerFields :=
  mkPeerFields (peer_ID n) t (peer_PeerID n).

(** [wrap] (lines 338-411). *)
Definition wrap (i : Data) : Wrapped :=
  match i with
  | AnOrderNotification n =>
      notificationWrapper
        (AnOrderNotification
           (mkOrderNotification (order_ID n) "order" (order_Title n) (order_BuyerID n)
              (order_BuyerHandle n) (order_Thumbnail n) (order_OrderID n) (order_Slug n)))
  | APaymentNotification n =>
      notificationWrapper
        (APaymentNotification
           (mkPaymentNotification (payment_ID n) "payment" (payment_OrderID n)
              (payment_FundingTotal n)))
  | AnOrderConfirmationNotification n =>
      notificationWrapper (AnOrderConfirmationNotification (vendor_setType n "orderConfirmation"))
  | AnOrderCancelNotification n =>
      notificationWrapper (AnOrderCancelNotification (buyer_setType n "cancel"))
  | ARefundNotification n =>
      notificationWrapper (ARefundNotification (vendor_setType n "refund"))
  | AFulfillmentNotification n =>
      notificationWrapper (AFulfillmentNotification (vendor_setType n "fulfillment"))
  | ACompletionNotification n =>
      notificationWrapper (ACompletionNotification (buyer_setType n "orderComplete"))
  | ADisputeOpenNotification n =>
      notificationWrapper (ADisputeOpenNotification (dispute_setType n "disputeOpen"))
  | ADisputeUpdateNotification n =>
      notificationWrapper (ADisputeUpdateNotification (dispute_setType n "disputeUpdate"))
  | ADisputeCloseNotification n =>
      notificationWrapper (ADisputeCloseNotification (end_setType n "disputeClose"))
  | ADisputeAcceptedNotification n =>
      notificationWrapper (ADisputeAcceptedNotification (end_setType n "disputeAccepted"))
  | AFollowNotification n =>
      notificationWrapper (AFollowNotification (peer_setType n "follow"))
  | AnUnfollowNotification n =>
      notificationWrapper (AnUnfollowNotification (peer_setType n "unfollow"))
  | AModeratorAddNotification n =>
      notificationWrapper (AModeratorAddNotification (peer_setType n "moderatorAdd"))
  | AModeratorRemoveNotification n =>
      notificationWrapper (AModeratorRemoveNotification (peer_setType n "moderatorRemove"))
  | AChatMessage n => messageWrapper (AChatMessage n)
  | AChatRead n => messageReadWrapper (AChatRead n)
  | AChatTyping n => messageTypingWrapper (AChatTyping n)
  | AnIncomingTransaction n => walletWrapper (AnIncomingTransaction n)
  | _ => unwrapped i
  end.

Section Marshal.

(** [json.MarshalIndent(w, "", "    ")], whose error is dropped. *)
Variable MarshalIndent : Wrapped -> bytes.

(** [Serialize] (lines 414-421). *)
Definition Serialize (i : Data) : bytes :=
  let w := wrap i in
  match w with
  | unwrapped (SomeBytes b) => b
  | _ => MarshalIndent w
  end.

End Marshal.

(** The double quote. *)
Definition dq : string := String (ascii_of_nat 34) EmptyString.

(** [fmt.Sprintf(form, id)] for the forms with one quoted [%s]. *)
Definition quoted (before id after : string) : string :=
  String.append before (String.append dq (String.append id (String.append dq after))).

(** [Describe] (lines 424-508). *)
Definition Describe (i : Data) : string * string :=
  match i with
  | AnOrderNotification n =>
      let buyer :=
        if negb (String.eqb (order_BuyerHandle n) "") then order_BuyerHandle n
        else order_BuyerID n in
      ("Order received"%string,
       String.append (quoted "You received an order " (order_Title n) ".")
         (String.append nl (String.append nl
           (String.append "Order ID: " (String.append (order_OrderID n)
             (String.append nl (String.append "Buyer: " (String.append buyer
               (String.append nl (String.append "Thumbnail: "
                 (String.append (Small (order_Thumbnail n)) nl)))))))))))
  | APaymentNotification n =>
      ("Payment received"%string,
       String.append (quoted "Payment for order " (payment_OrderID n) " received (total ")
         (String.append (pretty (payment_FundingTotal n)) ")."))
  | AnOrderConfirmationNotification n =>
      ("Order confirmed"%string, quoted "Order " (vendor_OrderID n) " has been confirmed.")
  | AnOrderCancelNotification n =>
      ("Order cancelled"%string, quoted "Order " (buyer_OrderID n) " has been cancelled.")
  | ARefundNotification n =>
      ("Payment refunded"%string,
       quoted "Payment refund for order " (vendor_OrderID n) " received.")
  | AFulfillmentNotification n =>
      ("Order fulfilled"%string, quoted "Order " (vendor_OrderID n) " was marked as fulfilled.")
  | ACompletionNotification n =>
      ("Order completed"%string, quoted "Order " (buyer_OrderID n) " was marked as completed.")
  | ADisputeOpenNotification n =>
      ("Dispute opened"%string,
       quoted "Dispute around order " (dispute_OrderID n) " was opened.")
  | ADisputeUpdateNotification n =>
      ("Dispute updated"%string,
       quoted "Dispute around order " (dispute_OrderID n) " was updated.")
  | ADisputeCloseNotification n =>
      ("Dispute closed"%string, quoted "Dispute around order " (end_OrderID n) " was closed.")
  | ATestNotification => ("SMTP Notification Test"%string, "Hello World"%string)
  | _ => (""%string, ""%string)
  end.

End Notifications.

(* ================================================================== *)
(** ** Migration005: properties *)
(* ================================================================== *)

Module MigrationFacts.
Import Migrations.

Lemma sapp_nil (s : string) : String.append EmptyString s = s.
Proof. reflexivity. Qed.

Lemma sapp_cons (c : ascii) (a s : string) :
  String.append (String c a) s = String c (String.append a s).
Proof. reflexivity. Qed.

Lemma split_slash_aux_app (a b acc : string) :
  split_slash_aux (String.append a (String "/" b)) acc
  = (split_slash_aux a acc ++ split_slash_aux b EmptyString)%list.
Proof.
  revert acc. induction a as [|c a IH]; intros acc.
  - reflexivity.
  - rewrite sapp_cons. simpl. destruct (Ascii.eqb c "/"); simpl; rewrite IH; reflexivity.
Qed.

(** What precedes the last element in [String.concat "/"]. *)
Definition lead (l : list string) : string :=
  match l with
  | [] => EmptyString
  | _ => String.append (String.concat "/" l) "/"
  end.

Lemma string_app_assoc (a b c : string) :
  String.append (String.append a b) c = String.append a (String.append b c).
Proof. induction a as [|x a IH]; [reflexivity | now rewrite !sapp_cons, IH]. Qed.

Lemma concat_snoc (l : list string) (b : string) :
  String.concat "/" (l ++ [b]) = String.append (lead l) b.
Proof.
  induction l as [|x l IH]; [reflexivity|].
  destruct l as [|y l].
  - unfold lead. cbn [app String.concat]. now rewrite string_app_assoc.
  - change (String.concat "/" ((x :: y :: l) ++ [b]))
      with (String.append x (String.append "/" (String.concat "/" ((y :: l) ++ [b])))).
    rewrite IH. unfold lead.
    change (String.concat "/" (x :: y :: l))
      with (String.append x (String.append "/" (String.concat "/" (y :: l)))).
    now rewrite !string_app_assoc.
Qed.

Lemma string_app_inv_head (p x y : string) :
  String.append p x = String.append p y -> x = y.
Proof.
  induction p as [|c p IH]; intros H; [exact H|].
  rewrite !sapp_cons in H. injection H; auto.
Qed.

Lemma string_app_nonempty (p x : string) :
  x <> EmptyString -> String.eqb (String.append p x) "" = false.
Proof.
  intros Hx. destruct p; [|reflexivity].
  rewrite sapp_nil. destruct x; [congruence | reflexivity].
Qed.

Lemma rooted_app (a b : string) :
  a <> EmptyString -> rooted (String.append a b) = rooted a.
Proof. destruct a; [congruence | reflexivity]. Qed.

(** Joining a directory with a plain file name: a prefix that depends on
    the directory only, followed by the name. *)
Definition plain (b : string) : Prop :=
  split_slash_aux b EmptyString = [b]
  /\ (forall r st, clean_step r st b = b :: st)
  /\ b <> EmptyString /\ path_Clean b = b.

Lemma path_Join_plain (a b : string) :
  plain b -> exists p, forall b', plain b' -> path_Join a b' = String.append p b'.
Proof.
  intros _. destruct (String.eqb a "") eqn:Ha.
  - exists EmptyString. intros b' (_ & _ & Hne & Hc). unfold path_Join. rewrite Ha.
    destruct (String.eqb_spec b' ""); [congruence | exact Hc].
  - assert (Hane : a <> EmptyString) by (intros ->; discriminate).
    exists (String.append (if rooted a then "/" else "")
              (lead (rev (fold_left (clean_step (rooted a)) (split_slash a) [])))).
    intros b' (Hs & Hc & Hne & _). unfold path_Join. rewrite Ha.
    destruct (String.eqb_spec b' ""); [congruence|].
    unfold path_Clean, split_slash. change (String.append "/" b') with (String "/" b').
    rewrite rooted_app by exact Hane.
    rewrite split_slash_aux_app, Hs, fold_left_app. cbn [fold_left].
    rewrite Hc. cbn [rev]. rewrite concat_snoc.
    destruct (rooted a).
    + rewrite <- string_app_assoc. now rewrite string_app_nonempty.
    + rewrite sapp_nil. now rewrite string_app_nonempty.
Qed.

Lemma plain_repover : plain "repover".
Proof. repeat split; try reflexivity; discriminate. Qed.

Lemma plain_swarm_key : plain "swarm.key".
Proof. repeat split; try reflexivity; discriminate. Qed.

(** The two files of the migration never share a path. *)
Lemma repover_not_swarm_key (repoPath : string) :
  path_Join repoPath "repover" <> path_Join repoPath "swarm.key".
Proof.
  destruct (path_Join_plain repoPath _ plain_repover) as [p Hp].
  rewrite (Hp _ plain_repover), (Hp _ plain_swarm_key).
  intros H. apply string_app_inv_head in H. discriminate.
Qed.

Lemma os_Create_ok (p : string) (fs : FS) :
  fault fs p <> OpenFails ->
  os_Create p fs = (set_files fs (<[p := EmptyString]> (files fs)), inl (mkFile p 0)).
Proof. unfold os_Create. destruct (fault fs p); congruence. Qed.

Lemma File_Write_fresh (p data : string) (fs : FS) :
  fault fs p <> WriteFails ->
  files fs !! p = Some EmptyString ->
  File_Write (mkFile p 0) data fs = (set_files fs (<[p := data]> (files fs)), None).
Proof.
  intros Hf Hl. unfold File_Write. cbn [fpath fpos]. rewrite Hl.
  assert (Hw : write_at 0 data EmptyString = data).
  { unfold write_at.
    change (substring 0 0 EmptyString) with EmptyString.
    change (string_of_list_ascii (repeat Ascii.zero (0 - String.length EmptyString)))
      with EmptyString.
    change (0 + String.length data)%nat with (String.length data).
    change (String.length EmptyString) with 0%nat.
    rewrite !sapp_nil.
    assert (Ht : substring (String.length data) 0 EmptyString = EmptyString)
      by (destruct (String.length data); reflexivity).
    rewrite Ht. clear. induction data as [|c d IH]; [reflexivity|].
    now rewrite sapp_cons, IH. }
  rewrite Hw. destruct (fault fs p); congruence.
Qed.

Lemma ioutil_WriteFile_ok (p data : string) (fs : FS) :
  fault fs p = Healthy ->
  ioutil_WriteFile p data fs = (set_files fs (<[p := data]> (files fs)), None).
Proof.
  intros Hf. unfold ioutil_WriteFile. rewrite os_Create_ok by congruence.
  rewrite File_Write_fresh; cbn [fault files set_files]; try congruence.
  - unfold File_Close, set_files. cbn. now rewrite insert_insert_eq.
  - apply lookup_insert_eq.
Qed.

Lemma ioutil_WriteFile_fails (p data : string) (fs : FS) :
  fault fs p <> Healthy ->
  exists fs' e, ioutil_WriteFile p data fs = (fs', Some e)
                /\ forall q, q <> p -> files fs' !! q = files fs !! q.
Proof.
  intros Hf. unfold ioutil_WriteFile, os_Create, File_Write.
  destruct (fault fs p) eqn:E; [congruence | |].
  - eauto.
  - simpl. rewrite E. eexists _, _. split; [reflexivity|].
    intros q Hq. unfold File_Close. simpl. now rewrite lookup_insert_ne.
Qed.

(** C4 (as amended): on a directory whose two paths can be written (an
    empty directory among them), [Up] returns nil and leaves [repover]
    holding the one byte '6' and [swarm.key] holding the preshared-key
    blob, which is 95 bytes long; [Down] afterwards returns nil, removes
    [swarm.key] and leaves [repover] holding the one byte '5'. *)
Theorem Up_then_Down (repoPath dbPassword : string) (testnet : bool) (fs : FS) :
  fault fs (path_Join repoPath "repover") = Healthy ->
  fault fs (path_Join repoPath "swarm.key") = Healthy ->
  exists fs1 fs2,
    Up repoPath dbPassword testnet fs = (fs1, None)
    /\ ioutil_ReadFile (path_Join repoPath "repover") fs1 = Some "6"%string
    /\ ioutil_ReadFile (path_Join repoPath "swarm.key") fs1 = Some swarmKeyData
    /\ String.length swarmKeyData = 95%nat
    /\ Down repoPath dbPassword testnet fs1 = (fs2, None)
    /\ ioutil_ReadFile (path_Join repoPath "swarm.key") fs2 = None
    /\ ioutil_ReadFile (path_Join repoPath "repover") fs2 = Some "5"%string.
Proof.
  intros Hr Hs.
  pose proof (repover_not_swarm_key repoPath) as Hne.
  set (r := path_Join repoPath "repover") in *.
  set (k := path_Join repoPath "swarm.key") in *.
  unfold Up, Down. fold r k.
  rewrite (os_Create_ok r fs) by congruence.
  rewrite ioutil_WriteFile_ok by (cbn; exact Hs).
  cbn [files fault set_files].
  rewrite File_Write_fresh; cbn [files fault set_files]; [| congruence |].
  2:{ rewrite lookup_insert_ne by congruence. apply lookup_insert_eq. }
  eexists _, _. split; [reflexivity|].
  unfold ioutil_ReadFile, File_Close. cbn [files fault set_files].
  split; [apply lookup_insert_eq|].
  split; [rewrite lookup_insert_ne by congruence; apply lookup_insert_eq|].
  split; [reflexivity|].
  rewrite os_Create_ok by (cbn; congruence).
  cbn [files fault set_files]. unfold os_Remove. cbn [files fault set_files].
  rewrite lookup_insert_ne by congruence.
  rewrite lookup_insert_ne by congruence.
  rewrite lookup_insert_eq.
  rewrite File_Write_fresh; cbn [files fault set_files]; [| congruence |].
  2:{ rewrite lookup_delete_ne by congruence. apply lookup_insert_eq. }
  split; [reflexivity|].
  cbn [files fault set_files]. split.
  - rewrite lookup_insert_ne by congruence. apply lookup_delete_eq.
  - apply lookup_insert_eq.
Qed.

(** Scenario S1 of the design document: [Up("./")] and [Down("./")] on the
    empty directory. *)
Lemma Up_then_Down_witness :
  exists fs1 fs2,
    Up "./" "letmein" false emptyFS = (fs1, None)
    /\ ioutil_ReadFile (path_Join "./" "repover") fs1 = Some "6"%string
    /\ ioutil_ReadFile (path_Join "./" "swarm.key") fs1 = Some swarmKeyData
    /\ String.length swarmKeyData = 95%nat
    /\ Down "./" "letmein" false fs1 = (fs2, None)
    /\ ioutil_ReadFile (path_Join "./" "swarm.key") fs2 = None
    /\ ioutil_ReadFile (path_Join "./" "repover") fs2 = Some "5"%string.
Proof. apply (Up_then_Down "./" "letmein" false emptyFS); reflexivity. Defined.

(** C4 as stated fails: after [Up] on the empty directory [swarm.key] holds
    95 bytes, not 92. *)
Lemma swarm_key_is_not_92_bytes :
  exists blob,
    ioutil_ReadFile "swarm.key" (fst (Up "./" "letmein" false emptyFS)) = Some blob
    /\ String.length blob = 95%nat
    /\ String.length blob <> 92%nat.
Proof. exists swarmKeyData. repeat split. vm_compute. discriminate. Qed.

(** C9: when [repover] can be created and the write of [swarm.key] fails,
    [Up] returns an error and leaves [repover] empty, whatever version it
    held before. *)
Theorem Up_not_atomic (repoPath dbPassword : string) (testnet : bool) (fs : FS) :
  fault fs (path_Join repoPath "repover") <> OpenFails ->
  fault fs (path_Join repoPath "swarm.key") <> Healthy ->
  exists fs' err,
    Up repoPath dbPassword testnet fs = (fs', Some err)
    /\ ioutil_ReadFile (path_Join repoPath "repover") fs' = Some EmptyString
    /\ forall old, ioutil_ReadFile (path_Join repoPath "repover") fs = Some old ->
                   old <> EmptyString ->
                   ioutil_ReadFile (path_Join repoPath "repover") fs'
                   <> ioutil_ReadFile (path_Join repoPath "repover") fs.
Proof.
  intros Hr Hs.
  pose proof (repover_not_swarm_key repoPath) as Hne.
  set (r := path_Join repoPath "repover") in *.
  set (k := path_Join repoPath "swarm.key") in *.
  unfold Up. fold r k. rewrite (os_Create_ok r fs) by exact Hr.
  destruct (ioutil_WriteFile_fails k swarmKeyData
              (set_files fs (<[r := EmptyString]> (files fs)))) as (fs' & e & Hw & Hsame).
  { cbn. exact Hs. }
  rewrite Hw. exists fs', e. split; [reflexivity|].
  assert (Hread : ioutil_ReadFile r fs' = Some EmptyString).
  { unfold ioutil_ReadFile. rewrite Hsame by congruence. cbn. apply lookup_insert_eq. }
  split; [exact Hread|].
  intros old Hold Hne'. rewrite Hread, Hold. congruence.
Qed.

(** A repository at version 5 on a disk where [swarm.key] cannot be
    opened for writing. *)
Definition brokenFS : FS :=
  mkFS {[ "repover"%string := "5"%string ]}
       (fun p => if String.eqb p "swarm.key" then OpenFails else Healthy).

Lemma Up_not_atomic_witness :
  exists fs' err,
    Up "./" "letmein" false brokenFS = (fs', Some err)
    /\ ioutil_ReadFile (path_Join "./" "repover") fs' = Some EmptyString
    /\ forall old, ioutil_ReadFile (path_Join "./" "repover") brokenFS = Some old ->
                   old <> EmptyString ->
                   ioutil_ReadFile (path_Join "./" "repover") fs'
                   <> ioutil_ReadFile (path_Join "./" "repover") brokenFS.
Proof. apply (Up_not_atomic "./" "letmein" false brokenFS); discriminate. Defined.

End MigrationFacts.

(* ================================================================== *)
(** ** The exchange-rate decoder: properties *)
(* ================================================================== *)

Module ExchangeFacts.
Import Exchange.

#[local] Set Warnings "-inexact-float".
(** The [float64] nearest to 0.542017. *)
Definition price_0_542017 : PrimFloat.float :=
  Eval cbv in PrimFloat.div (float_of_nonneg 542017) (float_of_nonneg 1000000).

Module FloatLiteral.
Import PrimFloat.
Example price_is_literal : price_0_542017 = 0.542017%float.
Proof. reflexivity. Qed.
End FloatLiteral.

Section WithParseFloat.

Variable ParseFloat : string -> option PrimFloat.float.

(** An array whose first element is an object carrying a string under
    "price_usd" that parses: the price goes into the cache under "PHR". *)
Lemma decode_price (m : gmap string JSON) (rest : list JSON) (s : string)
  (v : PrimFloat.float) (cache : gmap string PrimFloat.float) :
  m !! "price_usd"%string = Some (JString s) ->
  ParseFloat s = Some v ->
  decode ParseFloat (JArray (JObject m :: rest)) cache
  = (Ret tt, <["PHR"%string := v]> cache).
Proof. intros Hm Hp. unfold decode. now rewrite Hm, Hp. Qed.

(** The cache changes only where [decode] returns nil. *)
Lemma decode_atomic (dat : JSON) (cache : gmap string PrimFloat.float) :
  fst (decode ParseFloat dat cache) <> Ret tt ->
  snd (decode ParseFloat dat cache) = cache.
Proof.
  unfold decode. intros H.
  destruct dat as [| | | |[|[| | | | |m] rest]|]; try reflexivity.
  destruct (m !! "price_usd"%string) as [[| | |s| |]|]; try reflexivity.
  destruct (ParseFloat s); [|reflexivity]. now contradiction H.
Qed.

(** Which values make [decode] panic: everything but an array that is
    empty or starts with an object. *)
Definition assertion_fails (dat : JSON) : bool :=
  match dat with
  | JArray [] => false
  | JArray (JObject _ :: _) => false
  | _ => true
  end.

Lemma decode_panics_iff (dat : JSON) (cache : gmap string PrimFloat.float) :
  fst (decode ParseFloat dat cache) = Panic interface_conversion
  <-> assertion_fails dat = true.
Proof.
  unfold decode, assertion_fails.
  destruct dat as [| | | |[|[| | | | |m] rest]|]; cbn [fst]; try (split; [reflexivity|reflexivity]);
    try (split; discriminate).
  destruct (m !! "price_usd"%string) as [[| | |s| |]|]; try (split; discriminate).
  destruct (ParseFloat s); split; discriminate.
Qed.

End WithParseFloat.

(** C5: [decode] on the decoded [[]] returns "could not get currency" and
    leaves the cache as it was; on the sample payload, whose first element
    carries "price_usd": "0.542017", it returns nil and the cache then maps
    "PHR" to the number 0.542017 (the [float64] that [strconv.ParseFloat]
    gives for that string). *)
Theorem decode_scenarios (ParseFloat : string -> option PrimFloat.float)
  (cache : gmap string PrimFloat.float) :
  ParseFloat "0.542017"%string = Some price_0_542017 ->
  decode ParseFloat (JArray []) cache = (Fail "could not get currency", cache)
  /\ fst (decode ParseFloat samplePayload cache) = Ret tt
  /\ snd (decode ParseFloat samplePayload cache) !! "PHR"%string = Some price_0_542017
  /\ snd (decode ParseFloat samplePayload cache) = <["PHR"%string := price_0_542017]> cache.
Proof.
  intros Hp. split; [reflexivity|].
  unfold samplePayload.
  erewrite decode_price; [| vm_compute; reflexivity | exact Hp].
  cbn [fst snd]. repeat split. apply lookup_insert_eq.
Qed.

Lemma decode_scenarios_witness :
  decode parse_plain_decimal (JArray []) ∅ = (Fail "could not get currency", ∅)
  /\ fst (decode parse_plain_decimal samplePayload ∅) = Ret tt
  /\ snd (decode parse_plain_decimal samplePayload ∅) !! "PHR"%string = Some price_0_542017
  /\ snd (decode parse_plain_decimal samplePayload ∅) = <["PHR"%string := price_0_542017]> ∅.
Proof. apply (decode_scenarios parse_plain_decimal ∅). reflexivity. Defined.

(** C8: [decode] is not total. On a top-level object, and on a non-empty
    array whose first element is not an object, it panics in a type
    assertion: it returns neither an error nor nil, and the cache is as it
    was. *)
Theorem decode_not_total (ParseFloat : string -> option PrimFloat.float)
  (cache : gmap string PrimFloat.float) :
  (forall m, decode ParseFloat (JObject m) cache = (Panic interface_conversion, cache))
  /\ (forall first rest,
        match first with JObject _ => False | _ => True end ->
        decode ParseFloat (JArray (first :: rest)) cache = (Panic interface_conversion, cache))
  /\ decode ParseFloat (JArray [JString "phore"]) cache = (Panic interface_conversion, cache)
  /\ (forall dat,
        fst (decode ParseFloat dat cache) = Panic interface_conversion
        <-> assertion_fails dat = true).
Proof.
  split; [reflexivity|]. split.
  - intros first rest H. destruct first; try reflexivity. contradiction.
  - split; [reflexivity|]. intros dat. apply decode_panics_iff.
Qed.

End ExchangeFacts.

(* ================================================================== *)
(** ** The protocol service: properties *)
(* ================================================================== *)

Module ServiceFacts.
Import Service.

Lemma closes_app (a b : list Event) : closes (a ++ b) = closes a || closes b.
Proof. unfold closes. apply existsb_app. Qed.

(** Every way out of the loop of a peer that is not banned runs the
    deferred close: read error, no handler, handler error, write error. *)
Lemma unbanned_stream_is_closed (service : OpenBazaarService) (s : Stream) :
  IsBanned service (RemotePeer s) = false ->
  closes (handleNewMessage service s) = true
  /\ last (handleNewMessage service s) = Some EvClose.
Proof.
  intros H. unfold handleNewMessage. rewrite H. split.
  - cbn [closes existsb]. fold (closes (serve service (RemotePeer s) (writeFails s) (incoming s) ++ [EvClose])).
    rewrite closes_app. cbn. now rewrite orb_true_r.
  - rewrite app_comm_cons. apply last_snoc.
Qed.

(** C7, on the code: for a stream of a banned peer [handleNewMessage]
    returns at once. It reads no message and dispatches no handler, and it
    does not close the stream either: [s.Close()] is deferred only after
    the ban check. *)
Theorem banned_stream_is_left_open (service : OpenBazaarService) (s : Stream) :
  IsBanned service (RemotePeer s) = true ->
  handleNewMessage service s = []
  /\ closes (handleNewMessage service s) = false
  /\ reads_or_dispatches (handleNewMessage service s) = false.
Proof. intros H. unfold handleNewMessage. rewrite H. repeat split. Qed.

(** A service that bans the peer "QmBanned" and echoes every message. *)
Definition banningService : OpenBazaarService :=
  mkService (fun p => String.eqb p "QmBanned") (fun _ => Some (fun _ m => Ok (Some m))).

Definition bannedStream : Stream :=
  mkStream "QmBanned" [Ok (mkMessage 1 [x01]); Ok (mkMessage 2 [])] (fun _ => false).

Definition friendlyStream : Stream :=
  mkStream "QmFriend" [Ok (mkMessage 1 [x01]); Ok (mkMessage 2 [])] (fun _ => false).

Lemma banned_stream_is_left_open_witness :
  handleNewMessage banningService bannedStream = []
  /\ closes (handleNewMessage banningService bannedStream) = false
  /\ reads_or_dispatches (handleNewMessage banningService bannedStream) = false.
Proof. apply (banned_stream_is_left_open banningService bannedStream). reflexivity. Defined.

(** The same messages from a peer that is not banned: read, handled,
    answered, and the stream closed at the end. *)
Example friendly_stream_trace :
  handleNewMessage banningService friendlyStream
  = [EvBindSender "QmFriend";
     EvReadMsg (Ok (mkMessage 1 [x01])); EvHandle (mkMessage 1 [x01]); EvWriteMsg (mkMessage 1 [x01]);
     EvReadMsg (Ok (mkMessage 2 [])); EvHandle (mkMessage 2 []); EvWriteMsg (mkMessage 2 []);
     EvReadMsg (Err "EOF"%string);
     EvClose].
Proof. reflexivity. Qed.

End ServiceFacts.

(* ================================================================== *)
(** ** The wallet: properties *)
(* ================================================================== *)

Module WalletFacts.
Import Wallet.

(** *** Stand-ins for the packages and the daemon, for the examples *)

Definition itemBytes (it : ScriptItem) : bytes :=
  match it with
  | ItInt64 v => match Byte.of_N (Z.to_N (80 + v)) with Some b => [b] | None => [x00] end
  | ItData d => match Byte.of_N (N.of_nat (length d)) with Some b => b :: d | None => d end
  | ItOp op => [op]
  end.

Definition demoParams : Params := mkParams "mainnet" [x04; x88; xad; xe4].

Definition demoOutPoint : OutPoint := mkOutPoint (repeat xab 32) 0.

(** A transaction as [buildTx] could return it: one input, a payment of
    49,990,000 units. *)
Definition demoTx : MsgTx :=
  mkMsgTx 1 [mkTxIn demoOutPoint [x51] [] 0] [mkTxOut 49990000 [x76; xa9]] 0.

Definition demoLib : Lib :=
  mkLib demoParams
    (fun rs => match rs with
               | b :: _ => if Byte.eqb b OP_IF then Ok 144 else Err "Invalid redeem script"
               | [] => Err "Redeem script invalid length"
               end)
    (fun nIns txOut _ _ => 10 + 150 * nIns + 34 * Z.of_nat (length txOut))
    (fun a => match a with
              | Addr s => Ok (x00 :: x14 :: map byte_of_ascii (list_ascii_of_string s))
              | NilAddress => Err "unable to generate payment script for nil address"
              end)
    (fun s _ => if String.eqb s "" then Err "decoded address is of unknown format" else Ok (Addr s))
    (fun k => if ekIsPrivate k then Ok (ekKey k)
              else Err "unable to create private keys from a public extended key")
    (fun k => Ok (x02 :: ekKey k))
    (fun pk => pk)
    (fun _ _ prev priv _ _ => Ok (priv ++ prev))
    (fun _ _ _ _ priv => Ok (x30 :: priv))
    (fun tx => concat (flat_map Witness (TxIns tx)))
    (fun _ => repeat x00 32)
    (fun items => Ok (flat_map itemBytes items))
    (fun _ => repeat x00 32)
    (fun prog _ => Ok (Addr (hex_EncodeToString prog)))
    (fun _ locktime => locktime)
    (fun _ _ _ => Ok demoTx).

(** A daemon that answers [estimatefee] with [feePerKb] and holds one
    unspent output of [amount] coins. *)
Definition demoRPC (feePerKb : string) (amount : PrimFloat.float) : RPCClient :=
  mkRPCClient
    (fun method _ => if String.eqb method "estimatefee" then Ok feePerKb else Err "unknown method")
    (Ok [mkListUnspentResult (Hash_String (repeat xab 32)) 0 "PExampleAddress" "76a9" amount 0 true])
    (fun _ _ => Ok (mkGetTransactionResult 0))
    (fun _ => Ok [x11; x22; x33])
    (fun tx _ => Ok (repeat x00 32))
    (fun _ => Ok (Addr "PInternalAddress")).

Definition half_coin : PrimFloat.float :=
  Eval cbv in PrimFloat.div (float64_of_int 1) (float64_of_int 2).

Definition demoWallet : BitcoindWallet := mkWallet demoParams (demoRPC "50000" half_coin).

(** *** The fee oracle *)



(** Scenario S2 of the design document. *)
Example GetFeePerByte_normal :
  GetFeePerByte (mkWallet demoParams (demoRPC "50000" half_coin)) NORMAL = 50
  /\ GetFeePerByte (mkWallet demoParams (demoRPC "-1" half_coin)) NORMAL = 50
  /\ GetFeePerByte (mkWallet demoParams (demoRPC "123456" half_coin)) NORMAL = 123.
Proof. repeat split. Qed.

(** *** Hex and hashes *)

Lemma hex_pair_roundtrip (x : byte) (rest : string) :
  hex_DecodeString
    (String (hex_digit (Byte.to_N x / 16)) (String (hex_digit (Byte.to_N x mod 16)) rest))
  = match hex_DecodeString rest with
    | Ok tl => Ok (x :: tl)
    | Err e => Err e
    end.
Proof. destruct x; reflexivity. Qed.

Lemma hex_roundtrip (b : bytes) : hex_DecodeString (hex_EncodeToString b) = Ok b.
Proof.
  induction b as [|x b IH]; [reflexivity|].
  cbn [hex_EncodeToString]. rewrite hex_pair_roundtrip. now rewrite IH.
Qed.

Lemma hex_length (b : bytes) : String.length (hex_EncodeToString b) = (2 * length b)%nat.
Proof. induction b as [|x b IH]; [reflexivity|]. cbn [hex_EncodeToString String.length length]. lia. Qed.

(** A hash of at most 32 bytes always parses. *)
Lemma NewHashFromStr_hex (h : bytes) :
  (length h <= 32)%nat ->
  NewHashFromStr (hex_EncodeToString h) = Ok (rev (repeat x00 (HashSize - length h) ++ h)).
Proof.
  intros Hl. unfold NewHashFromStr. rewrite hex_length.
  assert (Hlt : (MaxHashStringSize <? 2 * length h)%nat = false).
  { apply Nat.ltb_ge. unfold MaxHashStringSize. lia. }
  rewrite Hlt. rewrite Nat.even_mul. cbn [Nat.even orb]. now rewrite hex_roundtrip.
Qed.

(** And a longer one never does. *)
Lemma NewHashFromStr_long (h : bytes) :
  (32 < length h)%nat -> NewHashFromStr (hex_EncodeToString h) = Err ErrHashStrSize.
Proof.
  intros Hl. unfold NewHashFromStr. rewrite hex_length.
  assert (Hlt : (MaxHashStringSize <? 2 * length h)%nat = true).
  { apply Nat.ltb_lt. unfold MaxHashStringSize. lia. }
  now rewrite Hlt.
Qed.

(** The outpoint hash of an input has at most the 32 bytes of a hash. *)
Definition hashFits (in_ : TransactionInput) : bool :=
  (length (OutpointHash in_) <=? 32)%nat.

Lemma addInputs_length (ins : list TransactionInput) (acc txIn : list TxIn) :
  addInputs ins acc = Ret txIn -> length txIn = (length acc + length ins)%nat.
Proof.
  revert acc. induction ins as [|in_ ins IH]; intros acc H; cbn in H.
  - injection H as <-. cbn. lia.
  - unfold newInput in H. destruct (NewHashFromStr _) as [ch|e]; cbn in H; [|discriminate].
    apply IH in H. rewrite length_app in H. cbn in *. lia.
Qed.

Lemma addInputs_fits (ins : list TransactionInput) (acc : list TxIn) :
  forallb hashFits ins = true -> exists txIn, addInputs ins acc = Ret txIn.
Proof.
  revert acc. induction ins as [|in_ ins IH]; intros acc H; cbn.
  - eauto.
  - cbn in H. apply andb_true_iff in H as [Hin Hrest].
    apply Nat.leb_le in Hin.
    unfold newInput. rewrite NewHashFromStr_hex by exact Hin. cbn. now apply IH.
Qed.

Lemma addInputs_too_long (ins : list TransactionInput) (acc : list TxIn) :
  forallb hashFits ins = false -> addInputs ins acc = Fail ErrHashStrSize.
Proof.
  revert acc. induction ins as [|in_ ins IH]; intros acc H; cbn in H; [discriminate|].
  cbn [addInputs]. unfold newInput.
  destruct (hashFits in_) eqn:Hin.
  - apply Nat.leb_le in Hin. rewrite NewHashFromStr_hex by exact Hin. cbn. now apply IH.
  - apply Nat.leb_gt in Hin. now rewrite NewHashFromStr_long by exact Hin.
Qed.

Lemma sort_by_length {A} (less : A -> A -> bool) (l : list A) :
  length (sort_by less l) = length l.
Proof.
  assert (Hins : forall x s, length (insert_sorted less x s) = S (length s)).
  { intros x s. induction s as [|y s IH]; [reflexivity|].
    cbn. destruct (less x y); cbn; [reflexivity | now rewrite IH]. }
  unfold sort_by. induction l as [|x l IH]; [reflexivity|].
  cbn [fold_right length]. now rewrite Hins, IH.
Qed.

(** *** Multisign *)

Definition beginsWithOP_IF (redeemScript : bytes) : bool :=
  match redeemScript with
  | b :: _ => Byte.eqb b OP_IF
  | [] => false
  end.

(** What the inner loop finds: the signature of the first entry with the
    index looked for. *)
Lemma sigFor_first_match (pre post : list Signature) (sg : Signature) (i : Z) :
  Forall (fun s => InputIndex s <> i) pre ->
  InputIndex sg = i ->
  sigFor (pre ++ sg :: post) i = SigBytes sg.
Proof.
  intros Hpre Hsg. induction Hpre as [|s pre Hs _ IH]; cbn.
  - now rewrite Hsg, Z.eqb_refl.
  - apply Z.eqb_neq in Hs. now rewrite Hs.
Qed.



(** What [Multisign] returns is the encoding of the transaction it
    assembled. *)
Lemma Multisign_returns_inv (lib : Lib) (w : BitcoindWallet) (ins : list TransactionInput)
  (outs : list TransactionOutput) (sigs1 sigs2 : list Signature) (redeemScript : bytes)
  (feePerByte : Z) (broadcast : bool) (raw : bytes) :
  Multisign lib w ins outs sigs1 sigs2 redeemScript feePerByte broadcast = Ret raw ->
  exists tx, Multisign_tx lib ins outs sigs1 sigs2 redeemScript feePerByte = Ret tx
             /\ raw = BtcEncode lib tx.
Proof.
  unfold Multisign. intros H.
  destruct (Multisign_tx lib ins outs sigs1 sigs2 redeemScript feePerByte) as [tx| |];
    try discriminate H.
  exists tx. split; [reflexivity|].
  change (Ret tx ≫= ?k) with (k tx) in H. cbv beta in H.
  destruct broadcast.
  - destruct (SendRawTransaction _ _ _); [|discriminate H]. now injection H.
  - now injection H.
Qed.


(** Two inputs, one output, and the signatures of two parties, the second
    set out of order. *)
Definition demoIns : list TransactionInput :=
  [mkTransactionInput (repeat xcd 32) 1 60000; mkTransactionInput (repeat xab 32) 0 40000].

Definition demoOuts : list TransactionOutput := [mkTransactionOutput [x00; x20] 100000].

Definition demoSigs1 : list Signature := [mkSignature 0 [x30; x01]; mkSignature 1 [x30; x02]].
Definition demoSigs2 : list Signature := [mkSignature 1 [x30; x04]; mkSignature 0 [x30; x03]].

Definition plainScript : bytes := [x52; x21; x02; x53; xae].
Definition timedScript : bytes := [x63; x52; x21; x02; x53; xae; x67; xb2; x75; xac; x68].


Definition witnessesOf (r : outcome MsgTx) : outcome (list (list bytes)) :=
  tx ← r; mret (map Witness (TxIns tx)).

(** The stacks themselves, without and with the time lock. *)
Example Multisign_stacks :
  witnessesOf (Multisign_tx demoLib demoIns demoOuts demoSigs1 demoSigs2 plainScript 1)
  = Ret [[[]; [x30; x01]; [x30; x03]; plainScript];
         [[]; [x30; x02]; [x30; x04]; plainScript]]
  /\ witnessesOf (Multisign_tx demoLib demoIns demoOuts demoSigs1 demoSigs2 timedScript 1)
  = Ret [[[]; [x30; x01]; [x30; x03]; [x01]; timedScript];
         [[]; [x30; x02]; [x30; x04]; [x01]; timedScript]].
Proof. split; vm_compute; reflexivity. Qed.

(** *** The empty redeem script *)



Definition demoKey : ExtendedKey :=
  mkExtendedKey [x04; x88; xad; xe4] [x11; x22; x33] (repeat x00 32) (repeat x00 4) 0 0 true.

Definition demoUtxos : list Utxo := [mkUtxo demoOutPoint 40000 [x00; x20]].

(** Well-formed inputs and a private key: both operations panic. *)
Example empty_redeem_script_demo :
  Multisign demoLib demoWallet demoIns demoOuts demoSigs1 demoSigs2 [] 1 true
  = Panic index_out_of_range
  /\ SweepAddress demoLib demoWallet demoUtxos None demoKey (Some []) NORMAL
     = Panic index_out_of_range.
Proof. split; reflexivity. Qed.


(** *** GenerateMultisigScript *)

Definition ErrTimeoutKey : error := "Timeout key must be non nil when using an escrow timeout".

(** C2 (as amended): for every key list and threshold, and every timeout
    whose whole hours [uint32(timeout.Hours())] are above zero,
    [GenerateMultisigScript] with a nil timeout key returns the
    missing-timeout-key error, and with it no address and no script. *)
Theorem GenerateMultisigScript_needs_timeout_key (lib : Lib) (w : BitcoindWallet)
  (keys : list ExtendedKey) (threshold timeout : Z) :
  0 < timeoutHours timeout ->
  GenerateMultisigScript lib w keys threshold timeout None = Fail ErrTimeoutKey.
Proof.
  intros H. unfold GenerateMultisigScript.
  apply Z.ltb_lt in H. now rewrite H.
Qed.

Definition demoKeys : list ExtendedKey :=
  [mkExtendedKey [x04; x88; xb2; x1e] [xa1] (repeat x00 32) (repeat x00 4) 0 0 false;
   mkExtendedKey [x04; x88; xb2; x1e] [xa2] (repeat x00 32) (repeat x00 4) 0 0 false;
   mkExtendedKey [x04; x88; xb2; x1e] [xa3] (repeat x00 32) (repeat x00 4) 0 0 false].

(** A timeout of 24 hours. *)
Lemma GenerateMultisigScript_needs_timeout_key_witness :
  GenerateMultisigScript demoLib demoWallet demoKeys 2 (24 * Hour) None = Fail ErrTimeoutKey.
Proof.
  apply (GenerateMultisigScript_needs_timeout_key demoLib demoWallet demoKeys 2 (24 * Hour)).
  vm_compute. reflexivity.
Defined.

(** A timeout of no whole hour is no timeout: the script and the address
    are those of a timeout of zero, and no timeout key is asked for. *)
Lemma GenerateMultisigScript_short_timeout (lib : Lib) (w : BitcoindWallet)
  (keys : list ExtendedKey) (threshold timeout : Z) (timeoutKey : option ExtendedKey) :
  timeoutHours timeout = 0 ->
  GenerateMultisigScript lib w keys threshold timeout timeoutKey
  = GenerateMultisigScript lib w keys threshold 0 None.
Proof.
  intros H. unfold GenerateMultisigScript. rewrite H.
  change (timeoutHours 0) with 0. reflexivity.
Qed.

(** Where the whole hours begin. *)
Example timeoutHours_around_one_hour :
  timeoutHours 0 = 0 /\ timeoutHours 1 = 0 /\ timeoutHours (Hour - 1) = 0
  /\ timeoutHours Hour = 1 /\ timeoutHours (24 * Hour) = 24.
Proof. repeat split. Qed.

(** C2 as stated fails: thirty minutes are a timeout above zero, and with a
    nil timeout key the call returns an address and the plain 2-of-3
    script. *)
Lemma half_hour_timeout_needs_no_key :
  0 < Hour / 2
  /\ timeoutHours (Hour / 2) = 0
  /\ (forall lib w keys threshold,
        GenerateMultisigScript lib w keys threshold (Hour / 2) None
        = GenerateMultisigScript lib w keys threshold 0 None)
  /\ exists addr redeemScript,
       GenerateMultisigScript demoLib demoWallet demoKeys 2 (Hour / 2) None
       = Ret (addr, redeemScript)
       /\ redeemScript = [x52; x02; x02; xa1; x02; x02; xa2; x02; x02; xa3; x53; xae].
Proof.
  split; [reflexivity|]. split; [reflexivity|].
  split; [intros; now apply GenerateMultisigScript_short_timeout|].
  eexists _, _. split; vm_compute; reflexivity.
Qed.

(** *** Amounts of the daemon, in coins, as units *)

Lemma inputValue_first_match (input : TxIn) (before after : list ListUnspentResult)
  (utxo : ListUnspentResult) :
  Forall (fun x => spends input x = false) before ->
  spends input utxo = true ->
  inputValue input (before ++ utxo :: after)
  = int64_of_float (PrimFloat.mul (luAmount utxo) f100000000).
Proof.
  intros Hb Hu. induction Hb as [|x before Hx _ IH]; cbn [app inputValue].
  - now rewrite Hu.
  - now rewrite Hx.
Qed.

Lemma inputValue_no_match (input : TxIn) (utxos : list ListUnspentResult) :
  Forall (fun x => spends input x = false) utxos -> inputValue input utxos = 0.
Proof.
  intros H. induction H as [|x utxos Hx _ IH]; [reflexivity|].
  cbn [inputValue]. now rewrite Hx.
Qed.

(** C6 (as amended): [EstimateSpendFee] values every input at
    [int64(utxo.Amount * 100000000)] for the first unspent output of the
    daemon with the input's transaction id and index; the fee is the sum of
    these less the outputs. The quotient [int64(u.Amount / 100000000)] is
    computed by [BumpFee], as the value of the output it hands to
    [SweepAddress]. *)
Theorem amounts_to_units (lib : Lib) (w : BitcoindWallet) (amount : Z) (feeLevel : FeeLevel)
  (addr : Address) (tx : MsgTx) (utxos : list ListUnspentResult)
  (txid : Hash) (gt : GetTransactionResult) (u : ListUnspentResult)
  (rest : list ListUnspentResult) (h : Hash) (script : bytes) (a : Address) (key : PrivateKey) :
  DecodeAddress lib dummyAddress (MainNetParams lib) = Ok addr ->
  buildTx lib amount addr feeLevel = Ok tx ->
  ListUnspent (rpcClient w) = Ok utxos ->
  GetTransaction (rpcClient w) txid false = Ok gt ->
  gtConfirmations gt <= 0 ->
  utxos = u :: rest ->
  luTxID u = Hash_String txid ->
  luConfirmations u <= 0 ->
  NewHashFromStr (luTxID u) = Ok h ->
  hex_DecodeString (luScriptPubKey u) = Ok script ->
  DecodeAddress lib (luAddress u) (params w) = Ok a ->
  DumpPrivKey (rpcClient w) a = Ok key ->
  (let outval := fold_left (fun acc output => int64 (acc + TxOutValue output)) (TxOuts tx) 0 in
   let inval := fold_left (fun acc input => int64 (acc + inputValue input utxos)) (TxIns tx) 0 in
   EstimateSpendFee lib w amount feeLevel
   = if inval <? outval then Fail "Error building transaction: inputs less than outputs"
     else Ret (uint64 (inval - outval)))
  /\ (forall (input : TxIn) (before after : list ListUnspentResult) (utxo : ListUnspentResult),
        Forall (fun x => spends input x = false) before ->
        spends input utxo = true ->
        inputValue input (before ++ utxo :: after)
        = int64_of_float (PrimFloat.mul (luAmount utxo) f100000000))
  /\ BumpFee lib w txid
     = SweepAddress lib w
         [mkUtxo (NewOutPoint h (luVout u))
                 (int64_of_float (PrimFloat.div (luAmount u) f100000000)) script]
         None
         (mkExtendedKey (HDPrivateKeyID (params w)) key (repeat x00 32) (repeat x00 4) 0 0 true)
         None FEE_BUMP.
Proof.
  intros Haddr Htx Hlist Hget Hconf -> Hid Hconf' Hh Hscript Ha Hkey.
  split; [|split].
  - unfold EstimateSpendFee. rewrite Haddr.
    change (call (Ok addr) ≫= ?k) with (k addr). cbv beta.
    rewrite Htx. change (call (Ok tx) ≫= ?k) with (k tx). cbv beta.
    rewrite Hlist. reflexivity.
  - intros input before after utxo Hb Hu. now apply inputValue_first_match.
  - unfold BumpFee. rewrite Hget.
    change (call (Ok gt) ≫= ?k) with (k gt). cbv beta.
    assert (Hc : (0 <? gtConfirmations gt) = false) by (apply Z.ltb_ge; exact Hconf).
    rewrite Hc, Hlist.
    change (call (Ok (u :: rest)) ≫= ?k) with (k (u :: rest)). cbv beta.
    cbn [bumpLoop]. rewrite Hid at 1. rewrite String.eqb_refl.
    assert (Hc' : (0 <? luConfirmations u) = false) by (apply Z.ltb_ge; exact Hconf').
    rewrite Hc', Hh, Hscript, Ha, Hkey. reflexivity.
Qed.

Definition demoTxid : Hash := repeat xab 32.

Definition demoUnspent : ListUnspentResult :=
  mkListUnspentResult (Hash_String demoTxid) 0 "PExampleAddress" "76a9" half_coin 0 true.

Lemma amounts_to_units_witness :
  (let outval := fold_left (fun acc output => int64 (acc + TxOutValue output)) (TxOuts demoTx) 0 in
   let inval := fold_left (fun acc input => int64 (acc + inputValue input [demoUnspent]))
                  (TxIns demoTx) 0 in
   EstimateSpendFee demoLib demoWallet 49990000 NORMAL
   = if inval <? outval then Fail "Error building transaction: inputs less than outputs"
     else Ret (uint64 (inval - outval)))
  /\ (forall (input : TxIn) (before after : list ListUnspentResult) (utxo : ListUnspentResult),
        Forall (fun x => spends input x = false) before ->
        spends input utxo = true ->
        inputValue input (before ++ utxo :: after)
        = int64_of_float (PrimFloat.mul (luAmount utxo) f100000000))
  /\ BumpFee demoLib demoWallet demoTxid
     = SweepAddress demoLib demoWallet
         [mkUtxo (NewOutPoint demoTxid (luVout demoUnspent))
                 (int64_of_float (PrimFloat.div (luAmount demoUnspent) f100000000)) [x76; xa9]]
         None
         (mkExtendedKey (HDPrivateKeyID (params demoWallet)) [x11; x22; x33]
            (repeat x00 32) (repeat x00 4) 0 0 true)
         None FEE_BUMP.
Proof.
  apply (amounts_to_units demoLib demoWallet 49990000 NORMAL (Addr dummyAddress) demoTx
           [demoUnspent] demoTxid (mkGetTransactionResult 0) demoUnspent [] demoTxid
           [x76; xa9] (Addr "PExampleAddress") [x11; x22; x33]);
    try reflexivity; vm_compute; discriminate.
Defined.

(** C6 as stated fails: for the input of half a coin [EstimateSpendFee]
    counts 50,000,000 units (with outputs of 49,990,000 the estimate is
    10,000), where the quotient by 100000000 is 0. *)
Lemma EstimateSpendFee_multiplies :
  EstimateSpendFee demoLib demoWallet 49990000 NORMAL = Ret 10000
  /\ (forall input, In input (TxIns demoTx) -> inputValue input [demoUnspent] = 50000000)
  /\ int64_of_float (PrimFloat.div (luAmount demoUnspent) f100000000) = 0.
Proof.
  split; [vm_compute; reflexivity|]. split; [|vm_compute; reflexivity].
  intros input [<-|[]]. vm_compute. reflexivity.
Qed.

(** What the quotient costs [BumpFee]: the output of half a coin is swept
    as an output worth nothing. *)
Example BumpFee_sweeps_nothing :
  UtxoValue (bumpUtxo demoUnspent demoTxid [x76; xa9]) = 0
  /\ BumpFee demoLib demoWallet demoTxid = Ret (repeat x00 32).
Proof. split; vm_compute; reflexivity. Qed.

End WalletFacts.

(* ================================================================== *)
(** ** Migration005: further properties *)
(* ================================================================== *)

Module MigrationExtras.
Import Migrations MigrationFacts.

(** Unfold one step of a migration on the fault of its path. *)
Ltac migration_step :=
  cbn [fst snd files fault set_files fpath fpos File_Close] in *;
  try match goal with
      | H : fault ?fs ?p = _ |- context [fault ?fs ?p] => rewrite H
      end;
  try rewrite lookup_insert_eq;
  try (rewrite lookup_insert_ne by congruence).

(** What [Up] leaves on a disk where both paths can be written. *)
Lemma Up_healthy (repoPath dbPassword : string) (testnet : bool) (fs : FS) :
  fault fs (path_Join repoPath "repover") = Healthy ->
  fault fs (path_Join repoPath "swarm.key") = Healthy ->
  Up repoPath dbPassword testnet fs
  = (set_files fs (<[path_Join repoPath "repover" := "6"%string]>
                     (<[path_Join repoPath "swarm.key" := swarmKeyData]>
                        (<[path_Join repoPath "repover" := EmptyString]> (files fs)))),
     None).
Proof.
  intros Hr Hk. pose proof (repover_not_swarm_key repoPath) as Hne.
  unfold Up. rewrite os_Create_ok by congruence.
  rewrite ioutil_WriteFile_ok by exact Hk.
  cbn [files fault set_files].
  rewrite File_Write_fresh; cbn [files fault set_files]; [reflexivity | congruence |].
  rewrite lookup_insert_ne by congruence. apply lookup_insert_eq.
Qed.

(** What [Down] leaves when [swarm.key] is there and [repover] can be
    written. *)
Lemma Down_healthy (repoPath dbPassword : string) (testnet : bool) (fs : FS) (key : string) :
  fault fs (path_Join repoPath "repover") = Healthy ->
  files fs !! path_Join repoPath "swarm.key" = Some key ->
  Down repoPath dbPassword testnet fs
  = (set_files fs (<[path_Join repoPath "repover" := "5"%string]>
                     (delete (path_Join repoPath "swarm.key")
                        (<[path_Join repoPath "repover" := EmptyString]> (files fs)))),
     None).
Proof.
  intros Hr Hk. pose proof (repover_not_swarm_key repoPath) as Hne.
  unfold Down. rewrite os_Create_ok by congruence.
  unfold os_Remove. cbn [files fault set_files].
  rewrite lookup_insert_ne by congruence. rewrite Hk.
  rewrite File_Write_fresh; cbn [files fault set_files]; [reflexivity | congruence |].
  rewrite lookup_delete_ne by congruence. apply lookup_insert_eq.
Qed.

(** X1: Migrating a repository at version 5 up and down again gives back the
    same files, byte for byte. *)
Theorem Up_Down_round_trip (repoPath dbPassword : string) (testnet : bool) (fs : FS) :
  fault fs (path_Join repoPath "repover") = Healthy ->
  fault fs (path_Join repoPath "swarm.key") = Healthy ->
  files fs !! path_Join repoPath "repover" = Some "5"%string ->
  files fs !! path_Join repoPath "swarm.key" = None ->
  snd (Up repoPath dbPassword testnet fs) = None
  /\ snd (Down repoPath dbPassword testnet (fst (Up repoPath dbPassword testnet fs))) = None
  /\ files (fst (Down repoPath dbPassword testnet (fst (Up repoPath dbPassword testnet fs))))
     = files fs.
Proof.
  intros Hr Hk Hver Hnone. pose proof (repover_not_swarm_key repoPath) as Hne.
  rewrite Up_healthy by assumption. cbn [fst snd].
  erewrite Down_healthy; cbn [files fault set_files fst snd].
  - repeat split. apply map_eq. intros p.
    destruct (decide (p = path_Join repoPath "repover")) as [->|Hp].
    + now rewrite lookup_insert_eq, Hver.
    + rewrite lookup_insert_ne by congruence.
      destruct (decide (p = path_Join repoPath "swarm.key")) as [->|Hp'].
      * now rewrite lookup_delete_eq, Hnone.
      * rewrite lookup_delete_ne by congruence.
        now rewrite !lookup_insert_ne by congruence.
  - exact Hr.
  - rewrite lookup_insert_ne by congruence. apply lookup_insert_eq.
Qed.

(** A repository at version 5, with a file of its own beside. *)
Definition repoAt5 : FS :=
  mkFS {[ "repover"%string := "5"%string; "config"%string := "{}"%string ]}
       (fun _ => Healthy).

Lemma Up_Down_round_trip_witness :
  snd (Up "./" "letmein" false repoAt5) = None
  /\ snd (Down "./" "letmein" false (fst (Up "./" "letmein" false repoAt5))) = None
  /\ files (fst (Down "./" "letmein" false (fst (Up "./" "letmein" false repoAt5))))
     = files repoAt5.
Proof. apply (Up_Down_round_trip "./" "letmein" false repoAt5); reflexivity. Defined.

(** X2: [Up] on a repository it has migrated already changes nothing. *)
Theorem Up_idempotent (repoPath dbPassword : string) (testnet : bool) (fs : FS) :
  fault fs (path_Join repoPath "repover") = Healthy ->
  fault fs (path_Join repoPath "swarm.key") = Healthy ->
  Up repoPath dbPassword testnet (fst (Up repoPath dbPassword testnet fs))
  = (fst (Up repoPath dbPassword testnet fs), None)
  /\ files (fst (Up repoPath dbPassword testnet (fst (Up repoPath dbPassword testnet fs))))
     = files (fst (Up repoPath dbPassword testnet fs)).
Proof.
  intros Hr Hk. pose proof (repover_not_swarm_key repoPath) as Hne.
  rewrite (Up_healthy repoPath dbPassword testnet fs) by assumption. cbn [fst].
  rewrite Up_healthy by assumption. cbn [files fault set_files fst].
  assert (Hm : <[path_Join repoPath "repover" := "6"%string]>
                 (<[path_Join repoPath "swarm.key" := swarmKeyData]>
                    (<[path_Join repoPath "repover" := EmptyString]>
                       (<[path_Join repoPath "repover" := "6"%string]>
                          (<[path_Join repoPath "swarm.key" := swarmKeyData]>
                             (<[path_Join repoPath "repover" := EmptyString]> (files fs))))))
               = <[path_Join repoPath "repover" := "6"%string]>
                   (<[path_Join repoPath "swarm.key" := swarmKeyData]>
                      (<[path_Join repoPath "repover" := EmptyString]> (files fs)))).
  { apply map_eq. intros p. rewrite !lookup_insert.
    repeat case_decide; congruence. }
  unfold set_files. cbn [files fault]. rewrite Hm. split; reflexivity.
Qed.

Lemma Up_idempotent_witness :
  Up "./" "letmein" false (fst (Up "./" "letmein" false repoAt5))
  = (fst (Up "./" "letmein" false repoAt5), None)
  /\ files (fst (Up "./" "letmein" false (fst (Up "./" "letmein" false repoAt5))))
     = files (fst (Up "./" "letmein" false repoAt5)).
Proof. apply (Up_idempotent "./" "letmein" false repoAt5); reflexivity. Defined.

(** X3: [Up] returns nil exactly when both of its paths can be opened and
    written. *)
Theorem Up_succeeds_iff (repoPath dbPassword : string) (testnet : bool) (fs : FS) :
  snd (Up repoPath dbPassword testnet fs) = None
  <-> fault fs (path_Join repoPath "repover") = Healthy
      /\ fault fs (path_Join repoPath "swarm.key") = Healthy.
Proof.
  pose proof (repover_not_swarm_key repoPath) as Hne.
  split.
  - unfold Up, ioutil_WriteFile, os_Create, File_Write.
    destruct (fault fs (path_Join repoPath "repover")) eqn:Hr;
      destruct (fault fs (path_Join repoPath "swarm.key")) eqn:Hk;
      repeat migration_step; try discriminate; auto.
  - intros [Hr Hk]. now rewrite Up_healthy.
Qed.

(** Each call of the operating system touches the one path it is given. *)
Lemma os_Create_frame (p q : string) (fs : FS) :
  q <> p -> files (fst (os_Create p fs)) !! q = files fs !! q.
Proof.
  intros H. unfold os_Create. destruct (fault fs p); cbn [fst files set_files];
    now rewrite ?lookup_insert_ne by congruence.
Qed.

Lemma os_Create_path (p : string) (fs fs1 : FS) (f : File) :
  os_Create p fs = (fs1, inl f) -> fpath f = p.
Proof. unfold os_Create. destruct (fault fs p); intros H; now inversion H. Qed.

Lemma File_Write_frame (f : File) (data q : string) (fs : FS) :
  q <> fpath f -> files (fst (File_Write f data fs)) !! q = files fs !! q.
Proof.
  intros H. unfold File_Write.
  destruct (fault fs (fpath f)); destruct (files fs !! fpath f);
    cbn [fst files set_files]; now rewrite ?lookup_insert_ne by congruence.
Qed.

Lemma ioutil_WriteFile_frame (p data q : string) (fs : FS) :
  q <> p -> files (fst (ioutil_WriteFile p data fs)) !! q = files fs !! q.
Proof.
  intros H. unfold ioutil_WriteFile.
  destruct (os_Create p fs) as [fs1 [f|e]] eqn:Hc.
  - pose proof (os_Create_path _ _ _ _ Hc) as Hf.
    pose proof (os_Create_frame p q fs H) as H1. rewrite Hc in H1. cbn [fst] in H1.
    pose proof (File_Write_frame f data q fs1) as H2.
    destruct (File_Write f data fs1) as [fs2 [e|]]; cbn [fst] in *; unfold File_Close;
      rewrite H2 by congruence; exact H1.
  - pose proof (os_Create_frame p q fs H) as H1. now rewrite Hc in H1.
Qed.

Lemma os_Remove_frame (p q : string) (fs : FS) :
  q <> p -> files (fst (os_Remove p fs)) !! q = files fs !! q.
Proof.
  intros H. unfold os_Remove. destruct (files fs !! p); cbn [fst files set_files];
    now rewrite ?lookup_delete_ne by congruence.
Qed.

(** X4: Whatever happens, [Up] and [Down] touch no path but their two. *)
Theorem migration_touches_two_paths (repoPath dbPassword : string) (testnet : bool)
  (fs : FS) (p : string) :
  p <> path_Join repoPath "repover" ->
  p <> path_Join repoPath "swarm.key" ->
  files (fst (Up repoPath dbPassword testnet fs)) !! p = files fs !! p
  /\ files (fst (Down repoPath dbPassword testnet fs)) !! p = files fs !! p.
Proof.
  intros Hp Hp'. split.
  - unfold Up.
    pose proof (os_Create_frame (path_Join repoPath "repover") p fs Hp) as H1.
    destruct (os_Create (path_Join repoPath "repover") fs) as [fs1 [f1|e]] eqn:Hc;
      cbn [fst] in H1; [|exact H1].
    pose proof (os_Create_path _ _ _ _ Hc) as Hf.
    pose proof (ioutil_WriteFile_frame (path_Join repoPath "swarm.key") swarmKeyData p fs1 Hp')
      as H2.
    destruct (ioutil_WriteFile _ swarmKeyData fs1) as [fs2 [e|]]; cbn [fst] in *;
      [congruence|].
    pose proof (File_Write_frame f1 "6" p fs2) as H3.
    destruct (File_Write f1 "6" fs2) as [fs3 [e|]]; cbn [fst] in *; unfold File_Close;
      rewrite H3 by congruence; congruence.
  - unfold Down.
    pose proof (os_Create_frame (path_Join repoPath "repover") p fs Hp) as H1.
    destruct (os_Create (path_Join repoPath "repover") fs) as [fs1 [f1|e]] eqn:Hc;
      cbn [fst] in H1; [|exact H1].
    pose proof (os_Create_path _ _ _ _ Hc) as Hf.
    pose proof (os_Remove_frame (path_Join repoPath "swarm.key") p fs1 Hp') as H2.
    destruct (os_Remove _ fs1) as [fs2 [e|]]; cbn [fst] in *; [congruence|].
    pose proof (File_Write_frame f1 "5" p fs2) as H3.
    destruct (File_Write f1 "5" fs2) as [fs3 [e|]]; cbn [fst] in *; unfold File_Close;
      rewrite H3 by congruence; congruence.
Qed.

Lemma migration_touches_two_paths_witness :
  files (fst (Up "./" "letmein" false repoAt5)) !! "config"%string
  = files repoAt5 !! "config"%string
  /\ files (fst (Down "./" "letmein" false repoAt5)) !! "config"%string
     = files repoAt5 !! "config"%string.
Proof.
  apply (migration_touches_two_paths "./" "letmein" false repoAt5 "config"); discriminate.
Defined.

(** X5: [Down] on a repository without [swarm.key] returns the error of the
    removal, and [repover] is left empty. *)
Theorem Down_without_swarm_key (repoPath dbPassword : string) (testnet : bool) (fs : FS) :
  fault fs (path_Join repoPath "repover") <> OpenFails ->
  files fs !! path_Join repoPath "swarm.key" = None ->
  exists fs' err,
    Down repoPath dbPassword testnet fs = (fs', Some err)
    /\ ioutil_ReadFile (path_Join repoPath "repover") fs' = Some EmptyString
    /\ ioutil_ReadFile (path_Join repoPath "swarm.key") fs' = None.
Proof.
  intros Hr Hk. pose proof (repover_not_swarm_key repoPath) as Hne.
  unfold Down. rewrite os_Create_ok by exact Hr.
  unfold os_Remove. cbn [files fault set_files].
  rewrite lookup_insert_ne by congruence. rewrite Hk.
  eexists _, _. split; [reflexivity|]. unfold ioutil_ReadFile. cbn [files set_files].
  split; [apply lookup_insert_eq|]. now rewrite lookup_insert_ne by congruence.
Qed.

Lemma Down_without_swarm_key_witness :
  exists fs' err,
    Down "./" "letmein" false repoAt5 = (fs', Some err)
    /\ ioutil_ReadFile (path_Join "./" "repover") fs' = Some EmptyString
    /\ ioutil_ReadFile (path_Join "./" "swarm.key") fs' = None.
Proof.
  apply (Down_without_swarm_key "./" "letmein" false repoAt5); [discriminate | reflexivity].
Defined.

End MigrationExtras.

(* ================================================================== *)
(** ** The exchange-rate fetcher: properties *)
(* ================================================================== *)

Module FetcherFacts.
Import Exchange ExchangeFacts Fetcher.

Section WithNetwork.

Variable ParseFloat : string -> option PrimFloat.float.
Variable httpGet : string -> result string.
Variable jsonDecode : string -> result JSON.

(** [decode] writes no key but "PHR". *)
Lemma decode_frame (dat : JSON) (m : gmap string PrimFloat.float) (code : string) :
  code <> "PHR"%string -> snd (decode ParseFloat dat m) !! code = m !! code.
Proof.
  intros Hc. unfold decode.
  destruct dat as [| | | |[|[| | | | |o] rest]|]; try reflexivity.
  destruct (o !! "price_usd"%string) as [[| | |s| |]|]; try reflexivity.
  destruct (ParseFloat s); [|reflexivity]. cbn [snd]. now rewrite lookup_insert_ne.
Qed.

Lemma decodeInto_frame (d : ExchangeRateDecoder) (dat : JSON) (ref ref' : nat)
  (store : gmap nat (gmap string PrimFloat.float)) (code : string) :
  code <> "PHR"%string ->
  mapAt (snd (decodeInto ParseFloat d dat ref store)) ref' !! code = mapAt store ref' !! code.
Proof.
  intros Hc. unfold decodeInto. destruct d.
  destruct (store !! ref) as [m|] eqn:Hm.
  - pose proof (decode_frame dat m code Hc) as Hd.
    destruct (decode ParseFloat dat m) as [r m']. cbn [snd] in *.
    unfold mapAt. destruct (decide (ref = ref')) as [<-|Hne].
    + rewrite lookup_insert_eq, Hm. exact Hd.
    + now rewrite lookup_insert_ne.
  - destruct (fst (decode ParseFloat dat ∅)); reflexivity.
Qed.

(** A call of [decodeInto] that does not return nil leaves the store as it
    was. *)
Lemma decodeInto_atomic (d : ExchangeRateDecoder) (dat : JSON) (ref : nat)
  (store : gmap nat (gmap string PrimFloat.float)) :
  fst (decodeInto ParseFloat d dat ref store) <> Ret tt ->
  snd (decodeInto ParseFloat d dat ref store) = store.
Proof.
  unfold decodeInto. destruct d. destruct (store !! ref) as [m|] eqn:Hm.
  - pose proof (decode_atomic ParseFloat dat m) as Hd.
    destruct (decode ParseFloat dat m) as [r m']. cbn [fst snd] in *.
    intros Hr. rewrite (Hd Hr). now apply insert_id.
  - destruct (fst (decode ParseFloat dat ∅)); reflexivity.
Qed.

(** The URLs a provider requests: its own, once, unless it has none. *)
Definition requested (p : ExchangeRateProvider) : list string :=
  if (String.length (fetchUrl p) =? 0)%nat then [] else [fetchUrl p].

Lemma fetch_log (p : ExchangeRateProvider) (store : gmap nat (gmap string PrimFloat.float)) :
  snd (fetch ParseFloat httpGet jsonDecode p store) = requested p.
Proof.
  unfold fetch, requested. destruct (String.length (fetchUrl p) =? 0)%nat; [reflexivity|].
  destruct (httpGet (fetchUrl p)); [|reflexivity].
  destruct (jsonDecode a); [|reflexivity].
  now destruct (decodeInto ParseFloat (decoder p) a0 (pcache p) store).
Qed.

Lemma fetch_frame (p : ExchangeRateProvider) (store : gmap nat (gmap string PrimFloat.float))
  (ref : nat) (code : string) :
  code <> "PHR"%string ->
  mapAt (snd (fst (fetch ParseFloat httpGet jsonDecode p store))) ref !! code
  = mapAt store ref !! code.
Proof.
  intros Hc. unfold fetch. destruct (String.length (fetchUrl p) =? 0)%nat; [reflexivity|].
  destruct (httpGet (fetchUrl p)); [|reflexivity].
  destruct (jsonDecode a) as [dat|]; [|reflexivity].
  pose proof (decodeInto_frame (decoder p) dat (pcache p) ref store code Hc) as H.
  now destruct (decodeInto ParseFloat (decoder p) dat (pcache p) store).
Qed.

Lemma fetch_atomic (p : ExchangeRateProvider) (store : gmap nat (gmap string PrimFloat.float)) :
  fst (fst (fetch ParseFloat httpGet jsonDecode p store)) <> Ret tt ->
  snd (fst (fetch ParseFloat httpGet jsonDecode p store)) = store.
Proof.
  unfold fetch. destruct (String.length (fetchUrl p) =? 0)%nat; [reflexivity|].
  destruct (httpGet (fetchUrl p)); [|reflexivity].
  destruct (jsonDecode a) as [dat|]; [|reflexivity].
  pose proof (decodeInto_atomic (decoder p) dat (pcache p) store) as H.
  now destruct (decodeInto ParseFloat (decoder p) dat (pcache p) store).
Qed.

Lemma fetchLoop_frame (ps : list ExchangeRateProvider)
  (store : gmap nat (gmap string PrimFloat.float)) (ref : nat) (code : string) :
  code <> "PHR"%string ->
  mapAt (snd (fst (fetchLoop ParseFloat httpGet jsonDecode ps store))) ref !! code
  = mapAt store ref !! code.
Proof.
  intros Hc. revert store. induction ps as [|p ps IH]; intros store; [reflexivity|].
  cbn [fetchLoop].
  pose proof (fetch_frame p store ref code Hc) as Hf.
  destruct (fetch ParseFloat httpGet jsonDecode p store) as [[[u|e|msg] store'] log];
    cbn [fst snd] in *; try exact Hf.
  specialize (IH store').
  destruct (fetchLoop ParseFloat httpGet jsonDecode ps store') as [[r store''] log'].
  cbn [fst snd] in *. congruence.
Qed.

Lemma fetchLoop_atomic (ps : list ExchangeRateProvider)
  (store : gmap nat (gmap string PrimFloat.float)) :
  fst (fst (fetchLoop ParseFloat httpGet jsonDecode ps store)) <> Ret tt ->
  snd (fst (fetchLoop ParseFloat httpGet jsonDecode ps store)) = store.
Proof.
  revert store. induction ps as [|p ps IH]; intros store; [reflexivity|].
  cbn [fetchLoop].
  pose proof (fetch_atomic p store) as Hf.
  destruct (fetch ParseFloat httpGet jsonDecode p store) as [[[[]|e|msg] store'] log];
    cbn [fst snd] in *.
  - congruence.
  - assert (Hs : store' = store) by (apply Hf; discriminate). subst store'.
    specialize (IH store).
    destruct (fetchLoop ParseFloat httpGet jsonDecode ps store) as [[r store''] log'].
    cbn [fst snd] in *. exact IH.
  - intros _. apply Hf. discriminate.
Qed.

End WithNetwork.

(** A network for the examples: the ticker answers with the sample
    payload, every other host is down. *)
Definition tickerUrl : string := "https://api.coinmarketcap.com/v1/ticker/phore".

Definition demoGet (url : string) : result string :=
  if String.eqb url tickerUrl then Ok "sample"%string else Err "connection refused"%string.

Definition demoJson (body : string) : result JSON :=
  if String.eqb body "sample" then Ok samplePayload else Err "unexpected end of JSON input"%string.

Definition downProvider : ExchangeRateProvider := mkProvider "https://down.example/" 0 CMCDecoder.
Definition tickerProvider : ExchangeRateProvider := mkProvider tickerUrl 0 CMCDecoder.

(** A store whose map 0 tracks "USD". *)
Definition usdStore : gmap nat (gmap string PrimFloat.float) :=
  {[ 0%nat := {[ "USD"%string := price_0_542017 ]} ]}.

(** X6: Whatever the providers answer, a refresh changes the rate of no
    currency but "PHR": for every other code [GetExchangeRate] gives after
    [fetchCurrentRates] what it gave before. *)
Theorem refresh_changes_only_PHR (ParseFloat : string -> option PrimFloat.float)
  (httpGet : string -> result string) (jsonDecode : string -> result JSON)
  (b : BitcoinPriceFetcher) (store : gmap nat (gmap string PrimFloat.float))
  (code : string) :
  code <> "PHR"%string ->
  GetExchangeRate b code
    (snd (fst (fetchCurrentRates ParseFloat httpGet jsonDecode b store)))
  = GetExchangeRate b code store.
Proof.
  intros Hc. unfold GetExchangeRate, fetchCurrentRates.
  now rewrite fetchLoop_frame.
Qed.

Lemma refresh_changes_only_PHR_witness :
  GetExchangeRate (mkFetcher 0 [downProvider; tickerProvider]) "USD"
    (snd (fst (fetchCurrentRates parse_plain_decimal demoGet demoJson
                 (mkFetcher 0 [downProvider; tickerProvider]) usdStore)))
  = GetExchangeRate (mkFetcher 0 [downProvider; tickerProvider]) "USD" usdStore.
Proof.
  apply (refresh_changes_only_PHR parse_plain_decimal demoGet demoJson
           (mkFetcher 0 [downProvider; tickerProvider]) usdStore "USD").
  discriminate.
Defined.

(** X7: When no provider succeeds (an error or a panic), the rates are as
    they were: every map of the store is unchanged. *)
Theorem failed_refresh_keeps_rates (ParseFloat : string -> option PrimFloat.float)
  (httpGet : string -> result string) (jsonDecode : string -> result JSON)
  (b : BitcoinPriceFetcher) (store : gmap nat (gmap string PrimFloat.float)) :
  fst (fst (fetchCurrentRates ParseFloat httpGet jsonDecode b store)) <> Ret tt ->
  snd (fst (fetchCurrentRates ParseFloat httpGet jsonDecode b store)) = store
  /\ GetAllRates b (snd (fst (fetchCurrentRates ParseFloat httpGet jsonDecode b store)))
     = GetAllRates b store.
Proof.
  intros H. unfold fetchCurrentRates in *.
  rewrite (fetchLoop_atomic _ _ _ _ _ H). split; reflexivity.
Qed.

Lemma failed_refresh_keeps_rates_witness :
  snd (fst (fetchCurrentRates parse_plain_decimal demoGet demoJson
              (mkFetcher 0 [downProvider]) usdStore)) = usdStore
  /\ GetAllRates (mkFetcher 0 [downProvider])
       (snd (fst (fetchCurrentRates parse_plain_decimal demoGet demoJson
                    (mkFetcher 0 [downProvider]) usdStore)))
     = GetAllRates (mkFetcher 0 [downProvider]) usdStore.
Proof.
  apply (failed_refresh_keeps_rates parse_plain_decimal demoGet demoJson
           (mkFetcher 0 [downProvider]) usdStore).
  vm_compute. discriminate.
Defined.

(** X8: The providers are asked in order and the first that succeeds ends the
    refresh: the providers after it are never requested, and the store is
    the one the successful provider left. *)
Theorem first_success_wins (ParseFloat : string -> option PrimFloat.float)
  (httpGet : string -> result string) (jsonDecode : string -> result JSON)
  (cacheRef : nat) (before after : list ExchangeRateProvider) (p : ExchangeRateProvider)
  (store store' : gmap nat (gmap string PrimFloat.float)) (log : list string) :
  Forall (fun q => exists e, fst (fst (fetch ParseFloat httpGet jsonDecode q store)) = Fail e)
         before ->
  fetch ParseFloat httpGet jsonDecode p store = (Ret tt, store', log) ->
  fetchCurrentRates ParseFloat httpGet jsonDecode
    (mkFetcher cacheRef (before ++ p :: after)) store
  = (Ret tt, store', flat_map requested before ++ requested p).
Proof.
  intros Hb Hp. unfold fetchCurrentRates. cbn [providers].
  induction Hb as [|q before [e He] _ IH]; cbn [app fetchLoop flat_map].
  - pose proof (fetch_log ParseFloat httpGet jsonDecode p store) as Hl.
    rewrite Hp in *. cbn [snd] in Hl. now rewrite Hl.
  - pose proof (fetch_log ParseFloat httpGet jsonDecode q store) as Hl.
    pose proof (fetch_atomic ParseFloat httpGet jsonDecode q store) as Ha.
    destruct (fetch ParseFloat httpGet jsonDecode q store) as [[r s1] l1].
    cbn [fst snd] in *. subst r l1.
    rewrite Ha by discriminate. rewrite IH. now rewrite app_assoc.
Qed.

Lemma first_success_wins_witness :
  fetchCurrentRates parse_plain_decimal demoGet demoJson
    (mkFetcher 0 ([downProvider] ++ tickerProvider :: [downProvider])) usdStore
  = (Ret tt,
     <[0%nat := <["PHR"%string := price_0_542017]> {[ "USD"%string := price_0_542017 ]}]> usdStore,
     flat_map requested [downProvider] ++ requested tickerProvider).
Proof.
  apply (first_success_wins parse_plain_decimal demoGet demoJson 0 [downProvider]
           [downProvider] tickerProvider usdStore _ [tickerUrl]).
  - repeat constructor. eexists. vm_compute. reflexivity.
  - vm_compute. reflexivity.
Defined.

(** X9: [GetLatestRate] drops the error of the refresh: when every provider
    fails it answers from the rates it had, as [GetExchangeRate] does, and
    reports no failure of its own. *)
Theorem GetLatestRate_serves_stale_rate (ParseFloat : string -> option PrimFloat.float)
  (httpGet : string -> result string) (jsonDecode : string -> result JSON)
  (b : BitcoinPriceFetcher) (store : gmap nat (gmap string PrimFloat.float))
  (code : string) (e : error) :
  fst (fst (fetchCurrentRates ParseFloat httpGet jsonDecode b store)) = Fail e ->
  fst (fst (GetLatestRate ParseFloat httpGet jsonDecode b code store))
  = GetExchangeRate b code store
  /\ snd (fst (GetLatestRate ParseFloat httpGet jsonDecode b code store)) = store.
Proof.
  intros H. unfold GetLatestRate.
  assert (Hs : snd (fst (fetchCurrentRates ParseFloat httpGet jsonDecode b store)) = store).
  { apply fetchLoop_atomic. unfold fetchCurrentRates in H. rewrite H. discriminate. }
  destruct (fetchCurrentRates ParseFloat httpGet jsonDecode b store) as [[r s1] l1].
  cbn [fst snd] in *. subst r s1. split; reflexivity.
Qed.

Lemma GetLatestRate_serves_stale_rate_witness :
  fst (fst (GetLatestRate parse_plain_decimal demoGet demoJson
              (mkFetcher 0 [downProvider]) "USD" usdStore))
  = GetExchangeRate (mkFetcher 0 [downProvider]) "USD" usdStore
  /\ snd (fst (GetLatestRate parse_plain_decimal demoGet demoJson
                 (mkFetcher 0 [downProvider]) "USD" usdStore)) = usdStore.
Proof.
  apply (GetLatestRate_serves_stale_rate parse_plain_decimal demoGet demoJson
           (mkFetcher 0 [downProvider]) usdStore "USD"
           "All exchange rate API queries failed").
  vm_compute. reflexivity.
Defined.

(** X10: A fetcher as [NewBitcoinPriceFetcher] builds it shares its map with its
    provider: when the ticker answers with a price that parses,
    [GetLatestRate] of "PHR" is that price, one request was made, every
    other code is not tracked, and the maps that were in the store before
    are untouched. *)
Theorem GetLatestRate_of_new_fetcher (ParseFloat : string -> option PrimFloat.float)
  (httpGet : string -> result string) (jsonDecode : string -> result JSON)
  (store : gmap nat (gmap string PrimFloat.float))
  (body s : string) (o : gmap string JSON) (rest : list JSON) (v : PrimFloat.float) :
  httpGet "https://api.coinmarketcap.com/v1/ticker/phore" = Ok body ->
  jsonDecode body = Ok (JArray (JObject o :: rest)) ->
  o !! "price_usd"%string = Some (JString s) ->
  ParseFloat s = Some v ->
  let '(b, store1) := NewBitcoinPriceFetcher store in
  let '(r, store2, log) := GetLatestRate ParseFloat httpGet jsonDecode b "PHR" store1 in
  r = Ret v
  /\ log = ["https://api.coinmarketcap.com/v1/ticker/phore"%string]
  /\ GetAllRates b store2 = {[ "PHR"%string := v ]}
  /\ (forall code, code <> "PHR"%string ->
        GetExchangeRate b code store2 = Fail "Currency not tracked")
  /\ (forall ref, is_Some (store !! ref) -> store2 !! ref = store !! ref).
Proof.
  intros Hget Hjson Hprice Hparse.
  unfold NewBitcoinPriceFetcher. cbv beta iota zeta.
  set (ref := fresh (dom store)).
  assert (Hl : (<[ref := ∅]> store : gmap nat (gmap string PrimFloat.float)) !! ref = Some ∅)
    by apply lookup_insert_eq.
  assert (Hfetch :
    fetch ParseFloat httpGet jsonDecode
      (mkProvider "https://api.coinmarketcap.com/v1/ticker/phore" ref CMCDecoder)
      (<[ref := ∅]> store)
    = (Ret tt, <[ref := {[ "PHR"%string := v ]}]> store,
       ["https://api.coinmarketcap.com/v1/ticker/phore"%string])).
  { unfold fetch. cbn [fetchUrl decoder pcache].
    change (String.length "https://api.coinmarketcap.com/v1/ticker/phore" =? 0)%nat with false.
    rewrite Hget, Hjson. unfold decodeInto. rewrite Hl.
    rewrite (decode_price ParseFloat o rest s v ∅ Hprice Hparse).
    now rewrite insert_insert_eq. }
  unfold GetLatestRate, fetchCurrentRates. cbn [providers fetchLoop]. rewrite Hfetch.
  unfold GetExchangeRate, GetAllRates, mapAt. cbn [cache].
  assert (Hl2 : (<[ref := {[ "PHR"%string := v ]}]> store
                 : gmap nat (gmap string PrimFloat.float)) !! ref
                = Some {[ "PHR"%string := v ]}) by apply lookup_insert_eq.
  rewrite Hl2. cbv [default from_option id].
  split; [now rewrite lookup_singleton_eq|]. split; [reflexivity|].
  split; [reflexivity|]. split.
  - intros code Hc. now rewrite lookup_singleton_ne by congruence.
  - intros r0 Href. rewrite lookup_insert_ne; [reflexivity|].
    intros <-. apply elem_of_dom in Href. now apply is_fresh in Href.
Qed.

Lemma GetLatestRate_of_new_fetcher_witness :
  let '(b, store1) := NewBitcoinPriceFetcher usdStore in
  let '(r, store2, log) := GetLatestRate parse_plain_decimal demoGet demoJson b "PHR" store1 in
  r = Ret price_0_542017
  /\ log = ["https://api.coinmarketcap.com/v1/ticker/phore"%string]
  /\ GetAllRates b store2 = {[ "PHR"%string := price_0_542017 ]}
  /\ (forall code, code <> "PHR"%string ->
        GetExchangeRate b code store2 = Fail "Currency not tracked")
  /\ (forall ref, is_Some (usdStore !! ref) -> store2 !! ref = usdStore !! ref).
Proof.
  apply (GetLatestRate_of_new_fetcher parse_plain_decimal demoGet demoJson usdStore
           "sample" "0.542017"
           (match samplePayload with JArray (JObject o :: _) => o | _ => ∅ end) []
           price_0_542017); vm_compute; reflexivity.
Defined.

End FetcherFacts.

(* ================================================================== *)
(** ** The protocol service: further properties *)
(* ================================================================== *)

Module ServiceExtras.
Import Service Requests.

(** The messages that arrive on a stream before its first read error. *)
Fixpoint arrivals (reads : list (result Message)) : list Message :=
  match reads with
  | Ok m :: rest => m :: arrivals rest
  | _ => []
  end.

(** The non-nil response of the handler of a message, when there is
    one. *)
Definition reply (service : OpenBazaarService) (mPeer : PeerID) (m : Message) : option Message :=
  match HandlerForMsgType service (MessageType m) with
  | Some handler =>
      match handler mPeer m with
      | Ok (Some rpmes) => Some rpmes
      | _ => None
      end
  | None => None
  end.

Lemma serve_handled_prefix (service : OpenBazaarService) (mPeer : PeerID)
  (wfail : Message -> bool) (reads : list (result Message)) :
  handled (serve service mPeer wfail reads) `prefix_of` arrivals reads.
Proof.
  induction reads as [|[pmes|err] rest IH]; cbn [serve arrivals].
  - apply prefix_nil.
  - unfold handled in *. cbn [omap list_omap].
    destruct (HandlerForMsgType service (MessageType pmes)) as [handler|];
      [|apply prefix_nil].
    cbn [omap list_omap]. apply prefix_cons.
    destruct (handler mPeer pmes) as [[rpmes|]|e]; cbn [omap list_omap];
      [destruct (wfail rpmes); [apply prefix_nil | exact IH] | exact IH | apply prefix_nil].
  - apply prefix_nil.
Qed.

Lemma serve_written (service : OpenBazaarService) (mPeer : PeerID)
  (wfail : Message -> bool) (reads : list (result Message)) :
  written (serve service mPeer wfail reads)
  = omap (reply service mPeer) (handled (serve service mPeer wfail reads)).
Proof.
  induction reads as [|[pmes|err] rest IH]; cbn [serve]; try reflexivity.
  destruct (HandlerForMsgType service (MessageType pmes)) as [handler|] eqn:Hh;
    [|reflexivity].
  destruct (handler mPeer pmes) as [[rpmes|]|e] eqn:Hr.
  - assert (Hreply : reply service mPeer pmes = Some rpmes)
      by (unfold reply; now rewrite Hh, Hr).
    destruct (wfail rpmes); unfold written, handled in *; cbn [omap list_omap];
      rewrite Hreply; [reflexivity|]. now rewrite IH.
  - assert (Hreply : reply service mPeer pmes = None)
      by (unfold reply; now rewrite Hh, Hr).
    unfold written, handled in *; cbn [omap list_omap]. now rewrite Hreply.
  - assert (Hreply : reply service mPeer pmes = None)
      by (unfold reply; now rewrite Hh, Hr).
    unfold written, handled in *; cbn [omap list_omap]. now rewrite Hreply.
Qed.

Lemma serve_reads (service : OpenBazaarService) (mPeer : PeerID)
  (wfail : Message -> bool) (reads : list (result Message)) :
  (length (handled (serve service mPeer wfail reads))
   <= length (readResults (serve service mPeer wfail reads))
   <= S (length (handled (serve service mPeer wfail reads))))%nat.
Proof.
  induction reads as [|[pmes|err] rest IH]; cbn [serve].
  - cbn. lia.
  - unfold handled, readResults in *. cbn [omap list_omap length].
    destruct (HandlerForMsgType service (MessageType pmes)) as [handler|]; [|cbn; lia].
    cbn [omap list_omap length].
    destruct (handler mPeer pmes) as [[rpmes|]|e]; cbn [omap list_omap length]; try lia.
    destruct (wfail rpmes); cbn [omap list_omap length]; lia.
  - cbn. lia.
Qed.

Lemma serve_no_close (service : OpenBazaarService) (mPeer : PeerID)
  (wfail : Message -> bool) (reads : list (result Message)) :
  Forall (fun e => match e with EvClose | EvBindSender _ => False | _ => True end)
         (serve service mPeer wfail reads).
Proof.
  induction reads as [|[pmes|err] rest IH]; cbn [serve]; repeat constructor.
  destruct (HandlerForMsgType service (MessageType pmes)) as [handler|]; repeat constructor.
  destruct (handler mPeer pmes) as [[rpmes|]|e]; repeat constructor; try exact IH.
  destruct (wfail rpmes); [constructor | exact IH].
Qed.

(** X11: Messages are dispatched in the order they arrive, none skipped and
    none twice: the messages handed to handlers are a prefix of the
    messages that arrive before the first read error. *)
Theorem dispatch_in_arrival_order (service : OpenBazaarService) (s : Stream) :
  handled (handleNewMessage service s) `prefix_of` arrivals (incoming s).
Proof.
  unfold handleNewMessage. destruct (IsBanned service (RemotePeer s)); [apply prefix_nil|].
  unfold handled. cbn [omap list_omap]. rewrite omap_app. cbn [omap list_omap]. rewrite app_nil_r.
  apply serve_handled_prefix.
Qed.

(** X12: The responses written to the stream are the non-nil replies of the
    handlers to the messages dispatched, one per message and in the same
    order; nothing else is ever written. *)
Theorem responses_are_the_replies (service : OpenBazaarService) (s : Stream) :
  written (handleNewMessage service s)
  = omap (reply service (RemotePeer s)) (handled (handleNewMessage service s)).
Proof.
  unfold handleNewMessage. destruct (IsBanned service (RemotePeer s)); [reflexivity|].
  unfold written, handled. cbn [omap list_omap]. rewrite !omap_app. cbn [omap list_omap]. rewrite !app_nil_r.
  apply serve_written.
Qed.

(** Every message read is dispatched, except at most one: the read that
    ends the loop. *)
Lemma at_most_one_read_undispatched (service : OpenBazaarService) (s : Stream) :
  (length (handled (handleNewMessage service s))
   <= length (readResults (handleNewMessage service s))
   <= S (length (handled (handleNewMessage service s))))%nat.
Proof.
  unfold handleNewMessage. destruct (IsBanned service (RemotePeer s)); [cbn; lia|].
  unfold handled, readResults. cbn [omap list_omap]. rewrite !omap_app. cbn [omap list_omap]. rewrite !app_nil_r.
  apply serve_reads.
Qed.

(** X13: For a peer that is not banned, the run binds the sender first and
    closes the stream last, each exactly once. *)
Theorem bound_first_closed_last (service : OpenBazaarService) (s : Stream) :
  IsBanned service (RemotePeer s) = false ->
  exists body,
    handleNewMessage service s = EvBindSender (RemotePeer s) :: body ++ [EvClose]
    /\ Forall (fun e => match e with EvClose | EvBindSender _ => False | _ => True end) body.
Proof.
  intros H. unfold handleNewMessage. rewrite H. eexists. split; [reflexivity|].
  apply serve_no_close.
Qed.

Lemma bound_first_closed_last_witness :
  exists body,
    handleNewMessage ServiceFacts.banningService ServiceFacts.friendlyStream
    = EvBindSender (RemotePeer ServiceFacts.friendlyStream) :: body ++ [EvClose]
    /\ Forall (fun e => match e with EvClose | EvBindSender _ => False | _ => True end) body.
Proof.
  apply (bound_first_closed_last ServiceFacts.banningService ServiceFacts.friendlyStream).
  reflexivity.
Defined.

(** [SendRequest] returns a response or an error, never both and never
    neither: the response is the sender's non-nil reply, the error is the
    sender's own or, when the sender comes back with neither, "no response
    from peer". *)
Lemma SendRequest_response_or_error
  (senderRequest : PeerID -> Message -> result (option Message))
  (p : PeerID) (pmes : Message) :
  (exists rpmes,
      SendRequest senderRequest p pmes = (Some rpmes, None)
      /\ senderRequest p pmes = Ok (Some rpmes))
  \/ (exists err,
      SendRequest senderRequest p pmes = (None, Some err)
      /\ (senderRequest p pmes = Err err
          \/ senderRequest p pmes = Ok None /\ err = "no response from peer"%string)).
Proof.
  unfold SendRequest. destruct (senderRequest p pmes) as [[r|]|e].
  - left. now exists r.
  - right. eexists. split; [reflexivity|]. now right.
  - right. exists e. split; [reflexivity|]. now left.
Qed.

End ServiceExtras.

(* ================================================================== *)
(** ** The wallet: further properties *)
(* ================================================================== *)

Module WalletExtras.
Import Wallet WalletFacts WalletMore.

(** *** The command line of the daemon *)

(** [defaultSocksPort] gives 9150 for the control port 9151 and 9050 for
    every other control port: the branch taken for 9051 gives what the
    default gives. *)
Lemma defaultSocksPort_values (controlPort : Z) :
  defaultSocksPort controlPort = if controlPort =? 9151 then 9150 else 9050.
Proof.
  unfold defaultSocksPort.
  destruct (Z.eqb_spec controlPort 9151) as [->|_]; [reflexivity|].
  destruct (Z.eqb_spec controlPort 9051) as [->|_]; reflexivity.
Qed.

Ltac string_cases :=
  cbv [String.append In];
  repeat match goal with
         | |- _ /\ _ => split
         | |- _ <-> _ => split
         | |- _ -> _ => intro
         | H : _ \/ _ |- _ => destruct H
         | H : False |- _ => destruct H
         | H : _ = _ |- _ => discriminate H
         end.

Lemma BuildArguments_connect (w : Launch) (rescan : bool) :
  trustedPeer w <> ""%string ->
  In (String.append "-connect=" (trustedPeer w)) (BuildArguments w rescan).
Proof.
  intros Htp. unfold BuildArguments. cbv zeta.
  destruct (String.eqb_spec (trustedPeer w) "") as [|_]; [contradiction|].
  cbn [negb]. destruct rescan, (useTor w); cbn [app In]; tauto.
Qed.

(** X14: The arguments [BuildArguments] hands to the daemon always begin with
    the wallet-notify command and [-server]; [-rescan] is among them
    exactly when a rescan is asked for, [-listen] and [-onlynet=onion]
    exactly when Tor is used, and a [-connect=] argument for the trusted
    peer exactly when there is one, whatever the trusted peer and the
    control port are. With Tor the proxy argument names port 9150 for the
    control port 9151 and port 9050 for every other control port. *)
Theorem BuildArguments_flags (w : Launch) (rescan : bool) :
  (exists rest,
      BuildArguments w rescan
      = "-walletnotify=curl -d %s http://localhost:8330/"%string :: "-server"%string :: rest)
  /\ (In "-rescan"%string (BuildArguments w rescan) <-> rescan = true)
  /\ (In "-listen"%string (BuildArguments w rescan) <-> useTor w = true)
  /\ (In "-onlynet=onion"%string (BuildArguments w rescan) <-> useTor w = true)
  /\ (In (String.append "-connect=" (trustedPeer w)) (BuildArguments w rescan)
      <-> trustedPeer w <> ""%string)
  /\ (useTor w = true ->
      In (String.append "-proxy:127.0.0.1:"
            (strconv_Itoa (if controlPort w =? 9151 then 9150 else 9050)))
         (BuildArguments w rescan)).
Proof.
  unfold BuildArguments. cbv zeta. rewrite defaultSocksPort_values.
  split;
    [destruct rescan, (negb (String.eqb (trustedPeer w) "")), (useTor w);
     eexists; cbv [String.append]; reflexivity|].
  destruct rescan, (String.eqb_spec (trustedPeer w) "") as [Htp|Htp], (useTor w);
    cbn [negb app]; try rewrite Htp;
    (repeat (split; [solve [string_cases; try reflexivity; try congruence; tauto]|]));
    intros Htor; try discriminate Htor;
    cbn [In]; repeat (first [left; reflexivity | right]).
Qed.

(** [strings.Split(s, ":")[0]] of a string with a colon is what precedes
    the first colon. *)
Fixpoint hasColon (s : string) : bool :=
  match s with
  | EmptyString => false
  | String c rest => Ascii.eqb c ":" || hasColon rest
  end.

Lemma beforeColon_app (host rest : string) :
  hasColon host = false ->
  beforeColon (String.append host (String ":" rest)) = host.
Proof.
  induction host as [|c host IH]; intros H; [reflexivity|].
  cbn [hasColon] in H. apply orb_false_iff in H as [Hc Hrest].
  rewrite MigrationFacts.sapp_cons. cbn [beforeColon]. rewrite Hc. now rewrite IH.
Qed.

(** X15: The wallet keeps the host of its trusted peer and drops the port:
    whatever follows the first colon of the address given to
    [NewBitcoindWallet] is cut off, so the daemon is told to connect to
    the host alone. *)
Theorem trusted_peer_port_is_dropped (host rest : string) (useTor rescan : bool)
  (torControlPort : Z) :
  hasColon host = false ->
  host <> ""%string ->
  trustedPeer (NewLaunch (String.append host (String ":" rest)) useTor torControlPort) = host
  /\ In (String.append "-connect=" host)
        (BuildArguments (NewLaunch (String.append host (String ":" rest)) useTor torControlPort)
           rescan).
Proof.
  intros Hc Hne.
  assert (Htp : trustedPeer (NewLaunch (String.append host (String ":" rest)) useTor torControlPort)
                = host).
  { unfold NewLaunch. cbv zeta. cbn [trustedPeer].
    destruct (String.eqb_spec (String.append host (String ":" rest)) "") as [He|_].
    - destruct host; [congruence|]. rewrite MigrationFacts.sapp_cons in He. discriminate He.
    - now apply beforeColon_app. }
  split; [exact Htp|].
  rewrite <- Htp at 1.
  apply BuildArguments_connect. now rewrite Htp.
Qed.

Lemma trusted_peer_port_is_dropped_witness :
  trustedPeer (NewLaunch "10.0.0.7:11771" true 9151) = "10.0.0.7"%string
  /\ In "-connect=10.0.0.7"%string (BuildArguments (NewLaunch "10.0.0.7:11771" true 9151) false).
Proof.
  apply (trusted_peer_port_is_dropped "10.0.0.7" "11771" true false 9151);
    [reflexivity | discriminate].
Defined.

(** *** The fee oracle *)

Lemma atoi_digits_not_a_digit (s : string) (acc : Z) (c : ascii) :
  In c (list_ascii_of_string s) ->
  ((48 <=? Z.of_N (N_of_ascii c)) && (Z.of_N (N_of_ascii c) <=? 57)) = false ->
  atoi_digits s acc = None.
Proof.
  revert acc. induction s as [|d s IH]; intros acc Hin Hc; [destruct Hin|].
  cbn [list_ascii_of_string In] in Hin. cbn [atoi_digits].
  destruct Hin as [->|Hin].
  - now rewrite Hc.
  - destruct ((48 <=? Z.of_N (N_of_ascii d)) && (Z.of_N (N_of_ascii d) <=? 57));
      [now apply IH | reflexivity].
Qed.

(** What [strconv_Atoi] does once the sign is off. *)
Definition atoi_body (neg : bool) (body : string) : option Z :=
  match body with
  | EmptyString => None
  | _ =>
      match atoi_digits body 0 with
      | Some n =>
          let v := if neg then - n else n in
          if (- 2 ^ 63 <=? v) && (v <? 2 ^ 63) then Some v else None
      | None => None
      end
  end.

Lemma strconv_Atoi_body (s : string) :
  exists neg body,
    strconv_Atoi s = atoi_body neg body
    /\ (In "."%char (list_ascii_of_string s) -> In "."%char (list_ascii_of_string body)).
Proof.
  destruct s as [|c s]; [exists false, EmptyString; split; [reflexivity | tauto]|].
  destruct (Ascii.eqb_spec c "-") as [->|Hm].
  - exists true, s. split; [reflexivity|]. intros [H|H]; [discriminate H | exact H].
  - destruct (Ascii.eqb_spec c "+") as [->|Hp].
    + exists false, s. split; [reflexivity|]. intros [H|H]; [discriminate H | exact H].
    + exists false, (String c s). split; [|tauto].
      destruct c as [[] [] [] [] [] [] [] []]; try reflexivity; congruence.
Qed.

Lemma strconv_Atoi_fraction (s : string) :
  In "."%char (list_ascii_of_string s) -> strconv_Atoi s = None.
Proof.
  intros Hin. destruct (strconv_Atoi_body s) as (neg & body & -> & Hbody).
  specialize (Hbody Hin). unfold atoi_body. destruct body; [destruct Hbody|].
  now rewrite (atoi_digits_not_a_digit _ 0 "."%char Hbody eq_refl).
Qed.

(** X16: An [estimatefee] answer with a decimal point in it (the daemon answers
    in coins per kilobyte, e.g. 0.00012) is never used: at every fee level
    [GetFeePerByte] then returns the default of 50 units per byte. *)
Theorem GetFeePerByte_fractional_answer (w : BitcoindWallet) (feeLevel : FeeLevel)
  (resp : string) :
  (forall nBlocks, RawRequest (rpcClient w) "estimatefee" nBlocks = Ok resp) ->
  In "."%char (list_ascii_of_string resp) ->
  GetFeePerByte w feeLevel = 50.
Proof.
  intros Hreq Hdot. unfold GetFeePerByte.
  destruct feeLevel; try reflexivity; rewrite Hreq, (strconv_Atoi_fraction _ Hdot); reflexivity.
Qed.

Lemma GetFeePerByte_fractional_answer_witness :
  GetFeePerByte (mkWallet demoParams (demoRPC "0.00012" half_coin)) PRIOIRTY = 50.
Proof.
  apply (GetFeePerByte_fractional_answer
           (mkWallet demoParams (demoRPC "0.00012" half_coin)) PRIOIRTY "0.00012").
  - intros nBlocks. reflexivity.
  - cbn. tauto.
Defined.

Lemma strconv_Atoi_range (s : string) (v : Z) :
  strconv_Atoi s = Some v -> - 2 ^ 63 <= v < 2 ^ 63.
Proof.
  destruct (strconv_Atoi_body s) as (neg & body & -> & _).
  unfold atoi_body. destruct body; [discriminate|].
  destruct (atoi_digits _ 0) as [n|]; [|discriminate]. cbv zeta.
  destruct (_ && _) eqn:Hr; [|discriminate]. intros [= <-].
  apply andb_true_iff in Hr as [H1 H2]. apply Z.leb_le in H1. apply Z.ltb_lt in H2. lia.
Qed.

(** X17: At the three levels that ask the daemon, a whole answer above zero is
    divided by 1000 and rounded down, so for an answer below 1000 the fee
    per byte is zero, not the default. *)
Theorem GetFeePerByte_divides_by_1000 (w : BitcoindWallet) (feeLevel : FeeLevel)
  (resp : string) (feePerKb : Z) :
  (forall nBlocks, RawRequest (rpcClient w) "estimatefee" nBlocks = Ok resp) ->
  strconv_Atoi resp = Some feePerKb ->
  0 < feePerKb ->
  feeLevel <> FEE_BUMP ->
  GetFeePerByte w feeLevel = feePerKb / 1000
  /\ (feePerKb < 1000 -> GetFeePerByte w feeLevel = 0).
Proof.
  intros Hreq Hparse Hpos Hlevel.
  assert (Hrange := strconv_Atoi_range _ _ Hparse).
  assert (Hfee : GetFeePerByte w feeLevel = feePerKb / 1000).
  { unfold GetFeePerByte.
    assert (Hfit : uint64 (Z.quot feePerKb 1000) = feePerKb / 1000).
    { rewrite Z.quot_div_nonneg by lia. unfold uint64. apply Z.mod_small.
      split; [apply Z.div_pos; lia | apply Z.div_lt_upper_bound; lia]. }
    destruct feeLevel; try congruence; rewrite Hreq, Hparse;
      (destruct (Z.leb_spec feePerKb 0); [lia|]); exact Hfit. }
  split; [exact Hfee|]. intros Hlt. rewrite Hfee. apply Z.div_small. lia.
Qed.

Lemma GetFeePerByte_divides_by_1000_witness :
  GetFeePerByte (mkWallet demoParams (demoRPC "999" half_coin)) NORMAL = 999 / 1000
  /\ (999 < 1000 -> GetFeePerByte (mkWallet demoParams (demoRPC "999" half_coin)) NORMAL = 0).
Proof.
  apply (GetFeePerByte_divides_by_1000
           (mkWallet demoParams (demoRPC "999" half_coin)) NORMAL "999" 999).
  - intros nBlocks. reflexivity.
  - reflexivity.
  - lia.
  - discriminate.
Defined.

(** *** Coins *)

Section CoinFacts.

Context (lib : Lib) (w : BitcoindWallet).

Lemma gatherLoop_filter (utxos : list ListUnspentResult) (m : list (Coin * ExtendedKey)) :
  gatherLoop lib w utxos m = gatherLoop lib w (List.filter luSpendable utxos) m.
Proof.
  revert m. induction utxos as [|u utxos IH]; intros m; [reflexivity|].
  cbn [List.filter]. destruct (luSpendable u) eqn:Hs.
  - cbn [gatherLoop]. rewrite Hs. cbn [negb].
    destruct (NewHashFromStr _); [|reflexivity].
    destruct (DecodeAddress _ _ _); [|reflexivity].
    destruct (PayToAddrScript _ _); [|reflexivity].
    destruct (DumpPrivKey _ _); [|reflexivity].
    apply IH.
  - cbn [gatherLoop]. rewrite Hs. cbn [negb]. apply IH.
Qed.

Lemma gatherLoop_coins (utxos : list ListUnspentResult) (m m' : list (Coin * ExtendedKey)) :
  gatherLoop lib w utxos m = (m', None) ->
  map (fun ck => (coinIndex (fst ck), coinValue (fst ck), ekIsPrivate (snd ck))) m'
  = map (fun ck => (coinIndex (fst ck), coinValue (fst ck), ekIsPrivate (snd ck))) m
    ++ map (fun u => (luVout u, int64_of_float (PrimFloat.mul (luAmount u) f100000000), true))
         (List.filter luSpendable utxos).
Proof.
  revert m. induction utxos as [|u utxos IH]; intros m H; cbn [gatherLoop] in H.
  - injection H as <-. cbn. now rewrite app_nil_r.
  - cbn [List.filter]. destruct (luSpendable u); cbn [negb] in H; [|now apply IH].
    destruct (NewHashFromStr _); [|discriminate H].
    destruct (DecodeAddress _ _ _); [|discriminate H].
    destruct (PayToAddrScript _ _); [|discriminate H].
    destruct (DumpPrivKey _ _); [|discriminate H].
    apply IH in H. rewrite H, map_app. cbn [map fst snd coinIndex coinValue ekIsPrivate].
    now rewrite <- app_assoc.
Qed.

End CoinFacts.

(** [gatherCoins] passes over the outputs the daemon marks as not
    spendable: what it returns, coins and error alike, is what it returns
    when the daemon does not list them at all. *)
Lemma gatherCoins_skips_unspendable (lib : Lib) (prm : Params) (rpc : RPCClient)
  (utxos : list ListUnspentResult) :
  ListUnspent rpc = Ok utxos ->
  gatherCoins lib (mkWallet prm rpc)
  = gatherCoins lib
      (mkWallet prm
         (mkRPCClient (RawRequest rpc) (Ok (List.filter luSpendable utxos)) (GetTransaction rpc)
            (DumpPrivKey rpc) (SendRawTransaction rpc) (GetAccountAddress rpc))).
Proof.
  intros H. unfold gatherCoins. cbn [rpcClient ListUnspent]. rewrite H.
  rewrite gatherLoop_filter.
  generalize (List.filter luSpendable utxos). intros l.
  generalize (@nil (Coin * ExtendedKey)).
  induction l as [|u l IH]; intros m; [reflexivity|].
  cbn [gatherLoop]. destruct (negb (luSpendable u)); [apply IH|].
  destruct (NewHashFromStr _); [|reflexivity].
  cbn [params rpcClient DumpPrivKey].
  destruct (DecodeAddress _ _ _); [|reflexivity].
  destruct (PayToAddrScript _ _); [|reflexivity].
  destruct (DumpPrivKey _ _); [|reflexivity].
  apply IH.
Qed.

(** A daemon with three unspent outputs, the second not spendable. *)
Definition mixedUnspent : list ListUnspentResult :=
  [mkListUnspentResult (Hash_String (repeat xab 32)) 0 "PExampleAddress" "76a9" half_coin 3 true;
   mkListUnspentResult (Hash_String (repeat xcd 32)) 1 "" "76a9" half_coin 3 false;
   mkListUnspentResult (Hash_String (repeat xef 32)) 2 "PExampleAddress" "76a9" half_coin 0 true].

Definition mixedRPC : RPCClient :=
  mkRPCClient
    (fun _ _ => Err "unknown method"%string)
    (Ok mixedUnspent)
    (fun _ _ => Ok (mkGetTransactionResult 0))
    (fun _ => Ok [x11; x22; x33])
    (fun tx _ => Ok (repeat x00 32))
    (fun _ => Ok (Addr "PInternalAddress")).

Lemma gatherCoins_skips_unspendable_witness :
  gatherCoins demoLib (mkWallet demoParams mixedRPC)
  = gatherCoins demoLib
      (mkWallet demoParams
         (mkRPCClient (RawRequest mixedRPC)
            (Ok (List.filter luSpendable mixedUnspent))
            (GetTransaction mixedRPC) (DumpPrivKey mixedRPC) (SendRawTransaction mixedRPC)
            (GetAccountAddress mixedRPC))).
Proof.
  apply (gatherCoins_skips_unspendable demoLib demoParams mixedRPC). reflexivity.
Defined.

(** X18: When [gatherCoins] returns without error it holds one coin for every
    spendable output the daemon lists, each with the output's index and its amount in units (the amount times 10^8) and
    each under a private key. *)
Theorem gatherCoins_one_coin_per_spendable (lib : Lib) (w : BitcoindWallet)
  (utxos : list ListUnspentResult) (m : list (Coin * ExtendedKey)) :
  ListUnspent (rpcClient w) = Ok utxos ->
  gatherCoins lib w = (m, None) ->
  map (fun ck => (coinIndex (fst ck), coinValue (fst ck), ekIsPrivate (snd ck))) m
  = map (fun u => (luVout u, int64_of_float (PrimFloat.mul (luAmount u) f100000000), true))
      (List.filter luSpendable utxos).
Proof.
  intros Hl H. unfold gatherCoins in H. rewrite Hl in H.
  exact (gatherLoop_coins lib w utxos [] m H).
Qed.

Lemma gatherCoins_one_coin_per_spendable_witness :
  map (fun ck => (coinIndex (fst ck), coinValue (fst ck), ekIsPrivate (snd ck)))
    (fst (gatherCoins demoLib (mkWallet demoParams mixedRPC)))
  = [(0, 50000000, true); (2, 50000000, true)].
Proof.
  exact (gatherCoins_one_coin_per_spendable demoLib (mkWallet demoParams mixedRPC)
           mixedUnspent (fst (gatherCoins demoLib (mkWallet demoParams mixedRPC)))
           eq_refl eq_refl).
Defined.

(** *** Partial signatures *)

Section SignatureFacts.

Context (lib : Lib).

(** The signature the signing loop of [CreateMultisigSignature] makes for
    position [i] of the unsigned transaction [tx]: it signs for the amount
    of the [i]-th input as given; none when signing fails. *)
Definition signatureAt (tx : MsgTx) (ins : list TransactionInput) (redeemScript : bytes)
  (signingKey : PrivateKey) (i : nat) : option Signature :=
  match ins !! i with
  | Some in_ =>
      match RawTxInWitnessSignature lib tx i (InValue in_) redeemScript signingKey with
      | Ok sig => Some (mkSignature (uint32 (Z.of_nat i)) sig)
      | Err _ => None
      end
  | None => None
  end.

Definition signedBy (tx : MsgTx) (ins : list TransactionInput) (redeemScript : bytes)
  (signingKey : PrivateKey) (i : nat) : bytes :=
  match signatureAt tx ins redeemScript signingKey i with
  | Some s => SigBytes s
  | None => []
  end.

Lemma signLoop_omap (tx : MsgTx) (ins : list TransactionInput) (signingKey : PrivateKey)
  (redeemScript : bytes) (indices : list nat) (sigs : list Signature) :
  Forall (fun i => (i < length ins)%nat) indices ->
  signLoop lib tx ins signingKey redeemScript indices sigs
  = Ret (sigs ++ omap (signatureAt tx ins redeemScript signingKey) indices).
Proof.
  intros H. revert sigs. induction H as [|i indices Hi _ IH]; intros sigs.
  - cbn. now rewrite app_nil_r.
  - cbn [signLoop omap list_omap]. unfold signatureAt at 1.
    destruct (lookup_lt_is_Some_2 ins i Hi) as [in_ Hin]. rewrite Hin.
    destruct (RawTxInWitnessSignature _ _ _ _ _ _) as [sig|e].
    + rewrite IH. now rewrite <- app_assoc.
    + apply IH.
Qed.

Lemma unsignedTx_fits (ins : list TransactionInput) (outs : list TransactionOutput)
  (redeemScript : bytes) (feePerByte : Z) :
  forallb hashFits ins = true ->
  exists tx, unsignedTx lib ins outs redeemScript feePerByte = Ret tx
             /\ length (TxIns tx) = length ins.
Proof.
  intros Hfit. unfold unsignedTx.
  destruct (addInputs_fits ins [] Hfit) as [txIn Hin]. rewrite Hin.
  eexists. split; [reflexivity|].
  cbn [InPlaceSort TxIns]. rewrite sort_by_length.
  apply addInputs_length in Hin. exact Hin.
Qed.

Lemma unsignedTx_too_long (ins : list TransactionInput) (outs : list TransactionOutput)
  (redeemScript : bytes) (feePerByte : Z) :
  forallb hashFits ins = false ->
  unsignedTx lib ins outs redeemScript feePerByte = Fail ErrHashStrSize.
Proof.
  intros Hfit. unfold unsignedTx. now rewrite (addInputs_too_long ins [] Hfit).
Qed.

Lemma CreateMultisigSignature_fits (ins : list TransactionInput)
  (outs : list TransactionOutput) (key : ExtendedKey) (redeemScript : bytes) (feePerByte : Z)
  (tx : MsgTx) (signingKey : PrivateKey) :
  unsignedTx lib ins outs redeemScript feePerByte = Ret tx ->
  length (TxIns tx) = length ins ->
  ECPrivKey lib key = Ok signingKey ->
  CreateMultisigSignature lib ins outs key redeemScript feePerByte
  = Ret (omap (signatureAt tx ins redeemScript signingKey) (seq 0 (length ins))).
Proof.
  intros Htx Hlen Hkey. unfold CreateMultisigSignature. rewrite Htx.
  change (Ret tx ≫= ?k) with (k tx). cbv beta. rewrite Hkey.
  change (call (Ok signingKey) ≫= ?k) with (k signingKey). cbv beta.
  rewrite signLoop_omap, Hlen; [reflexivity|].
  rewrite Hlen. apply Forall_forall. intros i Hi. apply elem_of_seq in Hi. lia.
Qed.

(** What the inner loops of [Multisign] find in the signatures of
    [CreateMultisigSignature]: for every position, the signature made for
    it. *)
Lemma sigFor_signed (f : nat -> option Signature) (a n i : nat) :
  (forall j s, f j = Some s -> InputIndex s = uint32 (Z.of_nat j)) ->
  Z.of_nat (a + n) <= 2 ^ 32 ->
  sigFor (omap f (seq a n)) (Z.of_nat i)
  = if (a <=? i)%nat && (i <? a + n)%nat
    then match f i with Some s => SigBytes s | None => [] end
    else [].
Proof.
  intros Hf. revert a. induction n as [|n IH]; intros a Hn.
  - cbn [seq omap list_omap sigFor].
    destruct (Nat.leb_spec a i), (Nat.ltb_spec i (a + 0)); cbn [andb]; try reflexivity; lia.
  - cbn [seq omap list_omap].
    assert (IH' := IH (S a) ltac:(lia)).
    destruct (f a) as [s|] eqn:Hfa.
    + cbn [sigFor]. rewrite (Hf a s Hfa). unfold uint32.
      rewrite Z.mod_small by lia.
      destruct (Z.eqb_spec (Z.of_nat a) (Z.of_nat i)) as [He|He].
      * apply Nat2Z.inj in He. subst i. rewrite Hfa.
        destruct (Nat.leb_spec a a), (Nat.ltb_spec a (a + S n)); cbn [andb]; try reflexivity; lia.
      * rewrite IH'.
        destruct (Nat.leb_spec (S a) i), (Nat.ltb_spec i (S a + n)),
          (Nat.leb_spec a i), (Nat.ltb_spec i (a + S n)); cbn [andb]; try reflexivity; lia.
    + rewrite IH'.
      destruct (Nat.eq_dec a i) as [->|He].
      * rewrite Hfa.
        destruct (Nat.leb_spec (S i) i), (Nat.leb_spec i i), (Nat.ltb_spec i (i + S n));
          cbn [andb]; try reflexivity; lia.
      * destruct (Nat.leb_spec (S a) i), (Nat.ltb_spec i (S a + n)),
          (Nat.leb_spec a i), (Nat.ltb_spec i (a + S n)); cbn [andb]; try reflexivity; lia.
Qed.

Lemma Multisign_tx_from_unsigned (ins : list TransactionInput) (outs : list TransactionOutput)
  (sigs1 sigs2 : list Signature) (b : byte) (rs : bytes) (feePerByte : Z) (utx : MsgTx) :
  unsignedTx lib ins outs (b :: rs) feePerByte = Ret utx ->
  Multisign_tx lib ins outs sigs1 sigs2 (b :: rs) feePerByte
  = Ret (mkMsgTx (Version utx)
           (imap (fun i input =>
                    mkTxIn (PreviousOutPoint input) (SignatureScript input)
                      (multisigWitness (Byte.eqb b OP_IF) (sigFor sigs1 (Z.of_nat i))
                         (sigFor sigs2 (Z.of_nat i)) (b :: rs))
                      (Sequence input))
                 (TxIns utx))
           (TxOuts utx) (LockTime utx)).
Proof.
  unfold unsignedTx, Multisign_tx. intros H.
  destruct (addInputs ins []) as [txIn| |]; try discriminate H.
  change (Ret txIn ≫= ?k) with (k txIn) in H. cbv beta zeta in H.
  injection H as <-. reflexivity.
Qed.

End SignatureFacts.

(** X19: With outpoint hashes that fit and a signing key that can be derived,
    [CreateMultisigSignature] returns, in order of position, one signature
    for every position of the unsigned transaction at which signing
    succeeds and none for the others. The signature for position [i]
    carries the index [i] and is made over the BIP-69 sorted transaction
    for the amount of the [i]-th input as given. *)
Theorem CreateMultisigSignature_signs_each_position (lib : Lib)
  (ins : list TransactionInput) (outs : list TransactionOutput) (key : ExtendedKey)
  (redeemScript : bytes) (feePerByte : Z) (signingKey : PrivateKey) :
  forallb hashFits ins = true ->
  ECPrivKey lib key = Ok signingKey ->
  exists tx,
    unsignedTx lib ins outs redeemScript feePerByte = Ret tx
    /\ length (TxIns tx) = length ins
    /\ CreateMultisigSignature lib ins outs key redeemScript feePerByte
       = Ret (omap (signatureAt lib tx ins redeemScript signingKey) (seq 0 (length ins))).
Proof.
  intros Hfit Hkey.
  destruct (unsignedTx_fits lib ins outs redeemScript feePerByte Hfit) as (tx & Htx & Hlen).
  exists tx. split; [exact Htx|]. split; [exact Hlen|].
  now apply CreateMultisigSignature_fits.
Qed.

Lemma CreateMultisigSignature_signs_each_position_witness :
  exists tx,
    unsignedTx demoLib demoIns demoOuts plainScript 1 = Ret tx
    /\ length (TxIns tx) = length demoIns
    /\ CreateMultisigSignature demoLib demoIns demoOuts demoKey plainScript 1
       = Ret (omap (signatureAt demoLib tx demoIns plainScript [x11; x22; x33])
                (seq 0 (length demoIns))).
Proof.
  apply (CreateMultisigSignature_signs_each_position demoLib demoIns demoOuts demoKey
           plainScript 1 [x11; x22; x33]); reflexivity.
Defined.

(** [CreateMultisigSignature] never panics, and it fails only with the
    hash parser's error for an outpoint hash of more than 32 bytes or with
    the error of the key derivation; a signature that cannot be made is
    passed over without an error. *)
Lemma CreateMultisigSignature_failures (lib : Lib)
  (ins : list TransactionInput) (outs : list TransactionOutput) (key : ExtendedKey)
  (redeemScript : bytes) (feePerByte : Z) :
  match CreateMultisigSignature lib ins outs key redeemScript feePerByte with
  | Ret _ => forallb hashFits ins = true /\ exists signingKey, ECPrivKey lib key = Ok signingKey
  | Fail err =>
      (forallb hashFits ins = false /\ err = ErrHashStrSize)
      \/ (forallb hashFits ins = true /\ ECPrivKey lib key = Err err)
  | Panic _ => False
  end.
Proof.
  destruct (forallb hashFits ins) eqn:Hfit.
  - destruct (unsignedTx_fits lib ins outs redeemScript feePerByte Hfit) as (tx & Htx & Hlen).
    destruct (ECPrivKey lib key) as [signingKey|err] eqn:Hkey.
    + rewrite (CreateMultisigSignature_fits lib _ _ _ _ _ tx signingKey Htx Hlen Hkey). eauto.
    + unfold CreateMultisigSignature. rewrite Htx.
      change (Ret tx ≫= ?k) with (k tx). cbv beta. rewrite Hkey. cbn. now right.
  - unfold CreateMultisigSignature. rewrite (unsignedTx_too_long lib _ _ _ _ Hfit). cbn.
    now left.
Qed.

(** X20: The two halves of a multisig payment agree: when two parties run
    [CreateMultisigSignature] on the same inputs, outputs, redeem script
    and fee, and [Multisign] is given what they return, it assembles the
    very transaction both signed (same outputs, same inputs in the same
    order) and the witness at every position holds the two signatures made
    for that position, an empty one where a party's signing failed. *)
Theorem Multisign_places_created_signatures (lib : Lib)
  (ins : list TransactionInput) (outs : list TransactionOutput) (key1 key2 : ExtendedKey)
  (redeemScript : bytes) (feePerByte : Z) (signingKey1 signingKey2 : PrivateKey) :
  forallb hashFits ins = true ->
  redeemScript <> [] ->
  Z.of_nat (length ins) <= 2 ^ 32 ->
  ECPrivKey lib key1 = Ok signingKey1 ->
  ECPrivKey lib key2 = Ok signingKey2 ->
  exists utx sigs1 sigs2 tx,
    unsignedTx lib ins outs redeemScript feePerByte = Ret utx
    /\ CreateMultisigSignature lib ins outs key1 redeemScript feePerByte = Ret sigs1
    /\ CreateMultisigSignature lib ins outs key2 redeemScript feePerByte = Ret sigs2
    /\ Multisign_tx lib ins outs sigs1 sigs2 redeemScript feePerByte = Ret tx
    /\ TxOuts tx = TxOuts utx
    /\ map PreviousOutPoint (TxIns tx) = map PreviousOutPoint (TxIns utx)
    /\ forall (i : nat) (input : TxIn),
         TxIns tx !! i = Some input ->
         Witness input
         = multisigWitness (beginsWithOP_IF redeemScript)
             (signedBy lib utx ins redeemScript signingKey1 i)
             (signedBy lib utx ins redeemScript signingKey2 i)
             redeemScript.
Proof.
  intros Hfit Hrs Hlen32 Hkey1 Hkey2.
  destruct (unsignedTx_fits lib ins outs redeemScript feePerByte Hfit) as (utx & Hutx & Hlen).
  destruct redeemScript as [|b rs]; [congruence|].
  exists utx. eexists. eexists. eexists.
  split; [exact Hutx|].
  split; [exact (CreateMultisigSignature_fits lib _ _ _ _ _ utx _ Hutx Hlen Hkey1)|].
  split; [exact (CreateMultisigSignature_fits lib _ _ _ _ _ utx _ Hutx Hlen Hkey2)|].
  split; [exact (Multisign_tx_from_unsigned lib _ _ _ _ _ _ _ utx Hutx)|].
  cbn [TxOuts TxIns]. split; [reflexivity|]. split.
  - apply list_eq. intros i. rewrite !list_lookup_fmap, list_lookup_imap.
    now destruct (TxIns utx !! i).
  - intros i input Hi. rewrite list_lookup_imap in Hi.
    destruct (TxIns utx !! i) as [x|] eqn:Hx; cbn in Hi; [|discriminate Hi].
    injection Hi as <-. cbn [Witness beginsWithOP_IF].
    apply lookup_lt_Some in Hx. rewrite Hlen in Hx.
    assert (Hidx : forall sk j s,
               signatureAt lib utx ins (b :: rs) sk j = Some s ->
               InputIndex s = uint32 (Z.of_nat j)).
    { intros sk j s. unfold signatureAt. destruct (ins !! j); [|discriminate].
      destruct (RawTxInWitnessSignature _ _ _ _ _ _); [|discriminate].
      now intros [= <-]. }
    rewrite !(sigFor_signed _ 0 (length ins) i (Hidx _)) by (cbn; lia).
    unfold signedBy.
    destruct (Nat.leb_spec 0 i), (Nat.ltb_spec i (0 + length ins)); cbn [andb]; try lia.
    reflexivity.
Qed.

Lemma Multisign_places_created_signatures_witness :
  exists utx sigs1 sigs2 tx,
    unsignedTx demoLib demoIns demoOuts timedScript 1 = Ret utx
    /\ CreateMultisigSignature demoLib demoIns demoOuts demoKey timedScript 1 = Ret sigs1
    /\ CreateMultisigSignature demoLib demoIns demoOuts demoKey timedScript 1 = Ret sigs2
    /\ Multisign_tx demoLib demoIns demoOuts sigs1 sigs2 timedScript 1 = Ret tx
    /\ TxOuts tx = TxOuts utx
    /\ map PreviousOutPoint (TxIns tx) = map PreviousOutPoint (TxIns utx)
    /\ forall (i : nat) (input : TxIn),
         TxIns tx !! i = Some input ->
         Witness input
         = multisigWitness (beginsWithOP_IF timedScript)
             (signedBy demoLib utx demoIns timedScript [x11; x22; x33] i)
             (signedBy demoLib utx demoIns timedScript [x11; x22; x33] i)
             timedScript.
Proof.
  apply (Multisign_places_created_signatures demoLib demoIns demoOuts demoKey demoKey
           timedScript 1 [x11; x22; x33] [x11; x22; x33]);
    first [reflexivity | discriminate | (cbn; lia)].
Defined.

(** *** Bumping a fee *)

Lemma NewHashFromStr_Hash_String (h : Hash) :
  length h = 32%nat -> NewHashFromStr (Hash_String h) = Ok h.
Proof.
  intros Hl. unfold Hash_String.
  rewrite NewHashFromStr_hex by (rewrite length_rev; lia).
  rewrite length_rev, Hl. cbn [HashSize Nat.sub repeat app]. now rewrite rev_involutive.
Qed.

Lemma bumpLoop_skips (lib : Lib) (w : BitcoindWallet) (txid : Hash)
  (before rest : list ListUnspentResult) :
  Forall (fun v => luTxID v <> Hash_String txid) before ->
  bumpLoop lib w txid (before ++ rest) = bumpLoop lib w txid rest.
Proof.
  induction 1 as [|v before Hv _ IH]; [reflexivity|].
  cbn [app bumpLoop]. apply String.eqb_neq in Hv. now rewrite Hv.
Qed.

(** X21: [BumpFee] sweeps the first unspent output of the transaction that the
    daemon lists, and only that one: for an unconfirmed transaction with a
    32-byte hash whose first listed output can be decoded, it is
    [SweepAddress] on that single output (at the outpoint made of the
    transaction's hash and the output's index, valued at the amount
    divided by 10^8), to a fresh address of the wallet, at the fee-bump
    level; the outputs listed after it play no part. *)
Theorem BumpFee_sweeps_first_match (lib : Lib) (w : BitcoindWallet) (txid : Hash)
  (tx : GetTransactionResult) (before after : list ListUnspentResult) (u : ListUnspentResult)
  (script : bytes) (addr : Address) (key : PrivateKey) :
  length txid = 32%nat ->
  GetTransaction (rpcClient w) txid false = Ok tx ->
  gtConfirmations tx <= 0 ->
  ListUnspent (rpcClient w) = Ok (before ++ u :: after) ->
  Forall (fun v => luTxID v <> Hash_String txid) before ->
  luTxID u = Hash_String txid ->
  luConfirmations u <= 0 ->
  hex_DecodeString (luScriptPubKey u) = Ok script ->
  DecodeAddress lib (luAddress u) (params w) = Ok addr ->
  DumpPrivKey (rpcClient w) addr = Ok key ->
  BumpFee lib w txid
  = SweepAddress lib w
      [mkUtxo (mkOutPoint txid (luVout u))
         (int64_of_float (PrimFloat.div (luAmount u) f100000000)) script]
      None
      (mkExtendedKey (HDPrivateKeyID (params w)) key (repeat x00 32) (repeat x00 4) 0 0 true)
      None FEE_BUMP.
Proof.
  intros Hlen Htx Hconf Hlist Hbefore Hu Huconf Hscript Haddr Hkey.
  unfold BumpFee. rewrite Htx. change (call (Ok tx) ≫= ?k) with (k tx). cbv beta.
  destruct (Z.ltb_spec 0 (gtConfirmations tx)); [lia|].
  rewrite Hlist. change (call (Ok ?x) ≫= ?k) with (k x). cbv beta.
  rewrite (bumpLoop_skips lib w txid before (u :: after) Hbefore).
  cbn [bumpLoop]. rewrite Hu, String.eqb_refl.
  destruct (Z.ltb_spec 0 (luConfirmations u)); [lia|].
  rewrite (NewHashFromStr_Hash_String txid Hlen), Hscript, Haddr, Hkey. reflexivity.
Qed.

Lemma BumpFee_sweeps_first_match_witness :
  BumpFee demoLib demoWallet demoTxid
  = SweepAddress demoLib demoWallet
      [mkUtxo (mkOutPoint demoTxid (luVout demoUnspent))
         (int64_of_float (PrimFloat.div (luAmount demoUnspent) f100000000)) [x76; xa9]]
      None
      (mkExtendedKey (HDPrivateKeyID (params demoWallet)) [x11; x22; x33]
         (repeat x00 32) (repeat x00 4) 0 0 true)
      None FEE_BUMP.
Proof.
  apply (BumpFee_sweeps_first_match demoLib demoWallet demoTxid (mkGetTransactionResult 0)
           [] [] demoUnspent [x76; xa9] (Addr "PExampleAddress") [x11; x22; x33]);
    first [reflexivity | (cbn; lia) | constructor].
Defined.

(** When the daemon lists no unspent output of the transaction, [BumpFee]
    returns the not-found error and nothing is swept or broadcast. *)
Lemma BumpFee_nothing_unspent (lib : Lib) (w : BitcoindWallet) (txid : Hash)
  (tx : GetTransactionResult) (unspent : list ListUnspentResult) :
  GetTransaction (rpcClient w) txid false = Ok tx ->
  gtConfirmations tx <= 0 ->
  ListUnspent (rpcClient w) = Ok unspent ->
  Forall (fun v => luTxID v <> Hash_String txid) unspent ->
  BumpFee lib w txid = Fail BumpFeeNotFoundError.
Proof.
  intros Htx Hconf Hlist Hnone.
  unfold BumpFee. rewrite Htx. change (call (Ok tx) ≫= ?k) with (k tx). cbv beta.
  destruct (Z.ltb_spec 0 (gtConfirmations tx)); [lia|].
  rewrite Hlist. change (call (Ok ?x) ≫= ?k) with (k x). cbv beta.
  rewrite <- (app_nil_r unspent). now rewrite (bumpLoop_skips lib w txid unspent [] Hnone).
Qed.

Lemma BumpFee_nothing_unspent_witness :
  BumpFee demoLib demoWallet (repeat x01 32) = Fail BumpFeeNotFoundError.
Proof.
  apply (BumpFee_nothing_unspent demoLib demoWallet (repeat x01 32) (mkGetTransactionResult 0)
           [demoUnspent]).
  - reflexivity.
  - cbn. lia.
  - reflexivity.
  - repeat constructor. discriminate.
Defined.

(** *** Sweeping *)

Section SweepFacts.

Context (lib : Lib).

Lemma signInput_frame (utxos : list Utxo) (redeemScript : option bytes) (timeLocked : bool)
  (privKey : PrivateKey) (tx tx' : MsgTx) (i : nat) :
  signInput lib utxos redeemScript timeLocked privKey tx i = Ret tx' ->
  Version tx' = Version tx /\ TxOuts tx' = TxOuts tx /\ LockTime tx' = LockTime tx
  /\ length (TxIns tx') = length (TxIns tx).
Proof.
  unfold signInput. destruct (TxIns tx !! i) as [txIn|]; [|discriminate].
  destruct redeemScript as [rs|].
  - destruct (utxos !! i) as [u|]; [|discriminate].
    destruct (RawTxInWitnessSignature _ _ _ _ _ _); [|discriminate].
    cbn. intros [= <-]. cbn. now rewrite length_insert.
  - destruct (SignTxOutput _ _ _ _ _ _ _); [|discriminate].
    intros [= <-]. cbn. now rewrite length_insert.
Qed.

Lemma signInputs_frame (utxos : list Utxo) (redeemScript : option bytes) (timeLocked : bool)
  (privKey : PrivateKey) (indices : list nat) (tx tx' : MsgTx) :
  signInputs lib utxos redeemScript timeLocked privKey tx indices = Ret tx' ->
  Version tx' = Version tx /\ TxOuts tx' = TxOuts tx /\ LockTime tx' = LockTime tx
  /\ length (TxIns tx') = length (TxIns tx).
Proof.
  revert tx. induction indices as [|i indices IH]; intros tx H; cbn [signInputs] in H.
  - injection H as <-. tauto.
  - destruct (signInput lib utxos redeemScript timeLocked privKey tx i) as [tx1| |] eqn:H1;
      try discriminate H.
    change (Ret tx1 ≫= ?k) with (k tx1) in H. cbv beta in H.
    apply IH in H. apply signInput_frame in H1.
    destruct H as (-> & -> & -> & ->). exact H1.
Qed.

Lemma setSequences_length (redeemScript : bytes) (txIn txIn' : list TxIn) :
  setSequences lib redeemScript txIn = Ret txIn' -> length txIn' = length txIn.
Proof.
  revert txIn'. induction txIn as [|x txIn IH]; intros txIn' H; cbn [setSequences] in H.
  - now injection H as <-.
  - destruct (LockTimeFromRedeemScript lib redeemScript); [|discriminate H].
    change (call (Ok ?x) ≫= ?k) with (k x) in H. cbv beta in H.
    destruct (setSequences lib redeemScript txIn) as [rest| |]; try discriminate H.
    injection H as <-. cbn. now rewrite (IH rest eq_refl).
Qed.

Lemma checkTimeLocked_frame (redeemScript : option bytes) (tx tx' : MsgTx) (timeLocked : bool) :
  checkTimeLocked lib redeemScript tx = Ret (timeLocked, tx') ->
  timeLocked = match redeemScript with Some rs => beginsWithOP_IF rs | None => false end
  /\ Version tx' = (if timeLocked then 2 else Version tx)
  /\ TxOuts tx' = TxOuts tx /\ LockTime tx' = LockTime tx
  /\ length (TxIns tx') = length (TxIns tx).
Proof.
  unfold checkTimeLocked. destruct redeemScript as [rs|].
  - destruct rs as [|b rs]; [discriminate|].
    change (isTimeLocked (b :: rs)) with (Ret (Byte.eqb b OP_IF)).
    change (Ret ?x ≫= ?k) with (k x). cbv beta zeta.
    destruct (setSequences lib (b :: rs) _) as [txIn| |] eqn:Hs; try discriminate.
    intros [= <- <-]. apply setSequences_length in Hs.
    cbn [beginsWithOP_IF]. destruct (Byte.eqb b OP_IF); cbn in *; tauto.
  - intros [= <- <-]. tauto.
Qed.






End SweepFacts.

(** The value [SweepAddress] gives its output: what the unspent outputs
    add up to less the fee, and zero when that is negative. *)
Definition sweepValue (lib : Lib) (w : BitcoindWallet) (utxos : list Utxo) (script : bytes)
  (redeemScript : option bytes) (feeLevel : FeeLevel) : Z :=
  let val := fold_left (fun v u => int64 (v + UtxoValue u)) utxos 0 in
  let txType :=
    match redeemScript with
    | None => P2PKH
    | Some rs =>
        match LockTimeFromRedeemScript lib rs with
        | Ok _ => P2SH_Multisig_Timelock_1Sig
        | Err _ => P2SH_1of2_Multisig
        end
    end in
  let estimatedSize :=
    EstimateSerializeSize lib (Z.of_nat (length utxos)) [NewTxOut val script] false txType in
  let fee := int (estimatedSize * int (GetFeePerByte w feeLevel)) in
  Z.max 0 (int64 (val - int64 fee)).

(** The transaction [SweepAddress] builds, signs and hands to the daemon,
    and the two ways it can still end after that: the daemon accepts the
    transaction and the hash returned is the one computed from the
    transaction (the daemon's own answer is dropped), or the daemon's
    error is returned. *)
Lemma SweepAddress_split (lib : Lib) (w : BitcoindWallet) (utxos : list Utxo)
  (address : option Address) (key : ExtendedKey) (redeemScript : option bytes)
  (feeLevel : FeeLevel) :
  SweepAddress lib w utxos address key redeemScript feeLevel
  = match SweepAddress_tx lib w utxos address key redeemScript feeLevel with
    | Ret tx =>
        match SendRawTransaction (rpcClient w) tx false with
        | Ok _ => Ret (TxHash lib tx)
        | Err err => Fail err
        end
    | Fail err => Fail err
    | Panic msg => Panic msg
    end.
Proof.
  unfold SweepAddress, SweepAddress_tx.
  destruct (PayToAddrScript lib _) as [script|]; [|reflexivity].
  change (call (Ok ?x) ≫= ?k) with (k x). cbv beta zeta.
  destruct (ECPrivKey lib key) as [privKey|]; [|reflexivity].
  change (call (Ok ?x) ≫= ?k) with (k x). cbv beta zeta.
  destruct (checkTimeLocked lib redeemScript _) as [[timeLocked tx1]| |]; try reflexivity.
  change (Ret ?x ≫= ?k) with (k x). cbv beta iota.
  destruct (signInputs _ _ _ _ _ _ _) as [tx2| |]; try reflexivity.
  change (Ret ?x ≫= ?k) with (k x). cbv beta.
  now destruct (SendRawTransaction _ _ _).
Qed.

Lemma SweepAddress_tx_inv (lib : Lib) (w : BitcoindWallet) (utxos : list Utxo)
  (address : option Address) (key : ExtendedKey) (redeemScript : option bytes)
  (feeLevel : FeeLevel) (tx : MsgTx) :
  SweepAddress_tx lib w utxos address key redeemScript feeLevel = Ret tx ->
  exists script,
    PayToAddrScript lib (match address with Some a => a | None => CurrentAddress w end)
    = Ok script
    /\ TxOuts tx = [mkTxOut (sweepValue lib w utxos script redeemScript feeLevel) script]
    /\ 0 <= sweepValue lib w utxos script redeemScript feeLevel
    /\ length (TxIns tx) = length utxos
    /\ LockTime tx = 0
    /\ Version tx
       = match redeemScript with
         | Some rs => if beginsWithOP_IF rs then 2 else 1
         | None => 1
         end.
Proof.
  unfold SweepAddress_tx. intros H. cbv zeta in H.
  destruct (PayToAddrScript lib _) as [script|]; [|discriminate H].
  change (call (Ok ?x) ≫= ?k) with (k x) in H. cbv beta zeta in H.
  destruct (ECPrivKey lib key) as [privKey|]; [|discriminate H].
  change (call (Ok ?x) ≫= ?k) with (k x) in H. cbv beta zeta in H.
  destruct (checkTimeLocked lib redeemScript _) as [[timeLocked tx1]| |] eqn:Hc;
    try discriminate H.
  change (Ret ?x ≫= ?k) with (k x) in H. cbv beta iota in H.
  apply signInputs_frame in H. destruct H as (Hv & Ho & Hl & Hn).
  apply checkTimeLocked_frame in Hc. destruct Hc as (Htl & Hv1 & Ho1 & Hl1 & Hn1).
  exists script. split; [reflexivity|].
  rewrite Ho, Ho1, Hl, Hl1, Hn, Hn1, Hv, Hv1.
  cbn [InPlaceSort TxIns TxOuts LockTime Version].
  rewrite sort_by_length, length_map.
  change (sort_by output_less [?o]) with [o].
  split; [|split; [unfold sweepValue; lia|]].
  - unfold sweepValue. cbv zeta. cbn [PkScript NewTxOut]. f_equal. f_equal.
    match goal with |- (if ?x <? 0 then 0 else ?x) = _ =>
      destruct (Z.ltb_spec x 0); lia end.
  - split; [reflexivity|]. split; [reflexivity|].
    subst timeLocked. destruct redeemScript as [rs|]; [|reflexivity].
    now destruct (beginsWithOP_IF rs).
Qed.

(** X22: When [SweepAddress] returns a hash, it is the hash of a transaction
    that the daemon accepted and that has one input per unspent output
    given and a single output paying the address: the outputs' total less
    the fee, and zero, never a negative amount, when the fee is larger
    than the total. Its lock time is 0 and its version is 2 exactly when a
    redeem script beginning with OP_IF is given. *)
Theorem SweepAddress_pays_one_output (lib : Lib) (w : BitcoindWallet) (utxos : list Utxo)
  (address : option Address) (key : ExtendedKey) (redeemScript : option bytes)
  (feeLevel : FeeLevel) (h : Hash) :
  SweepAddress lib w utxos address key redeemScript feeLevel = Ret h ->
  exists tx script,
    SweepAddress_tx lib w utxos address key redeemScript feeLevel = Ret tx
    /\ (exists answer, SendRawTransaction (rpcClient w) tx false = Ok answer)
    /\ h = TxHash lib tx
    /\ PayToAddrScript lib (match address with Some a => a | None => CurrentAddress w end)
       = Ok script
    /\ TxOuts tx = [mkTxOut (sweepValue lib w utxos script redeemScript feeLevel) script]
    /\ 0 <= sweepValue lib w utxos script redeemScript feeLevel
    /\ length (TxIns tx) = length utxos
    /\ LockTime tx = 0
    /\ Version tx
       = match redeemScript with
         | Some rs => if beginsWithOP_IF rs then 2 else 1
         | None => 1
         end.
Proof.
  rewrite SweepAddress_split. intros H.
  destruct (SweepAddress_tx lib w utxos address key redeemScript feeLevel) as [tx| |] eqn:Htx;
    try discriminate H.
  destruct (SendRawTransaction (rpcClient w) tx false) as [answer|] eqn:Hsend;
    [|discriminate H].
  injection H as <-.
  destruct (SweepAddress_tx_inv _ _ _ _ _ _ _ _ Htx) as (script & Hrest).
  exists tx, script. split; [reflexivity|]. split; [now exists answer|].
  split; [reflexivity | exact Hrest].
Qed.

Lemma SweepAddress_pays_one_output_witness :
  exists tx script,
    SweepAddress_tx demoLib demoWallet demoUtxos None demoKey None NORMAL = Ret tx
    /\ (exists answer, SendRawTransaction (rpcClient demoWallet) tx false = Ok answer)
    /\ repeat x00 32 = TxHash demoLib tx
    /\ PayToAddrScript demoLib (CurrentAddress demoWallet) = Ok script
    /\ TxOuts tx = [mkTxOut (sweepValue demoLib demoWallet demoUtxos script None NORMAL) script]
    /\ 0 <= sweepValue demoLib demoWallet demoUtxos script None NORMAL
    /\ length (TxIns tx) = length demoUtxos
    /\ LockTime tx = 0
    /\ Version tx = 1.
Proof.
  apply (SweepAddress_pays_one_output demoLib demoWallet demoUtxos None demoKey None NORMAL
           (repeat x00 32)).
  reflexivity.
Defined.






(** *** Multisig scripts *)

Lemma ecPubKeys_no_panic (lib : Lib) (keys : list ExtendedKey) :
  match ecPubKeys lib keys with Panic _ => False | _ => True end.
Proof.
  induction keys as [|key keys IH]; cbn [ecPubKeys]; [exact I|].
  destruct (ECPubKey lib key); cbn; [|exact I].
  destruct (ecPubKeys lib keys); cbn; tauto.
Qed.

(** X25: [GenerateMultisigScript] never panics: the timeout key is only
    dereferenced when the whole hours of the timeout are not zero, and then
    the guard at the head of the function has already refused a nil
    key. *)
Theorem GenerateMultisigScript_never_panics (lib : Lib) (w : BitcoindWallet)
  (keys : list ExtendedKey) (threshold timeout : Z) (timeoutKey : option ExtendedKey) :
  match GenerateMultisigScript lib w keys threshold timeout timeoutKey with
  | Panic _ => False
  | _ => True
  end.
Proof.
  unfold GenerateMultisigScript.
  destruct (_ && _) eqn:Hguard; [exact I|].
  destruct (_ <? threshold); [exact I|].
  pose proof (ecPubKeys_no_panic lib keys) as Hkeys.
  destruct (ecPubKeys lib keys) as [ecKeys| |]; [|exact I|destruct Hkeys].
  change (Ret ?x ≫= ?k) with (k x). cbv beta zeta.
  destruct (Z.eqb_spec (timeoutHours timeout) 0) as [|Hne].
  - change (Ret ?x ≫= ?k) with (k x). cbv beta.
    destruct (BuilderScript lib _); cbn; [|exact I].
    destruct (NewAddressWitnessScriptHash lib _ _); cbn; exact I.
  - destruct timeoutKey as [tk|].
    + destruct (ECPubKey lib tk); cbn; [|exact I].
      destruct (BuilderScript lib _); cbn; [|exact I].
      destruct (NewAddressWitnessScriptHash lib _ _); cbn; exact I.
    + rewrite andb_true_r in Hguard. apply Z.ltb_ge in Hguard.
      assert (0 <= timeoutHours timeout).
      { unfold timeoutHours, uint32_of_float, uint32. apply Z.mod_pos_bound. lia. }
      lia.
Qed.

(** With fewer keys than the threshold (and no missing timeout key),
    [GenerateMultisigScript] makes no script: it returns the error that
    names both numbers. *)
Lemma GenerateMultisigScript_too_few_keys (lib : Lib) (w : BitcoindWallet)
  (keys : list ExtendedKey) (threshold timeout : Z) (timeoutKey : option ExtendedKey) :
  timeoutHours timeout = 0 \/ timeoutKey <> None ->
  Z.of_nat (length keys) < threshold ->
  GenerateMultisigScript lib w keys threshold timeout timeoutKey
  = Fail (String.append "unable to generate multisig script with "
            (String.append (pretty threshold)
               (String.append " required signatures when there are only "
                  (String.append (pretty (length keys)) " public keys available")))).
Proof.
  intros Hguard Hfew. unfold GenerateMultisigScript.
  assert (Hg : (0 <? timeoutHours timeout)
               && match timeoutKey with None => true | Some _ => false end = false).
  { destruct Hguard as [->|Hk]; [reflexivity|].
    destruct timeoutKey; [apply andb_false_r | congruence]. }
  rewrite Hg. apply Z.ltb_lt in Hfew. now rewrite Hfew.
Qed.

Lemma GenerateMultisigScript_too_few_keys_witness :
  GenerateMultisigScript demoLib demoWallet [demoKey; demoKey] 3 0 None
  = Fail "unable to generate multisig script with 3 required signatures when there are only 2 public keys available".
Proof.
  apply (GenerateMultisigScript_too_few_keys demoLib demoWallet [demoKey; demoKey] 3 0 None).
  - left. reflexivity.
  - cbn. lia.
Defined.

(** *** Watched scripts *)

Section ScriptFacts.

Variable ExtractPkScriptAddrs : bytes -> result (list string).
Variable ImportAddressRescan : string -> bool -> option error.

(** The address [AddWatchedScript] imports for a script: the first one the
    script yields; none when the script cannot be read. *)
Definition firstAddress (script : bytes) : option string :=
  match ExtractPkScriptAddrs script with
  | Ok (a :: _) => Some a
  | _ => None
  end.

Lemma addScriptsLoop_imports (w : Watch) (scripts : list bytes) :
  started w = true ->
  Forall (fun script => ExtractPkScriptAddrs script <> Ok []) scripts ->
  addScriptsLoop ExtractPkScriptAddrs ImportAddressRescan w scripts
  = (w, Ret tt, omap firstAddress scripts).
Proof.
  intros Hs H. induction H as [|script scripts Hscript _ IH]; [reflexivity|].
  cbn [addScriptsLoop omap list_omap]. unfold AddWatchedScript, firstAddress at 1.
  rewrite Hs. cbn [negb].
  destruct (ExtractPkScriptAddrs script) as [[|a addrs]|err]; [congruence| |];
    rewrite IH; reflexivity.
Qed.

Lemma addScriptsLoop_panics (w : Watch) (before after : list bytes) (script : bytes) :
  started w = true ->
  Forall (fun script => ExtractPkScriptAddrs script <> Ok []) before ->
  ExtractPkScriptAddrs script = Ok [] ->
  addScriptsLoop ExtractPkScriptAddrs ImportAddressRescan w (before ++ script :: after)
  = (w, Panic index_out_of_range, omap firstAddress before).
Proof.
  intros Hs H Hscript. induction H as [|s before Hsc _ IH].
  - cbn [app addScriptsLoop omap list_omap]. unfold AddWatchedScript.
    rewrite Hs, Hscript. reflexivity.
  - cbn [app addScriptsLoop omap list_omap]. unfold AddWatchedScript, firstAddress at 1.
    rewrite Hs. cbn [negb].
    destruct (ExtractPkScriptAddrs s) as [[|a addrs]|err]; [congruence| |];
      rewrite IH; reflexivity.
Qed.

End ScriptFacts.

(** X26: Once the wallet is started, [addScripts] asks the daemon to import,
    in the order they were queued, the first address of every queued
    script that can be read; what the import or a failed reading returns
    is dropped, and the queue is left as it was, so a second run imports
    the same addresses again. *)
Theorem addScripts_imports_queue_in_order
  (ExtractPkScriptAddrs : bytes -> result (list string))
  (ImportAddressRescan : string -> bool -> option error) (w : Watch) :
  started w = true ->
  Forall (fun script => ExtractPkScriptAddrs script <> Ok []) (scriptsToAdd w) ->
  addScripts ExtractPkScriptAddrs ImportAddressRescan w
  = (w, Ret tt, omap (firstAddress ExtractPkScriptAddrs) (scriptsToAdd w)).
Proof. intros Hs H. unfold addScripts. now apply addScriptsLoop_imports. Qed.

(** A reading of scripts for the examples: the bytes of a script are the
    characters of its one address; the empty script has no address and a
    script beginning with 0xff cannot be read. *)
Definition demoExtract (script : bytes) : result (list string) :=
  match script with
  | [] => Ok []
  | xff :: _ => Err "unsupported script"
  | _ => Ok [string_of_list_ascii (map ascii_of_byte script)]
  end.

Definition demoImport (address : string) (rescan : bool) : option error :=
  if String.eqb address "B" then Some "import failed"%string else None.

Lemma addScripts_imports_queue_in_order_witness :
  addScripts demoExtract demoImport (mkWatch true [[x41]; [xff]; [x42]; [x43]])
  = (mkWatch true [[x41]; [xff]; [x42]; [x43]], Ret tt,
     omap (firstAddress demoExtract) [[x41]; [xff]; [x42]; [x43]]).
Proof.
  apply (addScripts_imports_queue_in_order demoExtract demoImport
           (mkWatch true [[x41]; [xff]; [x42]; [x43]])).
  - reflexivity.
  - repeat constructor; discriminate.
Defined.

(** X27: A script that yields no address is an error for [ScriptToAddress]
    ("unknown script") but a panic for [AddWatchedScript] on a started
    wallet, which takes the first address without looking at the length;
    queued before the start, such a script makes [addScripts] panic after
    it has imported the scripts queued before it. *)
Theorem script_without_address_panics
  (ExtractPkScriptAddrs : bytes -> result (list string))
  (ImportAddressRescan : string -> bool -> option error) (w : Watch)
  (before after : list bytes) (script : bytes) :
  ExtractPkScriptAddrs script = Ok [] ->
  started w = true ->
  Forall (fun script => ExtractPkScriptAddrs script <> Ok []) before ->
  scriptsToAdd w = before ++ script :: after ->
  ScriptToAddress ExtractPkScriptAddrs script = Fail "unknown script"
  /\ AddWatchedScript ExtractPkScriptAddrs ImportAddressRescan w script
     = (w, Panic index_out_of_range, [])
  /\ addScripts ExtractPkScriptAddrs ImportAddressRescan w
     = (w, Panic index_out_of_range, omap (firstAddress ExtractPkScriptAddrs) before).
Proof.
  intros Hscript Hs Hbefore Hqueue. split; [|split].
  - unfold ScriptToAddress. now rewrite Hscript.
  - unfold AddWatchedScript. now rewrite Hs, Hscript.
  - unfold addScripts. rewrite Hqueue. now apply addScriptsLoop_panics.
Qed.

Lemma script_without_address_panics_witness :
  ScriptToAddress demoExtract [] = Fail "unknown script"
  /\ AddWatchedScript demoExtract demoImport (mkWatch true [[x41]; []; [x42]]) []
     = (mkWatch true [[x41]; []; [x42]], Panic index_out_of_range, [])
  /\ addScripts demoExtract demoImport (mkWatch true [[x41]; []; [x42]])
     = (mkWatch true [[x41]; []; [x42]], Panic index_out_of_range,
        omap (firstAddress demoExtract) [[x41]]).
Proof.
  apply (script_without_address_panics demoExtract demoImport
           (mkWatch true [[x41]; []; [x42]]) [[x41]] [[x42]] []).
  - reflexivity.
  - reflexivity.
  - repeat constructor; discriminate.
  - reflexivity.
Defined.

(** Before the wallet is started [AddWatchedScript] only queues: nothing
    is asked of the daemon, the script is not even read, and the scripts
    wait in the order given. *)
Lemma scripts_wait_for_start
  (ExtractPkScriptAddrs : bytes -> result (list string))
  (ImportAddressRescan : string -> bool -> option error) (w : Watch) (scripts : list bytes) :
  started w = false ->
  fold_left
    (fun st script =>
       let '(w', _, log) := AddWatchedScript ExtractPkScriptAddrs ImportAddressRescan (fst st) script in
       (w', snd st ++ log))
    scripts (w, [])
  = (mkWatch false (scriptsToAdd w ++ scripts), []).
Proof.
  intros Hs. destruct w as [st queue]. cbn in Hs. subst st. cbn [scriptsToAdd].
  revert queue. induction scripts as [|script scripts IH]; intros queue.
  - cbn. now rewrite app_nil_r.
  - cbn [fold_left]. unfold AddWatchedScript at 2. cbn [started negb fst snd scriptsToAdd app].
    rewrite IH. now rewrite <- app_assoc.
Qed.

Lemma scripts_wait_for_start_witness :
  fold_left
    (fun st script =>
       let '(w', _, log) := AddWatchedScript demoExtract demoImport (fst st) script in
       (w', snd st ++ log))
    [[x41]; []] (mkWatch false [[x43]], [])
  = (mkWatch false ([[x43]] ++ [[x41]; []]), []).
Proof.
  apply (scripts_wait_for_start demoExtract demoImport (mkWatch false [[x43]]) [[x41]; []]).
  reflexivity.
Defined.


End WalletExtras.

(* ================================================================== *)
(** ** Dropbox storage and notifications: properties *)
(* ================================================================== *)

Module StorageFacts.
Import Dropbox.

Lemma length_append_one (s : string) (c : ascii) :
  String.length (String.append s (String c EmptyString)) = S (String.length s).
Proof.
  induction s as [|d s IH]; [reflexivity|].
  rewrite MigrationFacts.sapp_cons. cbn [String.length]. now rewrite IH.
Qed.

Lemma substring_append_one (s : string) (c : ascii) :
  String.substring 0 (String.length s) (String.append s (String c EmptyString)) = s.
Proof.
  induction s as [|d s IH]; [reflexivity|].
  rewrite MigrationFacts.sapp_cons. cbn [String.length String.substring]. now rewrite IH.
Qed.

Lemma directUrl_last (link : string) (c : ascii) :
  directUrl (String.append link (String c EmptyString)) = Ret (String.append link "1").
Proof.
  unfold directUrl. rewrite length_append_one. now rewrite substring_append_one.
Qed.

(** The ciphertext is uploaded under the hex of its SHA-256 digest, a path
    of one character more than twice the digest's length, and the shared
    link is asked for that same path, after the upload and only when the
    upload succeeded; the peer plays no part in what [Store] does. *)
Lemma Store_requests (api : Api) (peerID : string) (ciphertext : bytes) :
  snd (Store api peerID ciphertext)
  = ReqUpload (String.append "/" (Wallet.hex_EncodeToString (Sum256 api ciphertext))) ciphertext
    :: match Upload api (String.append "/" (Wallet.hex_EncodeToString (Sum256 api ciphertext)))
               ciphertext with
       | Ok _ =>
           [ReqCreateSharedLink
              (String.append "/" (Wallet.hex_EncodeToString (Sum256 api ciphertext)))]
       | Err _ => []
       end
  /\ String.length (String.append "/" (Wallet.hex_EncodeToString (Sum256 api ciphertext)))
     = S (2 * length (Sum256 api ciphertext))
  /\ Store api peerID ciphertext = Store api "" ciphertext.
Proof.
  split; [|split].
  - unfold Store. cbv zeta. destruct (Upload api _ ciphertext); [|reflexivity].
    now destruct (CreateSharedLink api _).
  - rewrite MigrationFacts.sapp_cons, MigrationFacts.sapp_nil. cbn [String.length].
    now rewrite WalletFacts.hex_length.
  - reflexivity.
Qed.

(** X28: When Dropbox answers with an empty link, [Store] panics: it cuts the
    last character off the link without looking at its length. *)
Theorem Store_empty_link_panics (api : Api) (peerID : string) (ciphertext : bytes) (u : unit) :
  Upload api (String.append "/" (Wallet.hex_EncodeToString (Sum256 api ciphertext))) ciphertext
  = Ok u ->
  CreateSharedLink api (String.append "/" (Wallet.hex_EncodeToString (Sum256 api ciphertext)))
  = Ok ""%string ->
  fst (Store api peerID ciphertext) = Panic slice_bounds_out_of_range.
Proof.
  intros Hup Hlink. unfold Store. cbv zeta. now rewrite Hup, Hlink.
Qed.

(** A stand-in for the services: every call succeeds, the link is
    [link]. *)
Definition demoApi (link : string) : Api :=
  mkApi (fun _ => repeat x5a 32)
        (fun _ _ => Ok tt)
        (fun _ => Ok link)
        (fun buf code => Ok (x11 :: buf))
        (fun b => Ok b)
        (fun m => string_of_list_ascii (map ascii_of_byte m))
        (fun s => Ok s).

Lemma Store_empty_link_panics_witness :
  fst (Store (demoApi "") "QmPeer" [x01; x02]) = Panic slice_bounds_out_of_range.
Proof.
  apply (Store_empty_link_panics (demoApi "") "QmPeer" [x01; x02] tt); reflexivity.
Defined.

(** X29: The address [Store] returns is made from the shared link with its
    last character, whatever it is, replaced by "1". *)
Theorem Store_direct_link (api : Api) (peerID : string) (ciphertext : bytes) (u : unit)
  (link : string) (c : ascii) (b m : bytes) (addr : string) :
  Upload api (String.append "/" (Wallet.hex_EncodeToString (Sum256 api ciphertext))) ciphertext
  = Ok u ->
  CreateSharedLink api (String.append "/" (Wallet.hex_EncodeToString (Sum256 api ciphertext)))
  = Ok (String.append link (String c EmptyString)) ->
  mh_Encode api (bytes_of_string (String.append link "1")) SHA1 = Ok b ->
  mh_Cast api b = Ok m ->
  NewMultiaddr api (String.append "/ipfs/" (String.append (B58String api m) "/https/")) = Ok addr ->
  fst (Store api peerID ciphertext) = Ret addr.
Proof.
  intros Hup Hlink Henc Hcast Haddr. unfold Store. cbv zeta. rewrite Hup, Hlink.
  cbn [fst]. rewrite directUrl_last.
  change (Ret ?x ≫= ?k) with (k x). cbv beta. rewrite Henc.
  change (call (Ok ?x) ≫= ?k) with (k x). cbv beta. rewrite Hcast.
  change (call (Ok ?x) ≫= ?k) with (k x). cbv beta. now rewrite Haddr.
Qed.

Lemma Store_direct_link_witness :
  fst (Store (demoApi "https://db.tt/abc?dl=0") "QmPeer" [x01; x02])
  = Ret (String.append "/ipfs/"
           (String.append
              (string_of_list_ascii
                 (map ascii_of_byte (x11 :: bytes_of_string "https://db.tt/abc?dl=1")))
              "/https/")).
Proof.
  apply (Store_direct_link (demoApi "https://db.tt/abc?dl=0") "QmPeer" [x01; x02] tt
           "https://db.tt/abc?dl=" "0"%char
           (x11 :: bytes_of_string "https://db.tt/abc?dl=1")
           (x11 :: bytes_of_string "https://db.tt/abc?dl=1"));
    reflexivity.
Defined.

End StorageFacts.

Module NotificationFacts.
Import Notifications.

(** The name of the Go type of a value. *)
Definition typeName (i : Data) : string :=
  match i with
  | AnOrderNotification _ => "OrderNotification"
  | APaymentNotification _ => "PaymentNotification"
  | AnOrderConfirmationNotification _ => "OrderConfirmationNotification"
  | AnOrderDeclinedNotification _ => "OrderDeclinedNotification"
  | AnOrderCancelNotification _ => "OrderCancelNotification"
  | ARefundNotification _ => "RefundNotification"
  | AFulfillmentNotification _ => "FulfillmentNotification"
  | ACompletionNotification _ => "CompletionNotification"
  | ADisputeOpenNotification _ => "DisputeOpenNotification"
  | ADisputeUpdateNotification _ => "DisputeUpdateNotification"
  | ADisputeCloseNotification _ => "DisputeCloseNotification"
  | ADisputeAcceptedNotification _ => "DisputeAcceptedNotification"
  | AFollowNotification _ => "FollowNotification"
  | AnUnfollowNotification _ => "UnfollowNotification"
  | AModeratorAddNotification _ => "ModeratorAddNotification"
  | AModeratorRemoveNotification _ => "ModeratorRemoveNotification"
  | AStatusNotification _ => "StatusNotification"
  | AChatMessage _ => "ChatMessage"
  | AChatRead _ => "ChatRead"
  | AChatTyping _ => "ChatTyping"
  | AnIncomingTransaction _ => "IncomingTransaction"
  | ATestNotification => "TestNotification"
  | SomeBytes _ => "[]byte"
  end.

(** The [Type] field of a value that has one. *)
Definition typeField (i : Data) : option string :=
  match i with
  | AnOrderNotification n => Some (order_Type n)
  | APaymentNotification n => Some (payment_Type n)
  | AnOrderConfirmationNotification n | AnOrderDeclinedNotification n
  | ARefundNotification n | AFulfillmentNotification n => Some (vendor_Type n)
  | AnOrderCancelNotification n | ACompletionNotification n => Some (buyer_Type n)
  | ADisputeOpenNotification n | ADisputeUpdateNotification n => Some (dispute_Type n)
  | ADisputeCloseNotification n | ADisputeAcceptedNotification n => Some (end_Type n)
  | AFollowNotification n | AnUnfollowNotification n
  | AModeratorAddNotification n | AModeratorRemoveNotification n => Some (peer_Type n)
  | _ => None
  end.

(** The tag a reader finds in a wrapped notification. *)
Definition typeTag (w : Wrapped) : option string :=
  match w with
  | notificationWrapper n => typeField n
  | _ => None
  end.

(** X30: The tag [wrap] writes into a notification tells its Go type: two
    values wrapped as notifications with the same tag are of the same
    type, whatever their [Type] fields held before. An
    [OrderDeclinedNotification], alone among the notifications with a
    [Type] field, has no case in [wrap]: it is returned as it came, not
    wrapped and with the [Type] it was given. *)
Theorem wrap_tag_tells_the_type :
  (forall (a b : Data) (t : string),
      typeTag (wrap a) = Some t -> typeTag (wrap b) = Some t -> typeName a = typeName b)
  /\ (forall i : Data,
        typeField i <> None ->
        typeTag (wrap i) = None ->
        typeName i = "OrderDeclinedNotification"%string /\ wrap i = unwrapped i).
Proof.
  split.
  - intros a b t Ha Hb.
    destruct a; cbn in Ha; try discriminate Ha; injection Ha as <-;
      destruct b; cbn in Hb; try discriminate Hb; reflexivity.
  - intros i Hf Ht. destruct i; cbn in Hf, Ht; try discriminate Ht; try congruence.
    split; reflexivity.
Qed.

(** [Describe] has a text for nothing that [wrap] does not tag, the test
    notification apart; but five of the types that [wrap] tags
    (DisputeAccepted, Follow, Unfollow, ModeratorAdd, ModeratorRemove)
    get an empty head and an empty body. *)
Lemma Describe_covers_fewer_than_wrap :
  (forall i : Data,
      Describe i <> (""%string, ""%string) ->
      i = ATestNotification \/ exists t, typeTag (wrap i) = Some t)
  /\ (forall i : Data,
        In (typeName i)
           ["DisputeAcceptedNotification"; "FollowNotification"; "UnfollowNotification";
            "ModeratorAddNotification"; "ModeratorRemoveNotification"]%string ->
        Describe i = (""%string, ""%string) /\ exists t, typeTag (wrap i) = Some t).
Proof.
  split.
  - intros i H. destruct i; cbn in H; try congruence; cbn; eauto.
  - intros i H. cbn [In] in H.
    destruct i; cbn in H;
      try (exfalso; repeat (destruct H as [H|H]; [discriminate H|]); exact H);
      split; cbn; eauto.
Qed.

(** The order notification names the buyer by handle, and by peer ID only
    when the handle is empty. *)
Example Describe_order_buyer :
  snd (Describe (AnOrderNotification
                   (mkOrderNotification "n1" "" "Socks" "QmBuyer" "" (mkThumbnail "t" "s")
                      "QmOrder" "socks")))
  = String.append "You received an order " (String.append dq (String.append "Socks"
      (String.append dq (String.append "." (String.append nl (String.append nl
        (String.append "Order ID: QmOrder" (String.append nl
          (String.append "Buyer: QmBuyer" (String.append nl
            (String.append "Thumbnail: s" nl))))))))))).
Proof. vm_compute. reflexivity. Qed.

End NotificationFacts.
